(** * Signalerr: command router and request lifecycle

    A shallow embedding of the parts of the Signalerr bot that decide its
    request lifecycle: the persistent tables and their CRUD layer
    ([db/models.py], [db/crud.py]), the Overseerr client ([api/overseerr.py]),
    the message handler ([bot/message_handler.py]) and the scheduler jobs
    ([bot/bot.py]).

    Conventions of the embedding.
    - A Python [str] is a [string] holding its UTF-8 encoding.  White space,
      digits and letter case are those of ASCII; every other byte is carried
      through unchanged.
    - A [datetime] is a number of seconds ([Z]); the clock reading
      [datetime.utcnow()] is an argument [now] of every operation that reads it.
    - The database is a record of tables, each a list of rows in insertion
      order; a committed operation returns the new database.
    - Calls to the Signal client and to Overseerr are recorded, in order, in
      the [outbox] and [api_calls] of the world; the answers of Overseerr come
      from an [Overseerr] record of answer functions. *)

From Stdlib Require Import ZArith Ascii String List Bool Lia.
From stdpp Require Import base option list strings gmap pretty sorting.

Local Open Scope string_scope.
Local Open Scope list_scope.
Local Open Scope Z_scope.

(** ** Text primitives *)

Module Text.

(** [str.isspace] on the ASCII range: TAB..CR, FS..US and the space. *)
Definition is_space (a : ascii) : bool :=
  let n := N_of_ascii a in
  (((9 <=? n) && (n <=? 13)) || ((28 <=? n) && (n <=? 32)))%N.

(** [\d] on the ASCII range. *)
Definition is_digit (a : ascii) : bool :=
  let n := N_of_ascii a in ((48 <=? n) && (n <=? 57))%N.

Definition digit_val (a : ascii) : Z := Z.of_N (N_of_ascii a) - 48.

Definition lower_char (a : ascii) : ascii :=
  let n := N_of_ascii a in
  if ((65 <=? n) && (n <=? 90))%N then ascii_of_N (n + 32) else a.

(** [s.lower()] *)
Fixpoint lower (s : string) : string :=
  match s with
  | EmptyString => EmptyString
  | String a s' => String (lower_char a) (lower s')
  end.

(** [s.lstrip()] *)
Fixpoint lstrip (s : string) : string :=
  match s with
  | EmptyString => EmptyString
  | String a s' => if is_space a then lstrip s' else s
  end.

(** [s.rstrip()] *)
Fixpoint rstrip (s : string) : string :=
  match s with
  | EmptyString => EmptyString
  | String a s' =>
      match rstrip s' with
      | EmptyString => if is_space a then EmptyString else String a EmptyString
      | r => String a r
      end
  end.

(** [s.strip()] *)
Definition strip (s : string) : string := rstrip (lstrip s).

(** [s.lstrip(c)] for a one-character argument. *)
Fixpoint lstrip_char (c : ascii) (s : string) : string :=
  match s with
  | EmptyString => EmptyString
  | String a s' => if Ascii.eqb a c then lstrip_char c s' else s
  end.

(** The loop of [s.split()]: [cur] is the word being read. *)
Fixpoint split_go (cur : string) (s : string) : list string :=
  match s with
  | EmptyString => match cur with EmptyString => [] | _ => [cur] end
  | String a s' =>
      if is_space a
      then match cur with
           | EmptyString => split_go EmptyString s'
           | _ => cur :: split_go EmptyString s'
           end
      else split_go (cur +:+ String a EmptyString) s'
  end.

(** [s.split()] *)
Definition split (s : string) : list string := split_go EmptyString s.

(** [sep.join(parts)] *)
Fixpoint join (sep : string) (parts : list string) : string :=
  match parts with
  | [] => EmptyString
  | [p] => p
  | p :: ps => p +:+ sep +:+ join sep ps
  end.

(** [s.startswith(p)] *)
Definition startswith (s p : string) : bool := String.prefix p s.

(** [s.startswith(tuple)] *)
Definition startswith_any (s : string) (ps : list string) : bool :=
  existsb (startswith s) ps.

(** [sub in s] *)
Fixpoint contains (sub s : string) : bool :=
  startswith s sub ||
  match s with
  | EmptyString => false
  | String _ s' => contains sub s'
  end.

(** Longest prefix of white space, dropped: the greedy [\s*]. *)
Definition skip_spaces (s : string) : string := lstrip s.

(** Longest prefix of digits and what follows it: the greedy [\d*]. *)
Fixpoint span_digits (s : string) : string * string :=
  match s with
  | EmptyString => (EmptyString, EmptyString)
  | String a s' =>
      if is_digit a
      then let '(d, r) := span_digits s' in (String a d, r)
      else (EmptyString, s)
  end.

(** [int(d)] for a string of digits. *)
Definition int_of_digits (d : string) : Z :=
  fold_left (fun acc a => 10 * acc + digit_val a) (list_ascii_of_string d) 0.

(** The digits of a decimal numeral as [int] reads it: digits, with single
    underscores allowed between two of them.  [after_digit] tells whether the
    character before was a digit. *)
Fixpoint numeral_digits (after_digit : bool) (s : string) : option string :=
  match s with
  | EmptyString => if after_digit then Some EmptyString else None
  | String a s' =>
      if is_digit a then String a <$> numeral_digits true s'
      else if Ascii.eqb a "_" && after_digit then numeral_digits false s'
      else None
  end.

(** [int(s)] for a decimal numeral with optional sign and surrounding white
    space; [None] stands for the [ValueError]. *)
Definition py_int (s : string) : option Z :=
  let body (t : string) : option Z := int_of_digits <$> numeral_digits false t in
  match strip s with
  | String "-" t => Z.opp <$> body t
  | String "+" t => body t
  | t => body t
  end.

(** The characters of [s] up to its first white space. *)
Fixpoint first_token (s : string) : string :=
  match s with
  | EmptyString => EmptyString
  | String a s' => if is_space a then EmptyString else String a (first_token s')
  end.

(** [s] has no white space. *)
Fixpoint no_space (s : string) : bool :=
  match s with
  | EmptyString => true
  | String a s' => negb (is_space a) && no_space s'
  end.

(** [s] consists of digits. *)
Fixpoint all_digits (s : string) : bool :=
  match s with
  | EmptyString => true
  | String a s' => is_digit a && all_digits s'
  end.

(** Truth value of a string: non-empty. *)
Definition truthy (s : string) : bool :=
  match s with EmptyString => false | _ => true end.

(** [range(a, b)] *)
Definition range (a b : Z) : list Z :=
  map (fun i => a + Z.of_nat i) (seq 0 (Z.to_nat (b - a))).

End Text.

(** ** Data model ([db/models.py]) *)

Inductive VerbosityLevel := VERBOSE | SIMPLE | CASUAL.

Inductive RequestStatus :=
  PENDING | APPROVED | DOWNLOADING | COMPLETED | FAILED | DECLINED.

Inductive MediaType := MOVIE | TV.

Global Instance RequestStatus_eq_dec : EqDecision RequestStatus.
Proof. solve_decision. Defined.

Global Instance MediaType_eq_dec : EqDecision MediaType.
Proof. solve_decision. Defined.

(** [status.value] *)
Definition RequestStatus_value (s : RequestStatus) : string :=
  match s with
  | PENDING => "pending"
  | APPROVED => "approved"
  | DOWNLOADING => "downloading"
  | COMPLETED => "completed"
  | FAILED => "failed"
  | DECLINED => "declined"
  end.

(** [RequestStatus(value)]; [None] stands for the [ValueError]. *)
Definition RequestStatus_of (v : string) : option RequestStatus :=
  if String.eqb v "pending" then Some PENDING
  else if String.eqb v "approved" then Some APPROVED
  else if String.eqb v "downloading" then Some DOWNLOADING
  else if String.eqb v "completed" then Some COMPLETED
  else if String.eqb v "failed" then Some FAILED
  else if String.eqb v "declined" then Some DECLINED
  else None.

(** [MediaType(value)] *)
Definition MediaType_of (v : string) : option MediaType :=
  if String.eqb v "movie" then Some MOVIE
  else if String.eqb v "tv" then Some TV
  else None.

Record User := {
  u_id : Z;
  phone_number : string;
  display_name : option string;
  is_admin : bool;
  is_active : bool;
  verbosity_level : VerbosityLevel;
  auto_notifications : bool;
  daily_request_limit : Z;
  u_created_at : Z;
  last_active : Z;
}.

Record MediaRequest := {
  r_id : Z;
  user_id : Z;
  overseerr_request_id : option Z;
  media_type : MediaType;
  media_id : Z;
  title : string;
  year : option Z;
  status : RequestStatus;
  is_4k : bool;
  seasons_requested : option (list Z);
  created_at : Z;
  updated_at : Z;
  completed_at : option Z;
  error_message : option string;
}.

Record LogEntry := {
  level : string;
  module : string;
  log_user_id : option Z;
  log_request_id : option Z;
}.

Record Database := {
  users : list User;
  media_requests : list MediaRequest;
  settings : gmap string string;
  log_entries : list LogEntry;
}.

Definition with_users (db : Database) (us : list User) : Database :=
  {| users := us; media_requests := media_requests db;
     settings := settings db; log_entries := log_entries db |}.

Definition with_media_requests (db : Database) (rs : list MediaRequest) : Database :=
  {| users := users db; media_requests := rs;
     settings := settings db; log_entries := log_entries db |}.

Definition with_log_entries (db : Database) (ls : list LogEntry) : Database :=
  {| users := users db; media_requests := media_requests db;
     settings := settings db; log_entries := ls |}.

(** An exception, with the text of [str(e)]. *)
Inductive exn :=
  | ValueError (text : string)
  | IntegrityError (text : string)
  | ConflictingIdError (text : string)
  | AttributeError (text : string).

Definition exn_text (e : exn) : string :=
  match e with
  | ValueError t => t
  | IntegrityError t => t
  | ConflictingIdError t => t
  | AttributeError t => t
  end.

Inductive result (A : Type) := Ok (a : A) | Raise (e : exn).
Arguments Ok {A} a.
Arguments Raise {A} e.

(** The calendar day of a time stamp: [date(t)]. *)
Definition date (t : Z) : Z := t `div` 86400.

(** Truth value of an optional integer: [None] and [0] are false. *)
Definition truthy_int (o : option Z) : bool :=
  match o with Some n => negb (n =? 0) | None => false end.

(** Truth value of an optional string: [None] and the empty string are false. *)
Definition truthy_str (o : option string) : bool :=
  match o with Some s => Text.truthy s | None => false end.

(** Truth value of an optional list. *)
Definition truthy_list {A} (o : option (list A)) : bool :=
  match o with Some (_ :: _) => true | _ => false end.

(** [User.get_daily_request_count] *)
Definition get_daily_request_count (u : User) (db : Database) (now : Z) : Z :=
  let today := date now in
  Z.of_nat (length (filter
    (fun r => user_id r = u_id u /\ date (created_at r) = today)
    (media_requests db))).

(** [User.can_make_request] *)
Definition can_make_request (u : User) (db : Database) (now : Z) : bool :=
  get_daily_request_count u db now <? daily_request_limit u.

(** [MediaRequest.set_seasons_requested] *)
Definition set_seasons_requested (seasons : option (list Z)) : option (list Z) :=
  if truthy_list seasons then seasons else None.

(** [Settings.get_setting] *)
Definition get_setting (db : Database) (key dflt : string) : string :=
  default dflt (settings db !! key).

(** ** CRUD layer ([db/crud.py]) *)

Module UserCRUD.

(** [UserCRUD.get_user_by_phone] *)
Definition get_user_by_phone (db : Database) (phone : string) : option User :=
  find (fun u => String.eqb (phone_number u) phone) (users db).

(** [UserCRUD.get_user_by_id] *)
Definition get_user_by_id (db : Database) (id : Z) : option User :=
  find (fun u => u_id u =? id) (users db).

Definition set_last_active (u : User) (t : Z) : User :=
  {| u_id := u_id u; phone_number := phone_number u;
     display_name := display_name u; is_admin := is_admin u;
     is_active := is_active u; verbosity_level := verbosity_level u;
     auto_notifications := auto_notifications u;
     daily_request_limit := daily_request_limit u;
     u_created_at := u_created_at u; last_active := t |}.

(** [UserCRUD.update_user(user_id, last_active=...)]: the one use the
    message handler makes of it on every message.  The keyword value is
    overwritten by the stamp the function sets itself. *)
Definition update_user_last_active (db : Database) (now : Z) (id : Z) : Database :=
  match get_user_by_id db id with
  | None => db
  | Some _ =>
      with_users db
        (map (fun u => if u_id u =? id then set_last_active u now else u) (users db))
  end.

(** The key the table gives a new user. *)
Definition next_user_id (db : Database) : Z :=
  1 + fold_right Z.max 0 (map u_id (users db)).

(** [UserCRUD.create_user]; the phone number is a unique column. *)
Definition create_user (db : Database) (now : Z) (phone : string)
    (name : option string) (admin : bool) : result (Database * User) :=
  match get_user_by_phone db phone with
  | Some _ => Raise (IntegrityError "UNIQUE constraint failed: users.phone_number")
  | None =>
      let user :=
        {| u_id := next_user_id db; phone_number := phone; display_name := name;
           is_admin := admin; is_active := true; verbosity_level := SIMPLE;
           auto_notifications := true; daily_request_limit := 10;
           u_created_at := now; last_active := now |} in
      Ok (with_users db (users db ++ [user]), user)
  end.

(** [UserCRUD.get_all_users] *)
Definition get_all_users (db : Database) (active_only : bool) : list User :=
  if active_only then filter (fun u => is_active u = true) (users db) else users db.

(** One keyword argument of [update_user]: a column and its new value, or
    a name that is no attribute of a user. *)
Inductive user_attr :=
  | attr_display_name (v : option string)
  | attr_is_admin (v : bool)
  | attr_is_active (v : bool)
  | attr_verbosity_level (v : VerbosityLevel)
  | attr_auto_notifications (v : bool)
  | attr_daily_request_limit (v : Z)
  | attr_last_active (v : Z)
  | attr_unknown (name : string).

(** [setattr(user, key, value)], done only if [hasattr(user, key)]. *)
Definition set_attr (u : User) (a : user_attr) : User :=
  match a with
  | attr_display_name v =>
      {| u_id := u_id u; phone_number := phone_number u; display_name := v;
         is_admin := is_admin u; is_active := is_active u;
         verbosity_level := verbosity_level u;
         auto_notifications := auto_notifications u;
         daily_request_limit := daily_request_limit u;
         u_created_at := u_created_at u; last_active := last_active u |}
  | attr_is_admin v =>
      {| u_id := u_id u; phone_number := phone_number u;
         display_name := display_name u;
         is_admin := v; is_active := is_active u;
         verbosity_level := verbosity_level u;
         auto_notifications := auto_notifications u;
         daily_request_limit := daily_request_limit u;
         u_created_at := u_created_at u; last_active := last_active u |}
  | attr_is_active v =>
      {| u_id := u_id u; phone_number := phone_number u;
         display_name := display_name u;
         is_admin := is_admin u; is_active := v;
         verbosity_level := verbosity_level u;
         auto_notifications := auto_notifications u;
         daily_request_limit := daily_request_limit u;
         u_created_at := u_created_at u; last_active := last_active u |}
  | attr_verbosity_level v =>
      {| u_id := u_id u; phone_number := phone_number u;
         display_name := display_name u;
         is_admin := is_admin u; is_active := is_active u;
         verbosity_level := v;
         auto_notifications := auto_notifications u;
         daily_request_limit := daily_request_limit u;
         u_created_at := u_created_at u; last_active := last_active u |}
  | attr_auto_notifications v =>
      {| u_id := u_id u; phone_number := phone_number u;
         display_name := display_name u;
         is_admin := is_admin u; is_active := is_active u;
         verbosity_level := verbosity_level u;
         auto_notifications := v;
         daily_request_limit := daily_request_limit u;
         u_created_at := u_created_at u; last_active := last_active u |}
  | attr_daily_request_limit v =>
      {| u_id := u_id u; phone_number := phone_number u;
         display_name := display_name u;
         is_admin := is_admin u; is_active := is_active u;
         verbosity_level := verbosity_level u;
         auto_notifications := auto_notifications u;
         daily_request_limit := v;
         u_created_at := u_created_at u; last_active := last_active u |}
  | attr_last_active v => set_last_active u v
  | attr_unknown _ => u
  end.

(** [UserCRUD.update_user(user_id, **kwargs)]: the attributes are set in the
    order of the keywords, then the last activity is stamped. *)
Definition update_user (db : Database) (now : Z) (id : Z) (kwargs : list user_attr)
    : Database * option User :=
  match get_user_by_id db id with
  | None => (db, None)
  | Some user =>
      let user' := set_last_active (fold_left set_attr kwargs user) now in
      (with_users db (map (fun u => if u_id u =? id then user' else u) (users db)),
       Some user')
  end.

(** [UserCRUD.delete_user]: the user is deactivated, not removed. *)
Definition delete_user (db : Database) (id : Z) : Database * bool :=
  match get_user_by_id db id with
  | None => (db, false)
  | Some user =>
      let user' := set_attr user (attr_is_active false) in
      (with_users db (map (fun u => if u_id u =? id then user' else u) (users db)),
       true)
  end.

End UserCRUD.

Module MediaRequestCRUD.

(** The key the table gives a new row. *)
Definition next_id (db : Database) : Z :=
  1 + fold_right Z.max 0 (map r_id (media_requests db)).

(** [MediaRequestCRUD.create_request] *)
Definition create_request (db : Database) (now : Z) (uid : Z) (mtype : string)
    (mid : Z) (ttl : option string) (yr : option Z) (four_k : bool)
    (seasons : option (list Z)) : result (Database * MediaRequest) :=
  match MediaType_of mtype with
  | None => Raise (ValueError ("'" +:+ mtype +:+ "' is not a valid MediaType"))
  | Some mt =>
      match ttl with
      | None => Raise (IntegrityError "NOT NULL constraint failed: media_requests.title")
      | Some t =>
          let request :=
            {| r_id := next_id db; user_id := uid; overseerr_request_id := None;
               media_type := mt; media_id := mid; title := t; year := yr;
               status := PENDING; is_4k := four_k;
               seasons_requested :=
                 if truthy_list seasons then set_seasons_requested seasons else None;
               created_at := now; updated_at := now;
               completed_at := None; error_message := None |} in
          Ok (with_media_requests db (media_requests db ++ [request]), request)
      end
  end.

(** [MediaRequestCRUD.get_request_by_id] *)
Definition get_request_by_id (db : Database) (id : Z) : option MediaRequest :=
  find (fun r => r_id r =? id) (media_requests db).

(** [MediaRequestCRUD.get_pending_requests] *)
Definition get_pending_requests (db : Database) : list MediaRequest :=
  filter (fun r => status r ∈ [PENDING; APPROVED; DOWNLOADING]) (media_requests db).

(** The assignments of [update_request_status] on the row it found. *)
Definition apply_update (r : MediaRequest) (now : Z) (st : RequestStatus)
    (status_text : string) (oid : option Z) (err : option string) : MediaRequest :=
  {| r_id := r_id r; user_id := user_id r;
     overseerr_request_id :=
       if truthy_int oid then oid else overseerr_request_id r;
     media_type := media_type r; media_id := media_id r; title := title r;
     year := year r;
     status := st;
     is_4k := is_4k r; seasons_requested := seasons_requested r;
     created_at := created_at r;
     updated_at := now;
     completed_at :=
       if String.eqb status_text "completed" then Some now else completed_at r;
     error_message :=
       if truthy_str err then err else error_message r |}.

(** [MediaRequestCRUD.update_request_status] *)
Definition update_request_status (db : Database) (now : Z) (request_id : Z)
    (status_text : string) (oid : option Z) (err : option string)
    : result (Database * option MediaRequest) :=
  match get_request_by_id db request_id with
  | None => Ok (db, None)
  | Some r =>
      match RequestStatus_of status_text with
      | None =>
          Raise (ValueError ("'" +:+ status_text +:+ "' is not a valid RequestStatus"))
      | Some st =>
          let r' := apply_update r now st status_text oid err in
          Ok (with_media_requests db
                (map (fun x => if r_id x =? request_id then r' else x)
                     (media_requests db)),
              Some r')
      end
  end.

(** [order_by(MediaRequest.created_at.desc())], by insertion; rows created
    at the same time keep the order of the table. *)
Fixpoint insert_desc (r : MediaRequest) (l : list MediaRequest) : list MediaRequest :=
  match l with
  | [] => [r]
  | x :: l' =>
      if created_at x <=? created_at r then r :: l else x :: insert_desc r l'
  end.

Definition order_by_created_at_desc (l : list MediaRequest) : list MediaRequest :=
  fold_right insert_desc [] l.

(** [query.limit(limit)] under [if limit:]: no limit for [None] and for 0. *)
Definition limited (limit : option N) (l : list MediaRequest) : list MediaRequest :=
  match limit with
  | Some (Npos p) => take (Pos.to_nat p) l
  | Some N0 | None => l
  end.

(** [MediaRequestCRUD.get_user_requests] *)
Definition get_user_requests (db : Database) (uid : Z) (status_text : option string)
    (limit : option N) : result (list MediaRequest) :=
  let owned := filter (fun r => user_id r = uid) (media_requests db) in
  let by_status :=
    if truthy_str status_text then
      match RequestStatus_of (default "" status_text) with
      | Some st => Ok (filter (fun r => status r = st) owned)
      | None =>
          Raise (ValueError ("'" +:+ default "" status_text +:+
                             "' is not a valid RequestStatus"))
      end
    else Ok owned in
  match by_status with
  | Ok rows => Ok (limited limit (order_by_created_at_desc rows))
  | Raise e => Raise e
  end.

(** [MediaRequestCRUD.get_requests_by_status] *)
Definition get_requests_by_status (db : Database) (status_text : string)
    : result (list MediaRequest) :=
  match RequestStatus_of status_text with
  | Some st => Ok (filter (fun r => status r = st) (media_requests db))
  | None =>
      Raise (ValueError ("'" +:+ status_text +:+ "' is not a valid RequestStatus"))
  end.

(** [MediaRequestCRUD.get_recent_requests] *)
Definition get_recent_requests (db : Database) (now : Z) (days : Z) (limit : N)
    : list MediaRequest :=
  let since := now - 86400 * days in
  take (N.to_nat limit)
    (order_by_created_at_desc
       (filter (fun r => since <= created_at r) (media_requests db))).

End MediaRequestCRUD.

Module LogCRUD.

(** [LogCRUD.create_log]; the message text of the row is not kept. *)
Definition create_log (db : Database) (lvl mdl : string)
    (uid rid : option Z) : Database :=
  with_log_entries db
    (log_entries db ++
       [{| level := lvl; module := mdl; log_user_id := uid; log_request_id := rid |}]).

End LogCRUD.

Module SettingsCRUD.

(** [SettingsCRUD.set_setting]: the row of the key is updated, or added. *)
Definition set_setting (db : Database) (key value : string) : Database :=
  {| users := users db; media_requests := media_requests db;
     settings := <[key := value]> (settings db); log_entries := log_entries db |}.

(** [SettingsCRUD.update_multiple_settings], for a dictionary given by its
    items. *)
Definition update_multiple_settings (db : Database)
    (settings_dict : list (string * string)) : Database :=
  fold_left (fun d kv => set_setting d kv.1 kv.2) settings_dict db.

End SettingsCRUD.

(** ** Overseerr client ([api/overseerr.py]) *)

(** One search result, with the fields [parse_media_info] reads. *)
Record MediaData := {
  md_id : Z;
  md_title : option string;
  md_name : option string;
  md_mediaType : option string;
  md_releaseDate : option string;
  md_firstAirDate : option string;
  md_numberOfSeasons : option Z;
}.

(** The dictionary [parse_media_info] builds; [mi_seasons] is the key
    [seasons], present for a TV show only. *)
Record MediaInfo := {
  mi_tmdb_id : Z;
  mi_title : option string;
  mi_year : option Z;
  mi_media_type : string;
  mi_seasons : option Z;
}.

(** What [_make_request('POST', '/request')] does: answer with a document
    whose [id] may be missing, raise an [HTTPError] with a status code, or
    raise another exception; [text] is [str(e)]. *)
Inductive post_reply :=
  | Created (id : option Z)
  | HTTPError (status_code : Z) (text : string)
  | OtherError (text : string).

(** What a [GET] of a status document gives: an error ([None] to the
    caller), the empty document, or a document with its [status] field. *)
Inductive status_reply :=
  | NoReply
  | EmptyDoc
  | Doc (status_code : option Z).

(** The answers of the Overseerr service. *)
Record Overseerr := {
  search_media : string -> list MediaData;
  get_media_status : Z -> status_reply;
  post_movie : Z -> post_reply;
  post_tv : Z -> option (list Z) -> post_reply;
  get_request_status : Z -> status_reply;
}.

Module OverseerrAPI.

(** The part of a date before its first dash: [d.split('-')[0]]. *)
Fixpoint before_dash (d : string) : string :=
  match d with
  | EmptyString => EmptyString
  | String a d' => if Ascii.eqb a "-" then EmptyString else String a (before_dash d')
  end.

Definition year_of (d : option string) : result (option Z) :=
  if truthy_str d then
    match Text.py_int (before_dash (default "" d)) with
    | Some y => Ok (Some y)
    | None => Raise (ValueError "invalid literal for int() with base 10")
    end
  else Ok None.

(** [OverseerrAPI.parse_media_info] *)
Definition parse_media_info (media_data : MediaData) : result MediaInfo :=
  let mtype := default "movie" (md_mediaType media_data) in
  let ttl := if truthy_str (md_title media_data)
             then md_title media_data else md_name media_data in
  match year_of (if String.eqb mtype "movie"
                 then md_releaseDate media_data
                 else md_firstAirDate media_data) with
  | Raise e => Raise e
  | Ok yr =>
      Ok {| mi_tmdb_id := md_id media_data; mi_title := ttl; mi_year := yr;
            mi_media_type := mtype;
            mi_seasons :=
              if String.eqb mtype "tv"
              then Some (default 0 (md_numberOfSeasons media_data))
              else None |}
  end.

(** [OverseerrAPI.request_movie] *)
Definition request_movie (ovs : Overseerr) (movie_id : Z)
    : bool * option Z * option string :=
  match post_movie ovs movie_id with
  | Created request_id => (true, request_id, None)
  | HTTPError code text =>
      if code =? 409
      then (false, None, Some "This movie has already been requested")
      else (false, None, Some ("Failed to request movie: " +:+ text))
  | OtherError text =>
      (false, None,
       Some ("Failed to request movie " +:+ pretty movie_id +:+ ": " +:+ text))
  end.

(** [OverseerrAPI.request_tv_show] *)
Definition request_tv_show (ovs : Overseerr) (tv_id : Z) (seasons : option (list Z))
    : bool * option Z * option string :=
  match post_tv ovs tv_id (if truthy_list seasons then seasons else None) with
  | Created request_id => (true, request_id, None)
  | HTTPError code text =>
      if code =? 409
      then (false, None, Some "This TV show has already been requested")
      else (false, None, Some ("Failed to request TV show: " +:+ text))
  | OtherError text =>
      (false, None,
       Some ("Failed to request TV show " +:+ pretty tv_id +:+ ": " +:+ text))
  end.

(** [OverseerrAPI.is_media_available] *)
Definition is_media_available (ovs : Overseerr) (mid : Z) : bool :=
  match get_media_status ovs mid with
  | Doc (Some 5) => true
  | _ => false
  end.

End OverseerrAPI.

(** ** The world the bot acts on *)

(** A call of the Signal client. *)
Inductive Outbound :=
  | send_message (recipient text : string)
  | send_message_to_group (group_id : option string) (text : string).

(** A call of the Overseerr service. *)
Inductive ApiCall :=
  | ApiSearch (query : string)
  | ApiMediaStatus (mid : Z)
  | ApiRequestMovie (mid : Z)
  | ApiRequestTv (mid : Z) (seasons : option (list Z))
  | ApiRequestStatus (request_id : Z).

(** A job of the scheduler: the function it runs, its argument and its
    trigger. *)
Inductive JobFunc :=
  | check_request_statuses_job
  | cleanup_old_logs_job
  | send_daily_stats_job
  | check_single_request_job (request_id : Z).

Global Instance JobFunc_eq_dec : EqDecision JobFunc.
Proof. solve_decision. Defined.

Inductive Trigger :=
  | IntervalTrigger (seconds : Z)
  | DateTrigger (run_date : Z).

Record Job := {
  job_func : JobFunc;
  job_trigger : Trigger;
  job_name : string;
}.

Record World := {
  db : Database;
  outbox : list Outbound;
  api_calls : list ApiCall;
  jobs : gmap string Job;
}.

Definition with_db (w : World) (d : Database) : World :=
  {| db := d; outbox := outbox w; api_calls := api_calls w; jobs := jobs w |}.

Definition sent (w : World) (o : Outbound) : World :=
  {| db := db w; outbox := outbox w ++ [o]; api_calls := api_calls w; jobs := jobs w |}.

Definition called (w : World) (c : ApiCall) : World :=
  {| db := db w; outbox := outbox w; api_calls := api_calls w ++ [c]; jobs := jobs w |}.

Definition with_jobs (w : World) (j : gmap string Job) : World :=
  {| db := db w; outbox := outbox w; api_calls := api_calls w; jobs := j |}.

(** An inbound event ([bot/signal_client.py], [SignalMessage]).  The field
    [message] is [data_message.get('message', '')]: the text, the empty
    string when the event has no such key, and [None] when the key is there
    with the value null, as for an event that carries attachments only.
    [source] and [source_number] are the sender's identifiers; a missing
    one is the empty string, which [get_sender] passes over. *)
Record SignalMessage := {
  source : string;
  source_number : string;
  message : option string;
  is_group_message : bool;
  group_id : option string;
}.

(** [SignalMessage.get_sender] *)
Definition get_sender (m : SignalMessage) : string :=
  if Text.truthy (source_number m) then source_number m else source m.

(** [SignalMessage.get_text]: [self.message.strip()], which raises when the
    message is [None]. *)
Definition get_text (m : SignalMessage) : result string :=
  match message m with
  | Some s => Ok (Text.strip s)
  | None => Raise (AttributeError "'NoneType' object has no attribute 'strip'")
  end.

(** ** Message handler ([bot/message_handler.py]) *)

Module MessageHandler.

Definition nl : string := String (ascii_of_nat 10) EmptyString.

(** The keys of [self.commands], in the order of the dictionary. *)
Definition commands : list string :=
  ["help"; "request"; "status"; "settings"; "search"; "myrequest";
   "myrequests"; "cancel"; "creategroup"].

(** The keys of [self.admin_commands]. *)
Definition admin_commands : list string :=
  ["adduser"; "removeuser"; "listusers"; "approve"; "decline"; "broadcast";
   "stats"].

(** A command handler other than [handle_request]: it acts on the world and
    may end by raising.  The handlers that no property here looks into are
    an argument of [handle_message]. *)
Definition handler : Type :=
  User -> list string -> SignalMessage -> Z -> World -> World * option exn.

(** [MessageHandler.parse_command] *)
Definition parse_command (text : string) : string * list string :=
  match Text.split (Text.strip text) with
  | [] => ("", [])
  | p :: rest => (Text.lstrip_char "/" (Text.lower p), rest)
  end.

(** [MessageHandler.send_response] *)
Definition send_response (w : World) (recipient text : string)
    (original_message : option SignalMessage) : World :=
  match original_message with
  | Some m =>
      if is_group_message m
      then sent w (send_message_to_group (group_id m) text)
      else sent w (send_message recipient text)
  | None => sent w (send_message recipient text)
  end.

(** [s.split(',')] *)
Fixpoint split_comma_go (cur : string) (s : string) : list string :=
  match s with
  | EmptyString => [cur]
  | String a s' =>
      if Ascii.eqb a ","
      then cur :: split_comma_go EmptyString s'
      else split_comma_go (cur +:+ String a EmptyString) s'
  end.

(** The admin phone numbers of the settings table. *)
Definition admin_phones (d : Database) : list string :=
  map Text.strip
    (filter (fun p => Text.truthy (Text.strip p) = true)
       (split_comma_go EmptyString (get_setting d "admin_phone_numbers" ""))).

(** [MessageHandler.send_error_to_admins] *)
Definition send_error_to_admins (w : World) (error_message : string)
    (user_phone : string) : World :=
  let text :=
    "🚨 Signalerr Error" +:+ nl +:+ nl +:+ error_message +:+
    (if Text.truthy user_phone
     then nl +:+ nl +:+ "User: " +:+ user_phone else "") in
  fold_left (fun w admin_phone => sent w (send_message admin_phone text))
    (admin_phones (db w)) w.

(** The match of [season[s]?\s*(\d+)(?:\s*[-–]\s*(\d+))?] at the start of
    [s]: its two groups.  Each piece of the pattern can match in one way
    only, so the greedy choices are the match. *)
Fixpoint strip_prefix (p s : string) : option string :=
  match p, s with
  | EmptyString, _ => Some s
  | String a p', String b s' => if Ascii.eqb a b then strip_prefix p' s' else None
  | String _ _, EmptyString => None
  end.

(** [c?]: one optional character. *)
Definition skip_optional (c : ascii) (s : string) : string :=
  match s with
  | String a r => if Ascii.eqb a c then r else s
  | EmptyString => s
  end.

(** [[-–]]: a hyphen or an en dash. *)
Definition strip_dash (s : string) : option string :=
  match strip_prefix "-" s with
  | Some r => Some r
  | None => strip_prefix "–" s
  end.

(** [(?:\s*[-–]\s*(\d+))?] on what follows the first group: the second
    group, if the optional part matches. *)
Definition second_group (r4 : string) : option string :=
  match strip_dash (Text.skip_spaces r4) with
  | None => None
  | Some r6 =>
      match Text.span_digits (Text.skip_spaces r6) with
      | (EmptyString, _) => None
      | (d, _) => Some d
      end
  end.

Definition season_match_at (s : string) : option (string * option string) :=
  match strip_prefix "season" s with
  | None => None
  | Some r1 =>
      match Text.span_digits (Text.skip_spaces (skip_optional "s" r1)) with
      | (EmptyString, _) => None
      | (g1, r4) => Some (g1, second_group r4)
      end
  end.

(** [re.search] of that pattern: the match at the leftmost position. *)
Fixpoint season_search (s : string) : option (string * option string) :=
  match season_match_at s with
  | Some m => Some m
  | None =>
      match s with
      | EmptyString => None
      | String _ s' => season_search s'
      end
  end.

(** [MessageHandler.determine_seasons_to_request] *)
Definition determine_seasons_to_request (media_info : MediaInfo) (query : string)
    : option (list Z) :=
  let total_seasons := default 0 (mi_seasons media_info) in
  match season_search (Text.lower query) with
  | Some (g1, g2) =>
      let start_season := Text.int_of_digits g1 in
      let end_season :=
        match g2 with
        | Some d => if Text.truthy d then Text.int_of_digits d else start_season
        | None => start_season
        end in
      Some (Text.range start_season (end_season + 1))
  | None =>
      let by_total :=
        if total_seasons >=? 4
        then Some (Text.range (Z.max 1 (total_seasons - 3)) (total_seasons + 1))
        else None in
      if existsb (fun word => Text.contains word (Text.lower query))
           ["latest"; "recent"; "new"; "current"]
      then
        if total_seasons >=? 4
        then Some (Text.range (Z.max 1 (total_seasons - 3)) (total_seasons + 1))
        else by_total
      else by_total
  end.

Definition upper_char (a : ascii) : ascii :=
  let n := N_of_ascii a in
  if ((97 <=? n) && (n <=? 122))%N then ascii_of_N (n - 32) else a.

Definition is_alpha (a : ascii) : bool :=
  let n := N_of_ascii a in
  (((65 <=? n) && (n <=? 90)) || ((97 <=? n) && (n <=? 122)))%N.

(** [s.title()] *)
Fixpoint title_go (in_word : bool) (s : string) : string :=
  match s with
  | EmptyString => EmptyString
  | String a s' =>
      if is_alpha a
      then String (if in_word then Text.lower_char a else upper_char a)
                  (title_go true s')
      else String a (title_go false s')
  end.

Definition str_title (s : string) : string := title_go false s.

(** [f"{x}"] of an optional string. *)
Definition show (o : option string) : string := default "None" o.

(** [f"{seasons[0]}-{seasons[-1]}"] *)
Definition season_span (seasons : list Z) : string :=
  pretty (default 0 (head seasons)) +:+ "-" +:+ pretty (default 0 (last seasons)).

(** [MessageHandler.format_request_confirmation] *)
Definition format_request_confirmation (media_info : MediaInfo)
    (seasons : option (list Z)) (verbosity : VerbosityLevel) : string :=
  let ttl := show (mi_title media_info) in
  let yr := if truthy_int (mi_year media_info)
            then " (" +:+ pretty (default 0 (mi_year media_info)) +:+ ")" else "" in
  let is_movie := String.eqb (mi_media_type media_info) "movie" in
  let span := season_span (default [] seasons) in
  match verbosity with
  | CASUAL =>
      if is_movie then "👍 Gotcha! Requesting '" +:+ ttl +:+ "' for ya."
      else
        let season_text := if truthy_list seasons then " seasons " +:+ span else "" in
        "👍 Gotcha! Requesting '" +:+ ttl +:+ "'" +:+ season_text +:+ " for ya."
  | SIMPLE =>
      if is_movie
      then "✅ Requested: " +:+ ttl +:+ yr +:+ nl +:+ "⏱️ I'll check back in 2 minutes!"
      else
        let season_text := if truthy_list seasons
                           then " (Seasons " +:+ span +:+ ")" else " (All seasons)" in
        "✅ Requested: " +:+ ttl +:+ yr +:+ season_text +:+ nl +:+
        "⏱️ I'll check back in 2 minutes!"
  | VERBOSE =>
      "✅ **Request Submitted Successfully**" +:+ nl +:+ nl +:+
      "📺 **Title:** " +:+ ttl +:+ yr +:+ nl +:+
      "🎬 **Type:** " +:+ str_title (mi_media_type media_info) +:+ nl +:+
      (if String.eqb (mi_media_type media_info) "tv" && truthy_list seasons
       then "📅 **Seasons:** " +:+ span +:+ nl else "") +:+
      "⏱️ **Status Check:** I'll update you in 2 minutes" +:+ nl +:+
      "🔄 **Current Status:** Processing request..."
  end.

(** [MessageHandler.schedule_status_check]: it only writes to the process
    log. *)
Definition schedule_status_check (w : World) (request_id : Z) : World := w.

(** The [except] clause of [process_media_request]. *)
Definition request_failed (w : World) (user : User) (m : SignalMessage) (e : exn)
    : World :=
  send_error_to_admins
    (send_response w (phone_number user)
       "❌ An error occurred while processing your request. Please try again."
       (Some m))
    ("Request processing error: " +:+ exn_text e) (phone_number user).

(** [MessageHandler.process_media_request] *)
Definition process_media_request (ovs : Overseerr) (now : Z) (user : User)
    (query : string) (m : SignalMessage) (w : World) : World :=
  let phone := phone_number user in
  if negb (can_make_request user (db w) now) then
    send_response w phone
      ("❌ You've reached your daily request limit (" +:+
       pretty (daily_request_limit user) +:+ "). Try again tomorrow!") (Some m)
  else
    let w := send_response w phone ("🔍 Searching for '" +:+ query +:+ "'...") (Some m) in
    let w := called w (ApiSearch query) in
    match search_media ovs query with
    | [] =>
        send_response w phone
          ("❌ No results found for '" +:+ query +:+ "'. Try a different search term.")
          (Some m)
    | best_match :: _ =>
        match OverseerrAPI.parse_media_info best_match with
        | Raise e => request_failed w user m e
        | Ok media_info =>
            let w := called w (ApiMediaStatus (mi_tmdb_id media_info)) in
            if OverseerrAPI.is_media_available ovs (mi_tmdb_id media_info) then
              send_response w phone
                ("✅ '" +:+ show (mi_title media_info) +:+ "' is already available!")
                (Some m)
            else
              let seasons_to_request :=
                if String.eqb (mi_media_type media_info) "tv"
                then determine_seasons_to_request media_info query
                else None in
              match MediaRequestCRUD.create_request (db w) now (u_id user)
                      (mi_media_type media_info) (mi_tmdb_id media_info)
                      (mi_title media_info) (mi_year media_info) false
                      seasons_to_request with
              | Raise e => request_failed w user m e
              | Ok (d, db_request) =>
                  let w := with_db w d in
                  let '(success, overseerr_id, error, w) :=
                    if String.eqb (mi_media_type media_info) "movie"
                    then (OverseerrAPI.request_movie ovs (mi_tmdb_id media_info),
                          called w (ApiRequestMovie (mi_tmdb_id media_info)))
                    else (OverseerrAPI.request_tv_show ovs (mi_tmdb_id media_info)
                            seasons_to_request,
                          called w (ApiRequestTv (mi_tmdb_id media_info)
                                      seasons_to_request)) in
                  if success then
                    match MediaRequestCRUD.update_request_status (db w) now
                            (r_id db_request) "approved" overseerr_id None with
                    | Raise e => request_failed w user m e
                    | Ok (d, _) =>
                        let w := with_db w d in
                        let w := send_response w phone
                                   (format_request_confirmation media_info
                                      seasons_to_request (verbosity_level user))
                                   (Some m) in
                        schedule_status_check w (r_id db_request)
                    end
                  else
                    match MediaRequestCRUD.update_request_status (db w) now
                            (r_id db_request) "failed" None error with
                    | Raise e => request_failed w user m e
                    | Ok (d, _) =>
                        send_response (with_db w d) phone
                          ("❌ Failed to request '" +:+ show (mi_title media_info) +:+
                           "': " +:+ show error) (Some m)
                    end
              end
        end
    end.

(** [MessageHandler.handle_request] *)
Definition handle_request (ovs : Overseerr) (now : Z) (user : User)
    (args : list string) (m : SignalMessage) (w : World) : World :=
  match args with
  | [] =>
      send_response w (phone_number user)
        ("❌ Please specify what you want to request." +:+ nl +:+
         "Example: `request The Matrix`") (Some m)
  | _ => process_media_request ovs now user (Text.join " " args) m w
  end.

(** [MessageHandler.handle_natural_request] *)
Definition handle_natural_request (ovs : Overseerr) (now : Z) (user : User)
    (text : string) (m : SignalMessage) (w : World) : World :=
  if Text.startswith text "/" || Text.startswith_any (Text.lower text) commands
  then
    send_response w (phone_number user)
      "❓ Unknown command. Type `help` for available commands." (Some m)
  else process_media_request ovs now user text m w.

(** The fixed replies of [handle_message]. *)
Definition not_authorized : string :=
  "❌ You are not authorized to use this bot. Please contact an administrator.".

Definition maintenance_notice : string :=
  "🔧 The bot is currently in maintenance mode. Please try again later.".

Definition permission_denied : string :=
  "❌ You don't have permission to use this command.".

(** [MessageHandler.handle_message]; [handlers] gives the handler of every
    verb of the two tables but [request].  An exception of [get_text] is
    caught by the [except] clause of the function like one of a handler. *)
Definition handle_message (handlers : string -> handler) (ovs : Overseerr)
    (now : Z) (m : SignalMessage) (w : World) : World :=
  let sender := get_sender m in
  match get_text m with
  | Raise e =>
      send_error_to_admins w ("Error handling message: " +:+ exn_text e) sender
  | Ok text =>
  if negb (Text.truthy text) then w
  else
    let w := with_db w (LogCRUD.create_log (db w) "INFO" "message_handler" None None) in
    match UserCRUD.get_user_by_phone (db w) sender with
    | None => send_response w sender not_authorized (Some m)
    | Some user =>
        let w := with_db w (UserCRUD.update_user_last_active (db w) now (u_id user)) in
        let user := UserCRUD.set_last_active user now in
        if String.eqb (Text.lower (get_setting (db w) "maintenance_mode" "false")) "true"
           && negb (is_admin user)
        then send_response w sender maintenance_notice (Some m)
        else
          let '(command, args) := parse_command text in
          let '(w, raised) :=
            if bool_decide (command ∈ commands) then
              if String.eqb command "request"
              then (handle_request ovs now user args m w, None)
              else handlers command user args m now w
            else if bool_decide (command ∈ admin_commands) then
              if is_admin user
              then handlers command user args m now w
              else (send_response w sender permission_denied (Some m), None)
            else (handle_natural_request ovs now user text m w, None) in
          match raised with
          | None => w
          | Some e =>
              send_error_to_admins w ("Error handling message: " +:+ exn_text e) sender
          end
    end
  end.

(** [level.value] *)
Definition VerbosityLevel_value (v : VerbosityLevel) : string :=
  match v with VERBOSE => "verbose" | SIMPLE => "simple" | CASUAL => "casual" end.

(** [VerbosityLevel(value)], for a value of the enumeration. *)
Definition VerbosityLevel_of (v : string) : option VerbosityLevel :=
  if String.eqb v "verbose" then Some VERBOSE
  else if String.eqb v "simple" then Some SIMPLE
  else if String.eqb v "casual" then Some CASUAL
  else None.

(** The text [handle_settings] shows for no argument. *)
Definition settings_text (user : User) (d : Database) (now : Z) : string :=
  "⚙️ **Your Settings:**" +:+ nl +:+ nl +:+
  "🔊 **Verbosity:** " +:+ VerbosityLevel_value (verbosity_level user) +:+ nl +:+
  "🔔 **Auto Notifications:** " +:+
    (if auto_notifications user then "On" else "Off") +:+ nl +:+
  "📊 **Daily Limit:** " +:+ pretty (daily_request_limit user) +:+ nl +:+
  "📈 **Today's Requests:** " +:+ pretty (get_daily_request_count user d now) +:+
    "/" +:+ pretty (daily_request_limit user) +:+ nl +:+ nl +:+
  "**Change Settings:**" +:+ nl +:+
  "• `settings verbosity <verbose/simple/casual>`" +:+ nl +:+
  "• `settings notifications <on/off>`".

(** [MessageHandler.handle_settings] *)
Definition handle_settings : handler := fun user args m now w =>
  let phone := phone_number user in
  match args with
  | [] => (send_response w phone (settings_text user (db w) now) (Some m), None)
  | setting_type :: rest =>
      let setting_type := Text.lower setting_type in
      match rest with
      | value :: _ =>
          if String.eqb setting_type "verbosity" then
            let verbosity := Text.lower value in
            match VerbosityLevel_of verbosity with
            | Some v =>
                let w := with_db w (UserCRUD.update_user (db w) now (u_id user)
                                      [UserCRUD.attr_verbosity_level v]).1 in
                (send_response w phone
                   ("✅ Verbosity set to '" +:+ verbosity +:+ "'") (Some m), None)
            | None =>
                (send_response w phone
                   "❌ Invalid verbosity. Use: verbose, simple, or casual" (Some m),
                 None)
            end
          else if String.eqb setting_type "notifications" then
            let setting := Text.lower value in
            if bool_decide (setting ∈ ["on"; "off"]) then
              let w := with_db w (UserCRUD.update_user (db w) now (u_id user)
                                    [UserCRUD.attr_auto_notifications
                                       (String.eqb setting "on")]).1 in
              (send_response w phone
                 ("✅ Auto notifications turned " +:+ setting) (Some m), None)
            else
              (send_response w phone
                 "❌ Use 'on' or 'off' for notifications" (Some m), None)
          else
            (send_response w phone
               "❌ Invalid setting. Type `settings` to see options." (Some m), None)
      | [] =>
          (send_response w phone
             "❌ Invalid setting. Type `settings` to see options." (Some m), None)
      end
  end.

(** [MessageHandler.handle_add_user] (admin only) *)
Definition handle_add_user : handler := fun user args m now w =>
  let admin := phone_number user in
  match args with
  | [] =>
      (send_response w admin "❌ Usage: `adduser <phone> [display_name]`" (Some m),
       None)
  | phone :: name_parts =>
      let name :=
        match name_parts with
        | [] => None
        | _ => Some (Text.join " " name_parts)
        end in
      match UserCRUD.get_user_by_phone (db w) phone with
      | Some _ =>
          (send_response w admin ("❌ User " +:+ phone +:+ " already exists") (Some m),
           None)
      | None =>
          match UserCRUD.create_user (db w) now phone name false with
          | Ok (d, _) =>
              let w := with_db w d in
              let w := send_response w admin ("✅ Added user: " +:+ phone) (Some m) in
              (sent w (send_message phone
                         ("🎉 Welcome to Signalerr! You've been added by an admin." +:+
                          nl +:+ nl +:+ "Type `help` to see available commands.")),
               None)
          | Raise e =>
              (send_response w admin ("❌ Failed to add user: " +:+ exn_text e) (Some m),
               None)
          end
      end
  end.

(** [MessageHandler.handle_remove_user] (admin only) *)
Definition handle_remove_user : handler := fun user args m now w =>
  let admin := phone_number user in
  match args with
  | [] => (send_response w admin "❌ Usage: `removeuser <phone>`" (Some m), None)
  | phone :: _ =>
      match UserCRUD.get_user_by_phone (db w) phone with
      | None =>
          (send_response w admin ("❌ User " +:+ phone +:+ " not found") (Some m), None)
      | Some target_user =>
          let w := with_db w (UserCRUD.delete_user (db w) (u_id target_user)).1 in
          (send_response w admin ("✅ Removed user: " +:+ phone) (Some m), None)
      end
  end.

End MessageHandler.

(** ** The bot and its scheduler ([bot/bot.py]) *)

Module SignalerrBot.

(** [scheduler.add_job(..., id=job_id, replace_existing=...)] on the job
    store of the scheduler, which is keyed by job id. *)
Definition add_job (js : gmap string Job) (job_id : string) (j : Job)
    (replace_existing : bool) : result (gmap string Job) :=
  match js !! job_id with
  | Some _ =>
      if replace_existing then Ok (<[job_id := j]> js)
      else Raise (ConflictingIdError
                    ("Job identifier (" +:+ job_id +:+ ") conflicts with an existing job"))
  | None => Ok (<[job_id := j]> js)
  end.

(** The table of [map_overseerr_status]. *)
Definition status_map : gmap Z string :=
  list_to_map
    [(1, "pending"); (2, "approved"); (3, "declined"); (4, "downloading");
     (5, "completed")].

(** [SignalerrBot.map_overseerr_status] *)
Definition map_overseerr_status (overseerr_status : Z) : string :=
  default "pending" (status_map !! overseerr_status).

(** [s.replace('_', ' ')] *)
Fixpoint underscores_to_spaces (s : string) : string :=
  match s with
  | EmptyString => EmptyString
  | String a s' =>
      String (if Ascii.eqb a "_" then " "%char else a) (underscores_to_spaces s')
  end.

Definition pad2 (n : Z) : string :=
  if n <? 10 then "0" +:+ pretty n else pretty n.

(** [t.strftime('%H:%M')] *)
Definition strftime_HM (t : Z) : string :=
  pad2 ((t `mod` 86400) `div` 3600) +:+ ":" +:+ pad2 ((t `mod` 3600) `div` 60).

(** [SignalerrBot.format_status_message] *)
Definition format_status_message (user : User) (request : MediaRequest)
    (status_text : string) (now : Z) : string :=
  let ttl := title request in
  let nl := MessageHandler.nl in
  let fallback := "Status update: " +:+ ttl +:+ " - " +:+ status_text in
  match verbosity_level user with
  | CASUAL =>
      if String.eqb status_text "downloading"
      then "📥 '" +:+ ttl +:+ "' is downloadin' now!"
      else if String.eqb status_text "completed"
      then "🎉 '" +:+ ttl +:+ "' is done downloadin'! Enjoy!"
      else if String.eqb status_text "declined"
      then "😞 '" +:+ ttl +:+ "' got declined, sorry!"
      else if String.eqb status_text "failed"
      then "💥 '" +:+ ttl +:+ "' failed to download."
      else fallback
  | SIMPLE =>
      if String.eqb status_text "downloading"
      then "⬇️ " +:+ ttl +:+ " - Download started"
      else if String.eqb status_text "completed"
      then "✅ " +:+ ttl +:+ " - Download completed!"
      else if String.eqb status_text "declined"
      then "❌ " +:+ ttl +:+ " - Request declined"
      else if String.eqb status_text "failed"
      then "❌ " +:+ ttl +:+ " - Download failed"
      else fallback
  | VERBOSE =>
      "📊 **Status Update**" +:+ nl +:+ nl +:+
      "🎬 **Title:** " +:+ ttl +:+ nl +:+
      "🔄 **Status:** " +:+
        MessageHandler.str_title (underscores_to_spaces status_text) +:+ nl +:+
      "⏰ **Updated:** " +:+ strftime_HM now +:+ nl +:+
      (if String.eqb status_text "completed" then "🎉 **Ready to watch!**"
       else if String.eqb status_text "downloading"
       then "📥 **Download in progress...**"
       else "")
  end.

(** [SignalerrBot.send_status_update] *)
Definition send_status_update (w : World) (user : User) (request : MediaRequest)
    (new_status : string) (now : Z) : World :=
  let w := sent w (send_message (phone_number user)
                     (format_status_message user request new_status now)) in
  with_db w (LogCRUD.create_log (db w) "INFO" "bot"
               (Some (u_id user)) (Some (r_id request))).

(** The status code a status document carries: [doc.get('status', 1)];
    [None] when the document is missing or empty. *)
Definition status_of_reply (r : status_reply) : option Z :=
  match r with
  | Doc code => Some (default 1 code)
  | EmptyDoc | NoReply => None
  end.

(** The skip rule of the sweep: a request still [PENDING] is left alone
    until [request_timeout_minutes] have passed since its creation.  A
    setting that is no numeral makes [int] raise, which also ends the
    iteration for this request. *)
Definition just_created (d : Database) (now : Z) (request : MediaRequest) : bool :=
  if decide (status request = PENDING) then
    match Text.py_int (get_setting d "request_timeout_minutes" "2") with
    | None => true
    | Some timeout_minutes => now - created_at request <? 60 * timeout_minutes
    end
  else false.

(** The body of the loop of [check_request_statuses], for the request with
    key [request_id] of the list the sweep read. *)
Definition check_request_status (ovs : Overseerr) (now : Z) (w : World)
    (request_id : Z) : World :=
  match MediaRequestCRUD.get_request_by_id (db w) request_id with
  | None => w
  | Some request =>
      if just_created (db w) now request then w
      else if truthy_int (overseerr_request_id request) then
        let oid := default 0 (overseerr_request_id request) in
        let w := called w (ApiRequestStatus oid) in
        match status_of_reply (get_request_status ovs oid) with
        | None => w
        | Some code =>
            let new_status := map_overseerr_status code in
            if negb (String.eqb new_status (RequestStatus_value (status request))) then
              match MediaRequestCRUD.update_request_status (db w) now
                      (r_id request) new_status None None with
              | Raise _ => w
              | Ok (d, updated) =>
                  let w := with_db w d in
                  match UserCRUD.get_user_by_id (db w) (user_id request) with
                  | Some user =>
                      if auto_notifications user
                      then send_status_update w user (default request updated)
                             new_status now
                      else w
                  | None => w
                  end
              end
            else w
        end
      else w
  end.

(** [SignalerrBot.check_request_statuses]: the recurring sweep. *)
Definition check_request_statuses (ovs : Overseerr) (now : Z) (w : World) : World :=
  let pending_requests := MediaRequestCRUD.get_pending_requests (db w) in
  fold_left (check_request_status ovs now) (map r_id pending_requests) w.

(** The id of the one-shot job of a request: [f'check_request_{request_id}']. *)
Definition check_job_id (request_id : Z) : string :=
  "check_request_" +:+ pretty request_id.

(** The delay of [schedule_request_check]: the argument, or by default
    [int] of the setting [request_timeout_minutes]; [None] when [int]
    raises. *)
Definition requested_delay (d : Database) (delay_minutes : option Z) : option Z :=
  match delay_minutes with
  | Some m => Some m
  | None => Text.py_int (get_setting d "request_timeout_minutes" "2")
  end.

(** [SignalerrBot.schedule_request_check] *)
Definition schedule_request_check (w : World) (now : Z) (request_id : Z)
    (delay_minutes : option Z) : result World :=
  match requested_delay (db w) delay_minutes with
  | None => Raise (ValueError "invalid literal for int() with base 10")
  | Some d =>
      let run_time := now + 60 * d in
      match add_job (jobs w) (check_job_id request_id)
              {| job_func := check_single_request_job request_id;
                 job_trigger := DateTrigger run_time;
                 job_name := "Check Request " +:+ pretty request_id |}
              true with
      | Ok js => Ok (with_jobs w js)
      | Raise e => Raise e
      end
  end.

(** [SignalerrBot.check_single_request]: the one-shot check. *)
Definition check_single_request (ovs : Overseerr) (now : Z) (request_id : Z)
    (w : World) : World :=
  match MediaRequestCRUD.get_request_by_id (db w) request_id with
  | None => w
  | Some request =>
      if truthy_int (overseerr_request_id request) then
        let oid := default 0 (overseerr_request_id request) in
        let w := called w (ApiRequestStatus oid) in
        match status_of_reply (get_request_status ovs oid) with
        | None => w
        | Some code =>
            let new_status := map_overseerr_status code in
            let after_update :=
              if negb (String.eqb new_status (RequestStatus_value (status request))) then
                match MediaRequestCRUD.update_request_status (db w) now
                        (r_id request) new_status None None with
                | Raise e => Raise e
                | Ok (d, updated) =>
                    let w := with_db w d in
                    match UserCRUD.get_user_by_id (db w) (user_id request) with
                    | Some user =>
                        Ok (send_status_update w user (default request updated)
                              new_status now)
                    | None => Ok w
                    end
                end
              else Ok w in
            match after_update with
            | Raise _ => w
            | Ok w =>
                if bool_decide (new_status ∈ ["approved"; "downloading"]) then
                  match schedule_request_check w now request_id (Some 5) with
                  | Ok w' => w'
                  | Raise _ => w
                  end
                else w
            end
        end
      else w
  end.

(** [SignalerrBot.notify_admins] *)
Definition notify_admins (w : World) (text : string) : World :=
  fold_left (fun w admin_phone => sent w (send_message admin_phone text))
    (MessageHandler.admin_phones (db w)) w.

(** [SignalerrBot.setup_scheduler] *)
Definition setup_scheduler (w : World) : result World :=
  match add_job (jobs w) "check_request_statuses"
          {| job_func := check_request_statuses_job;
             job_trigger := IntervalTrigger 30;
             job_name := "Check Request Statuses" |} false with
  | Raise e => Raise e
  | Ok js =>
      match add_job js "cleanup_logs"
              {| job_func := cleanup_old_logs_job;
                 job_trigger := IntervalTrigger (24 * 3600);
                 job_name := "Cleanup Old Logs" |} false with
      | Raise e => Raise e
      | Ok js =>
          match add_job js "daily_stats"
                  {| job_func := send_daily_stats_job;
                     job_trigger := IntervalTrigger (24 * 3600);
                     job_name := "Daily Stats" |} false with
          | Raise e => Raise e
          | Ok js => Ok (with_jobs w js)
          end
      end
  end.

End SignalerrBot.

(** ** The quota, as the specification words it *)

(** [r] was created during the calendar day that contains [now]: between
    the last midnight and the next one. *)
Definition created_today (now : Z) (r : MediaRequest) : Prop :=
  let midnight := now - now `mod` 86400 in
  midnight <= created_at r < midnight + 86400.

Global Instance created_today_dec now r : Decision (created_today now r).
Proof. unfold created_today. apply _. Defined.

(** The stored requests of a user that were created today. *)
Definition requests_today (u : User) (d : Database) (now : Z) : list MediaRequest :=
  filter (fun r => user_id r = u_id u /\ created_today now r) (media_requests d).

(** ** Histories of the requests table *)

(** The two operations that write the requests table. *)
Inductive op :=
  | OpCreate (now uid : Z) (mtype : string) (mid : Z) (ttl : option string)
      (yr : option Z) (four_k : bool) (seasons : option (list Z))
  | OpUpdate (now request_id : Z) (status_text : string) (oid : option Z)
      (err : option string).

(** One operation; one that raises is rolled back. *)
Definition run_op (d : Database) (o : op) : Database :=
  match o with
  | OpCreate now uid mtype mid ttl yr four_k seasons =>
      match MediaRequestCRUD.create_request d now uid mtype mid ttl yr four_k seasons with
      | Ok (d', _) => d'
      | Raise _ => d
      end
  | OpUpdate now request_id status_text oid err =>
      match MediaRequestCRUD.update_request_status d now request_id status_text oid err with
      | Ok (d', _) => d'
      | Raise _ => d
      end
  end.

Definition run_ops (ops : list op) (d : Database) : Database :=
  fold_left run_op ops d.

Definition empty_database : Database :=
  {| users := []; media_requests := []; settings := ∅; log_entries := [] |}.

(** The invariant of the data model, as the specification words it. *)
Definition fields_match_status (r : MediaRequest) : Prop :=
  (is_Some (completed_at r) <-> status r = COMPLETED) /\
  (is_Some (error_message r) <-> status r = FAILED \/ status r = DECLINED).

(** What holds of a row after the operations [ops]. *)
Definition fields_sound (ops : list op) (r : MediaRequest) : Prop :=
  (status r = COMPLETED -> is_Some (completed_at r)) /\
  (forall e, error_message r = Some e ->
     e <> "" /\
     exists now st oid, OpUpdate now (r_id r) st oid (Some e) ∈ ops).

(** ** Season derivation, as the specification words it *)

(** The seasons an explicit mention names: the two groups of the match, the
    second defaulting to the first. *)
Definition season_mention (query : string) : option (Z * Z) :=
  match MessageHandler.season_search (Text.lower query) with
  | Some (g1, g2) =>
      let n := Text.int_of_digits g1 in
      Some (n, match g2 with
               | Some d => if Text.truthy d then Text.int_of_digits d else n
               | None => n
               end)
  | None => None
  end.




(** A TV show with [total] seasons, as [parse_media_info] presents it. *)
Definition tv_show (total : Z) : MediaInfo :=
  {| mi_tmdb_id := 1396; mi_title := Some "Show"; mi_year := None;
     mi_media_type := "tv"; mi_seasons := Some total |}.

(** ** One-shot checks in the job store *)

(** The one-shot checks of a request that are pending in a job store. *)
Definition pending_checks (request_id : Z) (js : gmap string Job) : gmap string Job :=
  filter (fun kj => job_func kj.2 = check_single_request_job request_id) js.

(** One-shot checks sit under the job id of their request; this holds of
    every job store the bot builds. *)
Definition checks_keyed (js : gmap string Job) : Prop :=
  forall k j request_id,
    js !! k = Some j ->
    job_func j = check_single_request_job request_id ->
    k = SignalerrBot.check_job_id request_id.

(** The replace rule as the specification words it: after two calls for
    one request, made in this order at [now1 <= now2], the one check that is
    pending is due at the later of the two due times. *)
Definition later_due_time_wins : Prop :=
  forall (w w1 w2 : World) (now1 now2 request_id d1 d2 : Z) (j : Job),
    now1 <= now2 ->
    SignalerrBot.schedule_request_check w now1 request_id (Some d1) = Ok w1 ->
    SignalerrBot.schedule_request_check w1 now2 request_id (Some d2) = Ok w2 ->
    jobs w2 !! SignalerrBot.check_job_id request_id = Some j ->
    job_trigger j = DateTrigger (Z.max (now1 + 60 * d1) (now2 + 60 * d2)).

(** ** The router, as the specification words it *)



(** The first word of a text. *)
Definition first_word (text : string) : string := hd "" (Text.split text).

(** The first word begins with one of the verbs [verbs]. *)
Definition collides_with (verbs : list string) (text : string) : bool :=
  existsb (fun verb => Text.startswith (Text.lower (first_word text)) verb) verbs.

(** The maintenance gate of [handle_message] stops this user. *)
Definition in_maintenance (d : Database) (user : User) : bool :=
  String.eqb (Text.lower (get_setting d "maintenance_mode" "false")) "true"
  && negb (is_admin user).

(** The world the router sees: the message is logged and the sender's
    last activity stamped. *)
Definition at_router (w : World) (now : Z) (user : User) : World :=
  let w := with_db w (LogCRUD.create_log (db w) "INFO" "message_handler" None None) in
  with_db w (UserCRUD.update_user_last_active (db w) now (u_id user)).

Definition unknown_command : string :=
  "❓ Unknown command. Type `help` for available commands.".

(** What the router does with a text whose first token is none of [verbs],
    when the words of [guarded] are the verb prefixes that make it answer
    "unknown command". *)
Definition routes_unmatched_text (guarded : list string) : Prop :=
  forall (handlers : string -> MessageHandler.handler) (ovs : Overseerr) (now : Z)
         (m : SignalMessage) (w : World) (user : User) (text : string),
    get_text m = Ok text ->
    Text.truthy text = true ->
    UserCRUD.get_user_by_phone (db w) (get_sender m) = Some user ->
    in_maintenance (db w) user = false ->
    (MessageHandler.parse_command text).1 ∉ MessageHandler.commands ->
    (MessageHandler.parse_command text).1 ∉ MessageHandler.admin_commands ->
    MessageHandler.handle_message handlers ovs now m w =
    if Text.startswith text "/" || collides_with guarded text
    then MessageHandler.send_response (at_router w now user) (phone_number user)
           unknown_command (Some m)
    else MessageHandler.process_media_request ovs now
           (UserCRUD.set_last_active user now) text m (at_router w now user).

(** ** Submission, as the specification words it *)

(** The season list [process_media_request] submits. *)
Definition seasons_for (media_info : MediaInfo) (query : string) : option (list Z) :=
  if String.eqb (mi_media_type media_info) "tv"
  then MessageHandler.determine_seasons_to_request media_info query
  else None.

(** The submit operation: the call [process_media_request] makes for the
    kind of the media. *)
Definition submit (ovs : Overseerr) (media_info : MediaInfo)
    (seasons : option (list Z)) : bool * option Z * option string :=
  if String.eqb (mi_media_type media_info) "movie"
  then OverseerrAPI.request_movie ovs (mi_tmdb_id media_info)
  else OverseerrAPI.request_tv_show ovs (mi_tmdb_id media_info) seasons.

(** The answer of the fulfillment service to that call. *)
Definition submit_reply (ovs : Overseerr) (media_info : MediaInfo)
    (seasons : option (list Z)) : post_reply :=
  if String.eqb (mi_media_type media_info) "movie"
  then post_movie ovs (mi_tmdb_id media_info)
  else post_tv ovs (mi_tmdb_id media_info)
         (if truthy_list seasons then seasons else None).

(** The error detail of a conflict. *)
Definition conflict_detail (media_info : MediaInfo) : string :=
  if String.eqb (mi_media_type media_info) "movie"
  then "This movie has already been requested"
  else "This TV show has already been requested".

(** A reply to the message [m] of the user with number [phone]. *)
Definition reply (m : SignalMessage) (phone text : string) : Outbound :=
  if is_group_message m
  then send_message_to_group (group_id m) text
  else send_message phone text.

(** ** The lifecycle, as the specification words it *)

(** The edges of the status graph. *)
Definition forward_edge (a b : RequestStatus) : bool :=
  match a, b with
  | PENDING, APPROVED | PENDING, DECLINED | PENDING, FAILED => true
  | APPROVED, DOWNLOADING => true
  | DOWNLOADING, COMPLETED => true
  | _, _ => false
  end.

Definition terminal (s : RequestStatus) : bool :=
  match s with
  | COMPLETED | FAILED | DECLINED => true
  | PENDING | APPROVED | DOWNLOADING => false
  end.

(** The primary key of the requests table: no two rows share an id. *)
Definition keyed (d : Database) : Prop := NoDup (map r_id (media_requests d)).

(** From [w] to [w'] every request kept its status or moved along an edge. *)
Definition moved_forward (w w' : World) : Prop :=
  forall id r r',
    MediaRequestCRUD.get_request_by_id (db w) id = Some r ->
    MediaRequestCRUD.get_request_by_id (db w') id = Some r' ->
    status r' = status r \/ forward_edge (status r) (status r') = true.

(** The lifecycle as the specification words it: no poll moves a request
    backward or out of a terminal state. *)
Definition polls_move_forward : Prop :=
  forall (ovs : Overseerr) (now : Z) (w : World),
    keyed (db w) ->
    moved_forward w (SignalerrBot.check_request_statuses ovs now w) /\
    forall id, moved_forward w (SignalerrBot.check_single_request ovs now id w).

(** What the bot does to requests by itself: a sweep, or the submission of
    a user's request. *)
Inductive activity :=
  | Sweep (ovs : Overseerr) (now : Z)
  | Submit (ovs : Overseerr) (now : Z) (user : User) (query : string)
      (m : SignalMessage).

Definition act (w : World) (a : activity) : World :=
  match a with
  | Sweep ovs now => SignalerrBot.check_request_statuses ovs now w
  | Submit ovs now user query m =>
      MessageHandler.process_media_request ovs now user query m w
  end.

Definition run (acts : list activity) (w : World) : World := fold_left act acts w.

(** The row [r'] is what a poll at [now] makes of the row [r]: [r] has a
    correlation id and is past the skip rule of the sweep, Overseerr answers
    the status request for that correlation id with a status code, the status
    [st] this code maps to differs from the status of [r], and [r'] is [r]
    updated to [st]. *)
Definition polled (ovs : Overseerr) (d : Database) (now : Z) (r r' : MediaRequest)
    : Prop :=
  truthy_int (overseerr_request_id r) = true /\
  SignalerrBot.just_created d now r = false /\
  exists code st,
    SignalerrBot.status_of_reply
      (get_request_status ovs (default 0 (overseerr_request_id r))) = Some code /\
    SignalerrBot.map_overseerr_status code = RequestStatus_value st /\
    st <> status r /\
    r' = MediaRequestCRUD.apply_update r now st (RequestStatus_value st) None None.

(** ** Sample data *)

Module Sample.

Definition alice : User :=
  {| u_id := 1; phone_number := "+15550001"; display_name := Some "Alice";
     is_admin := false; is_active := true; verbosity_level := SIMPLE;
     auto_notifications := false; daily_request_limit := 2;
     u_created_at := 0; last_active := 0 |}.

Definition bob : User :=
  {| u_id := 2; phone_number := "+15550002"; display_name := None;
     is_admin := true; is_active := true; verbosity_level := VERBOSE;
     auto_notifications := true; daily_request_limit := 10;
     u_created_at := 0; last_active := 0 |}.

(** A request of Alice, approved under the Overseerr id 7. *)
Definition matrix (st : RequestStatus) : MediaRequest :=
  {| r_id := 1; user_id := 1; overseerr_request_id := Some 7;
     media_type := MOVIE; media_id := 603; title := "The Matrix";
     year := Some 1999; status := st; is_4k := false;
     seasons_requested := None; created_at := 1000; updated_at := 1000;
     completed_at := None; error_message := None |}.

(** A request of Bob, under the Overseerr id 8. *)
Definition dune (st : RequestStatus) : MediaRequest :=
  {| r_id := 2; user_id := 2; overseerr_request_id := Some 8;
     media_type := MOVIE; media_id := 438631; title := "Dune";
     year := Some 2021; status := st; is_4k := false;
     seasons_requested := None; created_at := 1200; updated_at := 1200;
     completed_at := None; error_message := None |}.

Definition database (rs : list MediaRequest) : Database :=
  {| users := [alice; bob]; media_requests := rs;
     settings := {[ "admin_phone_numbers" := "+15550002" ]};
     log_entries := [] |}.

Definition world (rs : list MediaRequest) : World :=
  {| db := database rs; outbox := []; api_calls := []; jobs := ∅ |}.

Definition inception : MediaData :=
  {| md_id := 27205; md_title := Some "Inception"; md_name := None;
     md_mediaType := Some "movie"; md_releaseDate := Some "2010-07-15";
     md_firstAirDate := None; md_numberOfSeasons := None |}.

(** What [parse_media_info] makes of it. *)
Definition inception_info : MediaInfo :=
  {| mi_tmdb_id := 27205; mi_title := Some "Inception"; mi_year := Some 2010;
     mi_media_type := "movie"; mi_seasons := None |}.

(** An Overseerr that finds Inception for every query, has it not yet
    available, answers a movie request with [post] and reports the status
    code [code] for every request. *)
Definition overseerr (post : post_reply) (code : Z) : Overseerr :=
  {| search_media := fun _ => [inception];
     get_media_status := fun _ => Doc (Some 2);
     post_movie := fun _ => post;
     post_tv := fun _ _ => post;
     get_request_status := fun _ => Doc (Some code) |}.

(** Handlers that do nothing, for the verbs no property looks into. *)
Definition idle_handlers : string -> MessageHandler.handler :=
  fun _ _ _ _ _ w => (w, None).

Definition text_from (sender text : string) : SignalMessage :=
  {| source := sender; source_number := sender; message := Some text;
     is_group_message := false; group_id := None |}.

(** Alice asks for Inception and the request is approved under the
    Overseerr id 7. *)
Definition after_submit : World :=
  MessageHandler.handle_message idle_handlers (overseerr (Created (Some 7)) 2) 5000
    (text_from "+15550001" "Inception") (world []).

(** A sweep then finds the request being processed. *)
Definition after_first_sweep : World :=
  SignalerrBot.check_request_statuses (overseerr (Created None) 4) 5030 after_submit.

(** A request is created, approved under the Overseerr id 7, and then
    found declined by a poll. *)
Definition declined_history : list op :=
  [OpCreate 1000 1 "movie" 603 (Some "The Matrix") (Some 1999) false None;
   OpUpdate 1001 1 "approved" (Some 7) None;
   OpUpdate 2000 1 "declined" None None].

(** A request is created and its submission fails. *)
Definition failed_history : list op :=
  [OpCreate 1000 1 "movie" 603 (Some "The Matrix") (Some 1999) false None;
   OpUpdate 1001 1 "failed" None (Some "This movie has already been requested")].

Definition failed_matrix : MediaRequest :=
  {| r_id := 1; user_id := 1; overseerr_request_id := None;
     media_type := MOVIE; media_id := 603; title := "The Matrix";
     year := Some 1999; status := FAILED; is_4k := false;
     seasons_requested := None; created_at := 1000; updated_at := 1001;
     completed_at := None;
     error_message := Some "This movie has already been requested" |}.

End Sample.

(** ** Notions for the further properties *)

(** [r'] is a later state of the row [r]. *)
Definition later_state (r r' : MediaRequest) : Prop :=
  r_id r' = r_id r /\ user_id r' = user_id r /\ media_type r' = media_type r /\
  media_id r' = media_id r /\ title r' = title r /\ year r' = year r /\
  seasons_requested r' = seasons_requested r /\ created_at r' = created_at r /\
  (is_Some (overseerr_request_id r) -> is_Some (overseerr_request_id r')) /\
  (is_Some (completed_at r) -> is_Some (completed_at r')) /\
  (is_Some (error_message r) -> is_Some (error_message r')).

(** The fields of a request agree with its status, as the sweeps and
    submits of the bot keep them: the completed stamp goes with the status
    completed, the error detail with the status failed, and a failed request
    has no correlation id. *)
Definition fields_of_bot (r : MediaRequest) : Prop :=
  (is_Some (completed_at r) <-> status r = COMPLETED) /\
  (is_Some (error_message r) <-> status r = FAILED) /\
  (status r = FAILED -> overseerr_request_id r = None).

(** A status update to a user of [us] who has auto-notifications on. *)
Definition status_notice (us : list User) (o : Outbound) : Prop :=
  exists u text,
    In u us /\ auto_notifications u = true /\ o = send_message (phone_number u) text.

(** A poll of the status of a correlation id, which is never 0. *)
Definition status_poll (c : ApiCall) : Prop :=
  exists oid, c = ApiRequestStatus oid /\ oid <> 0.

(** The order of a listing: [a] may stand before [b] when it is not older. *)
Definition newer (a b : MediaRequest) : Prop := created_at b <= created_at a.

(** * Properties *)

(** ** Text *)

Example split_ex :
  Text.split "  request  The Matrix " = ["request"; "The"; "Matrix"].
Proof. reflexivity. Qed.

Example strip_ex : Text.strip "  a b  " = "a b".
Proof. reflexivity. Qed.

Example lower_ex : Text.lower "/ReQuest X" = "/request x".
Proof. reflexivity. Qed.

Example py_int_ex :
  Text.py_int " 12 " = Some 12 /\ Text.py_int "-3" = Some (-3) /\
  Text.py_int "2m" = None /\ Text.py_int "1_0" = Some 10 /\
  Text.py_int "1__0" = None /\ Text.py_int "_1" = None /\ Text.py_int "1_" = None /\
  Text.py_int "" = None /\ Text.py_int "- 1" = None.
Proof. repeat split; reflexivity. Qed.

Example range_ex : Text.range 2 5 = [2; 3; 4] /\ Text.range 5 3 = [].
Proof. split; reflexivity. Qed.

Example parse_command_ex :
  MessageHandler.parse_command "/Request The Matrix" = ("request", ["The"; "Matrix"]).
Proof. reflexivity. Qed.

(** ** The requests table *)

Section RequestsTable.

Import MediaRequestCRUD.

Lemma RequestStatus_of_value (s : RequestStatus) :
  RequestStatus_of (RequestStatus_value s) = Some s.
Proof. destruct s; reflexivity. Qed.

Lemma RequestStatus_value_of (v : string) (s : RequestStatus) :
  RequestStatus_of v = Some s -> RequestStatus_value s = v.
Proof.
  unfold RequestStatus_of.
  repeat match goal with
         | |- context [String.eqb v ?l] =>
             destruct (String.eqb_spec v l) as [-> | _];
             [intros [= <-]; reflexivity |]
         end.
  intros; discriminate.
Qed.

Lemma find_replace_same (l : list MediaRequest) (id : Z) (r r' : MediaRequest) :
  find (fun x => r_id x =? id) l = Some r ->
  r_id r' = id ->
  find (fun x => r_id x =? id) (map (fun x => if r_id x =? id then r' else x) l)
  = Some r'.
Proof.
  intros Hf Hid. induction l as [| x l IH]; simpl in *; [discriminate |].
  destruct (r_id x =? id) eqn:E.
  - rewrite Hid, Z.eqb_refl. reflexivity.
  - rewrite E. auto.
Qed.

Lemma find_replace_other (l : list MediaRequest) (id id' : Z) (r' : MediaRequest) :
  id' <> id ->
  r_id r' = id ->
  find (fun x => r_id x =? id') (map (fun x => if r_id x =? id then r' else x) l)
  = find (fun x => r_id x =? id') l.
Proof.
  intros Hne Hid. induction l as [| x l IH]; simpl; [reflexivity |].
  destruct (r_id x =? id) eqn:E.
  - apply Z.eqb_eq in E.
    replace (r_id r' =? id') with false by (symmetry; apply Z.eqb_neq; lia).
    replace (r_id x =? id') with false by (symmetry; apply Z.eqb_neq; lia).
    exact IH.
  - destruct (r_id x =? id'); [reflexivity | exact IH].
Qed.

Lemma find_some_id (l : list MediaRequest) (id : Z) (r : MediaRequest) :
  find (fun x => r_id x =? id) l = Some r -> r_id r = id /\ In r l.
Proof.
  intros H. apply find_some in H as [Hin Heq]. apply Z.eqb_eq in Heq. auto.
Qed.

(** What [update_request_status] does to a row that exists, for a status
    text of the enumeration. *)
Lemma update_request_status_found (d : Database) (now id : Z) (st : RequestStatus)
    (oid : option Z) (err : option string) (r : MediaRequest) :
  get_request_by_id d id = Some r ->
  exists d',
    update_request_status d now id (RequestStatus_value st) oid err
    = Ok (d', Some (apply_update r now st (RequestStatus_value st) oid err)) /\
    get_request_by_id d' id
    = Some (apply_update r now st (RequestStatus_value st) oid err) /\
    (forall id', id' <> id -> get_request_by_id d' id' = get_request_by_id d id') /\
    users d' = users d /\ settings d' = settings d /\ log_entries d' = log_entries d.
Proof.
  intros Hget. unfold update_request_status. rewrite Hget, RequestStatus_of_value.
  eexists. split; [reflexivity |].
  unfold get_request_by_id in *. simpl.
  destruct (find_some_id _ _ _ Hget) as [Hid _].
  repeat split.
  - eapply find_replace_same; eauto.
  - intros id' Hne. apply find_replace_other; auto.
Qed.

Lemma map_r_id_replace (l : list MediaRequest) (id : Z) (r' : MediaRequest) :
  r_id r' = id ->
  map r_id (map (fun x => if r_id x =? id then r' else x) l) = map r_id l.
Proof.
  intros Hid. induction l as [| x l IH]; simpl; [reflexivity |].
  rewrite IH. f_equal. destruct (Z.eqb_spec (r_id x) id); congruence.
Qed.

(** No status update changes the keys of the table. *)
Lemma update_request_status_keys (d d' : Database) (now id : Z) (status_text : string)
    (oid : option Z) (err : option string) (res : option MediaRequest) :
  update_request_status d now id status_text oid err = Ok (d', res) ->
  map r_id (media_requests d') = map r_id (media_requests d).
Proof.
  unfold update_request_status.
  destruct (get_request_by_id d id) as [r |] eqn:Hget; [| intros [= <- _]; reflexivity].
  destruct (RequestStatus_of status_text); [| discriminate].
  intros [= <- _]. simpl. apply map_r_id_replace.
  destruct (find_some_id _ _ _ Hget) as [Hid _]. exact Hid.
Qed.

End RequestsTable.

(** ** The status table of the poll *)

Section StatusMapping.

Import SignalerrBot MediaRequestCRUD.

Lemma map_overseerr_status_cases (code : Z) :
  map_overseerr_status code =
  if decide (code = 1) then "pending"
  else if decide (code = 2) then "approved"
  else if decide (code = 3) then "declined"
  else if decide (code = 4) then "downloading"
  else if decide (code = 5) then "completed"
  else "pending".
Proof.
  unfold map_overseerr_status, status_map. simpl.
  repeat case_decide; subst;
    rewrite ?lookup_insert_ne by lia;
    rewrite ?lookup_insert_eq, ?lookup_empty; reflexivity.
Qed.

Lemma map_overseerr_status_unknown (code : Z) :
  ~ (1 <= code <= 5) -> map_overseerr_status code = "pending".
Proof.
  intros H. rewrite map_overseerr_status_cases.
  repeat (case_decide; [lia |]). reflexivity.
Qed.

(** The poll always produces a status of the enumeration, and never
    [FAILED]. *)
Lemma map_overseerr_status_enum (code : Z) :
  exists st, map_overseerr_status code = RequestStatus_value st /\
             st <> FAILED.
Proof.
  rewrite map_overseerr_status_cases.
  repeat case_decide;
    [exists PENDING | exists APPROVED | exists DECLINED | exists DOWNLOADING
    | exists COMPLETED | exists PENDING]; split; (reflexivity || discriminate).
Qed.

Lemma ne_zero_truthy (oid : Z) : oid <> 0 -> truthy_int (Some oid) = true.
Proof. intros H. simpl. apply negb_true_iff, Z.eqb_neq, H. Qed.

Lemma value_eqb (s t : RequestStatus) :
  String.eqb (RequestStatus_value s) (RequestStatus_value t) = bool_decide (s = t).
Proof. destruct s, t; reflexivity. Qed.

(** C10.  Every integer status code outside 1..5 is mapped to ['pending'];
    the mapping never raises, so a poll that reads such a code for a request
    that had advanced beyond [PENDING] stores [PENDING] for it, in the
    one-shot check and in the sweep alike. *)
Theorem unrecognised_code_maps_to_pending
    (code : Z) (ovs : Overseerr) (now rid oid : Z) (w : World)
    (request : MediaRequest)
    (Hcode : ~ (1 <= code <= 5))
    (Hget : get_request_by_id (db w) rid = Some request)
    (Hadvanced : status request <> PENDING)
    (Hoid : overseerr_request_id request = Some oid)
    (Hnz : oid <> 0)
    (Hreply : get_request_status ovs oid = Doc (Some code)) :
  map_overseerr_status code = "pending" /\
  (exists r', get_request_by_id (db (check_single_request ovs now rid w)) rid = Some r'
              /\ status r' = PENDING) /\
  (exists r', get_request_by_id (db (check_request_status ovs now w rid)) rid = Some r'
              /\ status r' = PENDING).
Proof.
  pose proof (map_overseerr_status_unknown code Hcode) as Hmap.
  destruct (update_request_status_found (db w) now rid PENDING None None request Hget)
    as (d' & Hupd & Hget' & _).
  destruct (find_some_id _ _ _ Hget) as [Hrid _].
  assert (Hne : String.eqb "pending" (RequestStatus_value (status request)) = false).
  { change "pending" with (RequestStatus_value PENDING). rewrite value_eqb.
    apply bool_decide_eq_false. congruence. }
  split; [exact Hmap |]. split.
  - unfold check_single_request. rewrite Hget, Hoid, (ne_zero_truthy oid Hnz).
    simpl default. cbn [db called]. rewrite Hreply. cbn [status_of_reply default from_option id].
    rewrite Hmap, Hne. cbn [negb]. rewrite Hrid.
    change "pending" with (RequestStatus_value PENDING) at 1. rewrite Hupd.
    cbn [with_db db].
    exists (apply_update request now PENDING (RequestStatus_value PENDING) None None).
    split; [| reflexivity].
    destruct (UserCRUD.get_user_by_id d' (user_id request)); exact Hget'.
  - unfold check_request_status. rewrite Hget.
    unfold just_created. rewrite decide_False by exact Hadvanced.
    rewrite Hoid, (ne_zero_truthy oid Hnz).
    simpl default. cbn [db called]. rewrite Hreply. cbn [status_of_reply default from_option id].
    rewrite Hmap, Hne. cbn [negb]. rewrite Hrid.
    change "pending" with (RequestStatus_value PENDING) at 1. rewrite Hupd.
    cbn [with_db db].
    exists (apply_update request now PENDING (RequestStatus_value PENDING) None None).
    split; [| reflexivity].
    destruct (UserCRUD.get_user_by_id d' (user_id request)) as [u |]; [| exact Hget'].
    destruct (auto_notifications u); exact Hget'.
Qed.

End StatusMapping.

(** A request approved under the Overseerr id 7, polled when Overseerr
    reports the unknown code 99. *)
Lemma unrecognised_code_maps_to_pending_witness :
  SignalerrBot.map_overseerr_status 99 = "pending" /\
  (exists r',
     MediaRequestCRUD.get_request_by_id
       (db (SignalerrBot.check_single_request
              (Sample.overseerr (Created None) 99) 5000 1
              (Sample.world [Sample.matrix APPROVED]))) 1 = Some r'
     /\ status r' = PENDING) /\
  (exists r',
     MediaRequestCRUD.get_request_by_id
       (db (SignalerrBot.check_request_status
              (Sample.overseerr (Created None) 99) 5000
              (Sample.world [Sample.matrix APPROVED]) 1)) 1 = Some r'
     /\ status r' = PENDING).
Proof.
  apply (unrecognised_code_maps_to_pending 99 (Sample.overseerr (Created None) 99)
           5000 1 7 (Sample.world [Sample.matrix APPROVED]) (Sample.matrix APPROVED)).
  - lia.
  - reflexivity.
  - discriminate.
  - reflexivity.
  - lia.
  - reflexivity.
Defined.

(** ** Quota *)

Section Quota.

Lemma date_eq_iff (t now : Z) :
  date t = date now <-> now - now `mod` 86400 <= t < now - now `mod` 86400 + 86400.
Proof.
  unfold date.
  pose proof (Z.div_mod now 86400 ltac:(lia)) as Hn.
  pose proof (Z.mod_pos_bound now 86400 ltac:(lia)) as Hnb.
  pose proof (Z.div_mod t 86400 ltac:(lia)) as Ht.
  pose proof (Z.mod_pos_bound t 86400 ltac:(lia)) as Htb.
  split; intros H; [rewrite H in Ht; lia |].
  assert (86400 * (t `div` 86400 - now `div` 86400) < 86400) by lia.
  assert (- 86400 < 86400 * (t `div` 86400 - now `div` 86400)) by lia.
  lia.
Qed.

Lemma daily_count_is_requests_today (u : User) (d : Database) (now : Z) :
  get_daily_request_count u d now = Z.of_nat (length (requests_today u d now)).
Proof.
  unfold get_daily_request_count, requests_today. do 2 f_equal.
  apply list_filter_iff. intros r. unfold created_today.
  rewrite date_eq_iff. reflexivity.
Qed.

(** C8.  [can_make_request] answers whether the number of stored requests
    of the user that were created during the current calendar day is below
    the user's daily limit: false with [N] (or more) of them for a limit
    [N], true with fewer. *)
Theorem can_make_request_counts_today (u : User) (d : Database) (now : Z) :
  can_make_request u d now =
  (Z.of_nat (length (requests_today u d now)) <? daily_request_limit u).
Proof.
  unfold can_make_request. rewrite daily_count_is_requests_today. reflexivity.
Qed.

Corollary quota_exhausted (u : User) (d : Database) (now : Z) :
  Z.of_nat (length (requests_today u d now)) = daily_request_limit u ->
  can_make_request u d now = false.
Proof.
  intros H. unfold can_make_request.
  rewrite daily_count_is_requests_today, H. apply Z.ltb_irrefl.
Qed.

Corollary quota_left (u : User) (d : Database) (now : Z) :
  Z.of_nat (length (requests_today u d now)) < daily_request_limit u ->
  can_make_request u d now = true.
Proof.
  intros H. unfold can_make_request.
  rewrite daily_count_is_requests_today. apply Z.ltb_lt, H.
Qed.

(** Alice has a limit of 2 and two requests created on day 0: the quota is
    used up on that day, and free again after midnight. *)
Example quota_rollover :
  let d := Sample.database [Sample.matrix APPROVED; Sample.matrix FAILED] in
  can_make_request Sample.alice d 86399 = false /\
  can_make_request Sample.alice d 86400 = true /\
  can_make_request Sample.bob d 86399 = true.
Proof. repeat split; reflexivity. Qed.

End Quota.

(** ** Time stamp and error detail of a request *)

Section RequestFields.

Import MediaRequestCRUD.

Lemma fields_sound_mono (ops : list op) (o : op) (r : MediaRequest) :
  fields_sound ops r -> fields_sound (ops ++ [o]) r.
Proof.
  intros [Hc He]. split; [exact Hc |].
  intros e Hr. destruct (He e Hr) as (Hne & now & st & oid & Hin).
  split; [exact Hne |]. exists now, st, oid.
  apply elem_of_app. left. exact Hin.
Qed.

Lemma apply_update_sound (ops : list op) (r : MediaRequest) (now : Z)
    (st : RequestStatus) (status_text : string) (oid : option Z) (err : option string) :
  RequestStatus_of status_text = Some st ->
  fields_sound ops r ->
  fields_sound (ops ++ [OpUpdate now (r_id r) status_text oid err])
    (apply_update r now st status_text oid err).
Proof.
  intros Hst [Hc He]. split; simpl.
  - intros ->. apply RequestStatus_value_of in Hst. subst status_text. simpl. eauto.
  - intros e. destruct err as [[| a s] |]; simpl.
    + intros Hr. destruct (He e Hr) as (Hne & n & t & o & Hin).
      split; [exact Hne |]. exists n, t, o. apply elem_of_app. left. exact Hin.
    + intros [= <-]. split; [discriminate |]. exists now, status_text, oid.
      apply elem_of_app. right. apply list_elem_of_singleton. reflexivity.
    + intros Hr. destruct (He e Hr) as (Hne & n & t & o & Hin).
      split; [exact Hne |]. exists n, t, o. apply elem_of_app. left. exact Hin.
Qed.

Lemma run_op_sound (ops : list op) (d : Database) (o : op) :
  (forall r, r ∈ media_requests d -> fields_sound ops r) ->
  forall r, r ∈ media_requests (run_op d o) -> fields_sound (ops ++ [o]) r.
Proof.
  intros IH r. destruct o as [now uid mtype mid ttl yr k seasons | now id st oid err]; simpl.
  - unfold create_request.
    destruct (MediaType_of mtype); [| intros; apply fields_sound_mono; auto].
    destruct ttl; [| intros; apply fields_sound_mono; auto].
    simpl. rewrite elem_of_app, list_elem_of_singleton.
    intros [Hin | ->]; [apply fields_sound_mono; auto |].
    split; simpl; [discriminate | intros; discriminate].
  - unfold update_request_status.
    destruct (get_request_by_id d id) as [r0 |] eqn:Hget;
      [| intros; apply fields_sound_mono; auto].
    destruct (RequestStatus_of st) as [s |] eqn:Hst;
      [| intros; apply fields_sound_mono; auto].
    simpl. rewrite list_elem_of_fmap. intros (x & -> & Hx).
    destruct (find_some_id _ _ _ Hget) as [Hid Hin0].
    destruct (r_id x =? id); [| apply fields_sound_mono; auto].
    rewrite <- Hid. apply apply_update_sound; [exact Hst |].
    apply IH. apply list_elem_of_In. exact Hin0.
Qed.

(** C2, as amended.  After any sequence of create and status-update
    operations, a request whose status is completed has its completed time
    stamp set, and an error detail that is set is non-empty and is the one
    some status update of that request carried. *)
Theorem completed_stamp_and_error_detail (ops : list op) (r : MediaRequest)
    (Hr : r ∈ media_requests (run_ops ops empty_database)) :
  (status r = COMPLETED -> is_Some (completed_at r)) /\
  (forall e, error_message r = Some e ->
     e <> "" /\
     exists now st oid, OpUpdate now (r_id r) st oid (Some e) ∈ ops).
Proof.
  change (fields_sound ops r). revert r Hr.
  induction ops as [| o ops IH] using rev_ind.
  - simpl. intros r Hr. inversion Hr.
  - unfold run_ops in *. rewrite fold_left_app. simpl.
    apply run_op_sound. exact IH.
Qed.

Lemma completed_stamp_and_error_detail_witness :
  Sample.failed_matrix ∈ media_requests (run_ops Sample.failed_history empty_database) /\
  (status Sample.failed_matrix = COMPLETED -> is_Some (completed_at Sample.failed_matrix)) /\
  (forall e, error_message Sample.failed_matrix = Some e ->
     e <> "" /\
     exists now st oid,
       OpUpdate now (r_id Sample.failed_matrix) st oid (Some e) ∈ Sample.failed_history).
Proof.
  assert (H : Sample.failed_matrix
              ∈ media_requests (run_ops Sample.failed_history empty_database)).
  { vm_compute. left. }
  split; [exact H |].
  exact (completed_stamp_and_error_detail Sample.failed_history Sample.failed_matrix H).
Defined.

(** The invariant as the specification words it fails: a request that a
    poll finds declined has no error detail. *)
Lemma declined_without_error_detail :
  ~ (forall ops r,
       r ∈ media_requests (run_ops ops empty_database) -> fields_match_status r).
Proof.
  intros H.
  assert (Hin : {| r_id := 1; user_id := 1; overseerr_request_id := Some 7;
                   media_type := MOVIE; media_id := 603; title := "The Matrix";
                   year := Some 1999; status := DECLINED; is_4k := false;
                   seasons_requested := None; created_at := 1000;
                   updated_at := 2000; completed_at := None;
                   error_message := None |}
                ∈ media_requests (run_ops Sample.declined_history empty_database)).
  { vm_compute. left. }
  destruct (H _ _ Hin) as [_ [_ Herr]].
  destruct Herr as [e He]; [right; reflexivity |]. discriminate He.
Qed.

(** Nor does the time stamp go away when a completed request is given
    another status. *)
Example stamp_outlives_completed :
  map (fun r => (status r, completed_at r))
    (media_requests
       (run_ops [OpCreate 1000 1 "movie" 603 (Some "The Matrix") None false None;
                 OpUpdate 1001 1 "completed" None None;
                 OpUpdate 1002 1 "downloading" None None] empty_database))
  = [(DOWNLOADING, Some 1001)].
Proof. reflexivity. Qed.

End RequestFields.

(** ** Season derivation *)

Section Seasons.

Import MessageHandler.



(** The three cases of the specification. *)
Example seasons_2_to_4 :
  determine_seasons_to_request (tv_show 8) "request Show seasons 2-4" = Some [2; 3; 4].
Proof. reflexivity. Qed.

Example seasons_latest_of_6 :
  determine_seasons_to_request (tv_show 6) "request Show latest" = Some [3; 4; 5; 6].
Proof. reflexivity. Qed.

Example seasons_no_hint_of_3 :
  determine_seasons_to_request (tv_show 3) "request Show" = None.
Proof. reflexivity. Qed.

Example season_mentions :
  season_mention "Show Season 3" = Some (3, 3) /\
  season_mention "show seasons 1 – 3" = Some (1, 3) /\
  season_mention "show s2" = None /\
  season_mention "the seasoning season10-12" = Some (10, 12) /\
  season_mention "show season 5-2" = Some (5, 2).
Proof. repeat split; reflexivity. Qed.


End Seasons.

(** ** Scheduling of one-shot checks *)

Section Scheduling.

Import SignalerrBot.

Lemma add_job_replacing (js : gmap string Job) (job_id : string) (j : Job) :
  add_job js job_id j true = Ok (<[job_id := j]> js).
Proof. unfold add_job. destruct (js !! job_id); reflexivity. Qed.

Lemma schedule_request_check_ok (w : World) (now request_id d : Z)
    (delay_minutes : option Z) :
  requested_delay (db w) delay_minutes = Some d ->
  schedule_request_check w now request_id delay_minutes
  = Ok (with_jobs w
          (<[check_job_id request_id :=
               {| job_func := check_single_request_job request_id;
                  job_trigger := DateTrigger (now + 60 * d);
                  job_name := "Check Request " +:+ pretty request_id |}]>
             (jobs w))).
Proof.
  intros H. unfold schedule_request_check. rewrite H, add_job_replacing. reflexivity.
Qed.

Lemma checks_keyed_insert (js : gmap string Job) (request_id : Z) (j : Job) :
  job_func j = check_single_request_job request_id ->
  checks_keyed js ->
  checks_keyed (<[check_job_id request_id := j]> js).
Proof.
  intros Hj Hk k j' id' Hlook Hf.
  destruct (decide (k = check_job_id request_id)) as [-> | Hne].
  - rewrite lookup_insert_eq in Hlook. injection Hlook as <-.
    rewrite Hj in Hf. injection Hf as <-. reflexivity.
  - rewrite lookup_insert_ne in Hlook by congruence. eapply Hk; eauto.
Qed.

(** The jobs of [setup_scheduler] keep the store keyed. *)
Lemma checks_keyed_setup (w w' : World) :
  jobs w = ∅ -> setup_scheduler w = Ok w' -> checks_keyed (jobs w').
Proof.
  intros He. unfold setup_scheduler, add_job. rewrite He.
  rewrite lookup_empty, lookup_insert_ne, lookup_empty by discriminate.
  rewrite !lookup_insert_ne, lookup_empty by discriminate.
  intros [= <-]. simpl. intros k j id Hlook Hf.
  repeat (apply lookup_insert_Some in Hlook as [[_ <-] | [_ Hlook]];
          [discriminate Hf |]).
  rewrite lookup_empty in Hlook. discriminate.
Qed.

Lemma pending_checks_insert (js : gmap string Job) (request_id : Z) (j : Job) :
  job_func j = check_single_request_job request_id ->
  checks_keyed js ->
  pending_checks request_id (<[check_job_id request_id := j]> js)
  = {[ check_job_id request_id := j ]}.
Proof.
  intros Hj Hk. unfold pending_checks. apply map_eq. intros k.
  apply option_eq. intros x.
  rewrite map_lookup_filter_Some, lookup_singleton_Some. simpl. split.
  - intros [Hlook Hf].
    destruct (decide (k = check_job_id request_id)) as [-> | Hne].
    + rewrite lookup_insert_eq in Hlook. injection Hlook as <-. auto.
    + rewrite lookup_insert_ne in Hlook by congruence.
      exfalso. apply Hne. eapply Hk; eauto.
  - intros [<- <-]. rewrite lookup_insert_eq. auto.
Qed.

(** C4, as amended.  Two calls of [schedule_request_check] for one request
    leave exactly one pending check for it, due at the time the second call
    asked for; every other job, the database and the messages are as
    before. *)
Theorem second_schedule_replaces_first
    (w : World) (now1 now2 request_id d1 d2 : Z) (delay1 delay2 : option Z)
    (Hkeyed : checks_keyed (jobs w))
    (Hd1 : requested_delay (db w) delay1 = Some d1)
    (Hd2 : requested_delay (db w) delay2 = Some d2) :
  exists w1 w2 j,
    schedule_request_check w now1 request_id delay1 = Ok w1 /\
    schedule_request_check w1 now2 request_id delay2 = Ok w2 /\
    pending_checks request_id (jobs w2) = {[ check_job_id request_id := j ]} /\
    size (pending_checks request_id (jobs w2)) = 1%nat /\
    job_trigger j = DateTrigger (now2 + 60 * d2) /\
    (forall k, k <> check_job_id request_id -> jobs w2 !! k = jobs w !! k) /\
    db w2 = db w /\ outbox w2 = outbox w /\ api_calls w2 = api_calls w.
Proof.
  pose proof (schedule_request_check_ok w now1 request_id d1 delay1 Hd1) as H1.
  set (w1 := with_jobs w _) in H1.
  pose proof (schedule_request_check_ok w1 now2 request_id d2 delay2 Hd2) as H2.
  set (w2 := with_jobs w1 _) in H2.
  exists w1, w2. eexists. split; [exact H1 |]. split; [exact H2 |].
  assert (Hp : pending_checks request_id (jobs w2)
               = {[ check_job_id request_id :=
                      {| job_func := check_single_request_job request_id;
                         job_trigger := DateTrigger (now2 + 60 * d2);
                         job_name := "Check Request " +:+ pretty request_id |} ]}).
  { subst w2 w1. cbn [jobs with_jobs]. rewrite insert_insert_eq.
    apply pending_checks_insert; [reflexivity | exact Hkeyed]. }
  split; [exact Hp |]. split; [rewrite Hp; apply map_size_singleton |].
  split; [reflexivity |]. split; [| repeat split].
  intros k Hk. subst w2 w1. cbn [jobs with_jobs].
  rewrite !lookup_insert_ne by congruence. reflexivity.
Qed.

Lemma checks_keyed_empty : checks_keyed ∅.
Proof. intros k j id H. rewrite lookup_empty in H. discriminate. Qed.

(** A check asked for at time 0 with a delay of 5 minutes, then one asked
    for at time 60 with the default delay of 2 minutes. *)
Lemma second_schedule_replaces_first_witness :
  checks_keyed (jobs (Sample.world [])) /\
  requested_delay (db (Sample.world [])) (Some 5) = Some 5 /\
  requested_delay (db (Sample.world [])) None = Some 2 /\
  exists w1 w2 j,
    schedule_request_check (Sample.world []) 0 1 (Some 5) = Ok w1 /\
    schedule_request_check w1 60 1 None = Ok w2 /\
    pending_checks 1 (jobs w2) = {[ check_job_id 1 := j ]} /\
    size (pending_checks 1 (jobs w2)) = 1%nat /\
    job_trigger j = DateTrigger (60 + 60 * 2) /\
    (forall k, k <> check_job_id 1 -> jobs w2 !! k = jobs (Sample.world []) !! k) /\
    db w2 = db (Sample.world []) /\ outbox w2 = outbox (Sample.world []) /\
    api_calls w2 = api_calls (Sample.world []).
Proof.
  assert (H1 : requested_delay (db (Sample.world [])) (Some 5) = Some 5)
    by reflexivity.
  assert (H2 : requested_delay (db (Sample.world [])) None = Some 2)
    by (vm_compute; reflexivity).
  split; [exact checks_keyed_empty |]. split; [exact H1 |]. split; [exact H2 |].
  exact (second_schedule_replaces_first (Sample.world []) 0 60 1 5 2 (Some 5) None
           checks_keyed_empty H1 H2).
Defined.

(** The replace rule as the specification words it fails when the second
    call asks for the earlier time: a check due at 300 is replaced by one
    due at 180. *)
Lemma earlier_second_call_wins : ~ later_due_time_wins.
Proof.
  intros H.
  pose proof (schedule_request_check_ok (Sample.world []) 0 1 5 (Some 5) eq_refl) as H1.
  set (w1 := with_jobs _ _) in H1.
  pose proof (schedule_request_check_ok w1 60 1 2 (Some 2) eq_refl) as H2.
  set (w2 := with_jobs _ _) in H2.
  specialize (H (Sample.world []) w1 w2 0 60 1 5 2
                {| job_func := check_single_request_job 1;
                   job_trigger := DateTrigger 180;
                   job_name := "Check Request 1" |}
                ltac:(lia) H1 H2).
  assert (Hlook : jobs w2 !! check_job_id 1
                  = Some {| job_func := check_single_request_job 1;
                            job_trigger := DateTrigger 180;
                            job_name := "Check Request 1" |}).
  { subst w2 w1. cbn [jobs with_jobs]. rewrite lookup_insert_eq. reflexivity. }
  specialize (H Hlook). simpl in H. discriminate H.
Qed.

End Scheduling.

(** ** Unknown senders *)

Section UnknownSender.

Import MessageHandler.

Lemma get_user_by_phone_create_log (d : Database) (l mo : string) (u r : option Z)
    (phone : string) :
  UserCRUD.get_user_by_phone (LogCRUD.create_log d l mo u r) phone
  = UserCRUD.get_user_by_phone d phone.
Proof. reflexivity. Qed.

(** What the loop over the admin numbers sends. *)
Lemma fan_out (text : string) (phones : list string) (w : World) :
  let w' := fold_left (fun w admin_phone => sent w (send_message admin_phone text))
              phones w in
  outbox w' = outbox w ++ map (fun p => send_message p text) phones /\
  db w' = db w /\ api_calls w' = api_calls w /\ jobs w' = jobs w.
Proof.
  revert w. induction phones as [| p phones IH]; intros w; cbn [fold_left map].
  - rewrite app_nil_r. repeat split.
  - destruct (IH (sent w (send_message p text))) as (Ho & Hd & Ha & Hj).
    cbv zeta in Ho, Hd, Ha, Hj |- *. rewrite Ho, Hd, Ha, Hj.
    cbn [outbox db api_calls jobs sent]. rewrite <- app_assoc. repeat split.
Qed.




End UnknownSender.

(** ** Words and prefixes *)

Section Words.

Lemma append_cons (a : ascii) (s t : string) : String a s +:+ t = String a (s +:+ t).
Proof. reflexivity. Qed.

Lemma append_nil_r (s : string) : s +:+ "" = s.
Proof. induction s as [| a s IH]; [reflexivity |]. rewrite append_cons, IH. reflexivity. Qed.

Lemma append_snoc (s : string) (a : ascii) (t : string) :
  (s +:+ String a "") +:+ t = s +:+ String a t.
Proof.
  induction s as [| b s IH]; [reflexivity |]. rewrite !append_cons, IH. reflexivity.
Qed.

Lemma is_space_lower_char (a : ascii) :
  Text.is_space (Text.lower_char a) = Text.is_space a.
Proof. destruct a as [[] [] [] [] [] [] [] []]; reflexivity. Qed.

Lemma first_token_lower (s : string) :
  Text.first_token (Text.lower s) = Text.lower (Text.first_token s).
Proof.
  induction s as [| a s IH]; [reflexivity |]. simpl.
  rewrite is_space_lower_char. destruct (Text.is_space a); [reflexivity |].
  simpl. rewrite IH. reflexivity.
Qed.

(** A word without white space is a prefix of a text exactly when it is a
    prefix of the first token of the text. *)
Lemma prefix_first_token (p s : string) :
  Text.no_space p = true ->
  String.prefix p s = String.prefix p (Text.first_token s).
Proof.
  revert s. induction p as [| a p IH]; intros s Hp.
  - destruct s as [| b s]; simpl; [reflexivity |].
    destruct (Text.is_space b); reflexivity.
  - simpl in Hp. apply andb_true_iff in Hp as [Ha Hp].
    destruct s as [| b s]; [reflexivity |]. simpl.
    destruct (Text.is_space b) eqn:Hb; simpl.
    + destruct (ascii_dec a b) as [-> | _]; [| reflexivity].
      rewrite Hb in Ha. discriminate.
    + destruct (ascii_dec a b); [apply IH; exact Hp | reflexivity].
Qed.

Lemma split_go_head (s cur : string) :
  cur <> "" \/ (exists a s', s = String a s' /\ Text.is_space a = false) ->
  hd "" (Text.split_go cur s) = cur +:+ Text.first_token s.
Proof.
  revert cur. induction s as [| a s IH]; intros cur H; simpl.
  - destruct H as [H | (a & s' & [=] & _)].
    destruct cur; [congruence |]. rewrite append_nil_r. reflexivity.
  - destruct (Text.is_space a) eqn:Ha.
    + destruct H as [H | (b & s' & [= <- <-] & Hb)]; [| congruence].
      destruct cur; [congruence |]. rewrite append_nil_r. reflexivity.
    + rewrite IH, append_snoc; [reflexivity |].
      left. destruct cur; discriminate.
Qed.

Lemma first_word_is_first_token (a : ascii) (s : string) :
  Text.is_space a = false ->
  first_word (String a s) = Text.first_token (String a s).
Proof.
  intros Ha. unfold first_word, Text.split. rewrite split_go_head; [reflexivity |].
  right. eauto.
Qed.

Lemma lstrip_head (s : string) :
  Text.lstrip s = "" \/
  exists a r, Text.lstrip s = String a r /\ Text.is_space a = false.
Proof.
  induction s as [| a s IH]; simpl; [auto |].
  destruct (Text.is_space a) eqn:Ha; [exact IH |]. right. eauto.
Qed.

Lemma rstrip_head (a : ascii) (r : string) :
  Text.is_space a = false -> exists r', Text.rstrip (String a r) = String a r'.
Proof.
  intros Ha. simpl. destruct (Text.rstrip r); [rewrite Ha |]; eauto.
Qed.

(** A stripped text that is not empty begins with a character that is no
    white space. *)
Lemma strip_head (s : string) :
  Text.truthy (Text.strip s) = true ->
  exists a r, Text.strip s = String a r /\ Text.is_space a = false.
Proof.
  unfold Text.strip. destruct (lstrip_head s) as [-> | (a & r & -> & Ha)].
  - discriminate.
  - intros _. destruct (rstrip_head a r Ha) as [r' ->]. eauto.
Qed.

(** The test of [handle_natural_request] on the lower-cased text is a test
    on the first word. *)
Lemma startswith_any_first_word (verbs : list string) (a : ascii) (s : string) :
  forallb Text.no_space verbs = true ->
  Text.is_space a = false ->
  Text.startswith_any (Text.lower (String a s)) verbs
  = collides_with verbs (String a s).
Proof.
  intros Hv Ha. unfold Text.startswith_any, collides_with, Text.startswith.
  rewrite first_word_is_first_token by exact Ha.
  induction verbs as [| v verbs IH]; [reflexivity |].
  simpl in Hv. apply andb_true_iff in Hv as [Hv Hvs].
  cbn [existsb]. rewrite IH by exact Hvs. f_equal.
  rewrite (prefix_first_token v _ Hv), first_token_lower. reflexivity.
Qed.

End Words.

(** ** Texts that match no verb *)

Section Unmatched.

Import MessageHandler.

Lemma get_setting_update_user (d : Database) (now id : Z) (key dflt : string) :
  get_setting (UserCRUD.update_user_last_active d now id) key dflt
  = get_setting d key dflt.
Proof.
  unfold UserCRUD.update_user_last_active.
  destruct (UserCRUD.get_user_by_id d id); reflexivity.
Qed.

(** Decide that a given word is not in a given list. *)
Ltac not_elem :=
  match goal with
  | |- ?x ∉ ?l =>
      apply (proj1 (bool_decide_eq_false (x ∈ l))); vm_compute; reflexivity
  end.

Lemma commands_no_space : forallb Text.no_space commands = true.
Proof. reflexivity. Qed.

(** The text [get_text] returns is the trimmed message. *)
Lemma get_text_ok (m : SignalMessage) (text : string) :
  get_text m = Ok text -> exists s, message m = Some s /\ text = Text.strip s.
Proof.
  unfold get_text. destruct (message m) as [s |]; [| discriminate].
  intros [= <-]. eauto.
Qed.

(** C6, as amended.  A known user's message that passes the maintenance
    gate and whose first token is no standard and no admin verb is answered
    with "unknown command", and nothing else happens, if the text begins
    with a slash or its first word begins with a standard verb; otherwise the
    whole trimmed text goes to the free-form request flow.  Admin verbs are
    not looked at. *)
Theorem unmatched_text_is_routed
    (handlers : string -> handler) (ovs : Overseerr) (now : Z)
    (m : SignalMessage) (w : World) (user : User) (text : string)
    (Hget : get_text m = Ok text)
    (Htext : Text.truthy text = true)
    (Hknown : UserCRUD.get_user_by_phone (db w) (get_sender m) = Some user)
    (Hopen : in_maintenance (db w) user = false)
    (Hstd : (parse_command text).1 ∉ commands)
    (Hadm : (parse_command text).1 ∉ admin_commands) :
  handle_message handlers ovs now m w =
  if Text.startswith text "/" || collides_with commands text
  then send_response (at_router w now user) (phone_number user)
         unknown_command (Some m)
  else process_media_request ovs now (UserCRUD.set_last_active user now)
         text m (at_router w now user).
Proof.
  unfold handle_message. rewrite Hget, Htext. cbn [negb db with_db].
  rewrite get_user_by_phone_create_log, Hknown.
  rewrite get_setting_update_user.
  change (String.eqb _ "true" && negb (is_admin (UserCRUD.set_last_active user now)))
    with (in_maintenance (db w) user).
  rewrite Hopen.
  destruct (parse_command text) as [command args]. cbn [fst] in Hstd, Hadm.
  rewrite (bool_decide_eq_false_2 _ Hstd), (bool_decide_eq_false_2 _ Hadm).
  unfold handle_natural_request.
  destruct (get_text_ok m text Hget) as (s & _ & ->).
  destruct (strip_head s Htext) as (a & r & Heq & Ha).
  rewrite Heq.
  rewrite (startswith_any_first_word commands a r commands_no_space Ha).
  reflexivity.
Qed.

(** Alice writes "helpful movie": no verb, but a first word that begins
    with the verb help. *)
Lemma unmatched_text_is_routed_witness :
  let m := Sample.text_from "+15550001" "helpful movie" in
  let w := Sample.world [] in
  let ovs := Sample.overseerr (Created (Some 7)) 2 in
  get_text m = Ok "helpful movie" /\
  Text.truthy "helpful movie" = true /\
  UserCRUD.get_user_by_phone (db w) (get_sender m) = Some Sample.alice /\
  in_maintenance (db w) Sample.alice = false /\
  ((parse_command "helpful movie").1 ∉ commands) /\
  ((parse_command "helpful movie").1 ∉ admin_commands) /\
  handle_message Sample.idle_handlers ovs 5000 m w
  = send_response (at_router w 5000 Sample.alice) "+15550001" unknown_command (Some m).
Proof.
  intros m w ovs.
  assert (H0 : get_text m = Ok "helpful movie") by reflexivity.
  assert (H1 : Text.truthy "helpful movie" = true) by reflexivity.
  assert (H2 : UserCRUD.get_user_by_phone (db w) (get_sender m) = Some Sample.alice)
    by reflexivity.
  assert (H3 : in_maintenance (db w) Sample.alice = false)
    by (vm_compute; reflexivity).
  assert (H4 : (parse_command "helpful movie").1 ∉ commands)
    by (not_elem).
  assert (H5 : (parse_command "helpful movie").1 ∉ admin_commands)
    by (not_elem).
  repeat (split; [assumption |]).
  exact (unmatched_text_is_routed Sample.idle_handlers ovs 5000 m w Sample.alice
           "helpful movie" H0 H1 H2 H3 H4 H5).
Defined.

(** A text that collides with no standard verb is a request for media. *)
Example free_text_is_requested :
  let w' := handle_message Sample.idle_handlers
              (Sample.overseerr (Created (Some 7)) 2) 5000
              (Sample.text_from "+15550001" "Inception") (Sample.world []) in
  api_calls w' = [ApiSearch "Inception"; ApiMediaStatus 27205; ApiRequestMovie 27205] /\
  map (fun r => (title r, status r, overseerr_request_id r)) (media_requests (db w'))
  = [("Inception", APPROVED, Some 7)].
Proof. split; vm_compute; reflexivity. Qed.

(** With the admin verbs among the guarded prefixes, as the specification
    words it, the rule fails: "approved" begins with the admin verb approve,
    and is taken for a media request all the same. *)
Lemma admin_verb_prefix_is_requested :
  ~ routes_unmatched_text (commands ++ admin_commands).
Proof.
  intros H.
  specialize (H Sample.idle_handlers (Sample.overseerr (Created (Some 7)) 2) 5000
                (Sample.text_from "+15550001" "approved") (Sample.world [])
                Sample.alice "approved").
  assert (Hout : outbox
            (handle_message Sample.idle_handlers
               (Sample.overseerr (Created (Some 7)) 2) 5000
               (Sample.text_from "+15550001" "approved") (Sample.world []))
          = [send_message "+15550001" unknown_command]).
  { rewrite H.
    - vm_compute. reflexivity.
    - reflexivity.
    - reflexivity.
    - reflexivity.
    - vm_compute. reflexivity.
    - not_elem.
    - not_elem. }
  vm_compute in Hout. discriminate Hout.
Qed.

End Unmatched.

(** ** Conflicts *)

Section Conflict.

Import MessageHandler MediaRequestCRUD.

Lemma next_id_fresh (d : Database) (r : MediaRequest) :
  In r (media_requests d) -> r_id r < next_id d.
Proof.
  unfold next_id. induction (media_requests d) as [| x l IH]; simpl; [tauto |].
  intros [-> | H]; [lia |]. specialize (IH H). lia.
Qed.

Lemma find_app_fresh (l : list MediaRequest) (r : MediaRequest) :
  (forall x, In x l -> r_id x <> r_id r) ->
  find (fun x => r_id x =? r_id r) (l ++ [r]) = Some r.
Proof.
  intros H. induction l as [| x l IH]; simpl.
  - rewrite Z.eqb_refl. reflexivity.
  - replace (r_id x =? r_id r) with false
      by (symmetry; apply Z.eqb_neq, H; left; reflexivity).
    apply IH. intros y Hy. apply H. right. exact Hy.
Qed.

Lemma map_replace_fresh (l : list MediaRequest) (id : Z) (r' : MediaRequest) :
  (forall x, In x l -> r_id x <> id) ->
  map (fun x => if r_id x =? id then r' else x) l = l.
Proof.
  intros H. induction l as [| x l IH]; simpl; [reflexivity |].
  replace (r_id x =? id) with false
    by (symmetry; apply Z.eqb_neq, H; left; reflexivity).
  f_equal. apply IH. intros y Hy. apply H. right. exact Hy.
Qed.

Lemma send_response_reply (w : World) (phone text : string) (m : SignalMessage) :
  send_response w phone text (Some m) = sent w (reply m phone text).
Proof. unfold send_response, reply. destruct (is_group_message m); reflexivity. Qed.

(** The error a submission returns for an answer that is no conflict is
    never the conflict detail. *)
Lemma conflict_detail_distinct (ovs : Overseerr) (media_info : MediaInfo)
    (seasons : option (list Z)) :
  (forall text, submit_reply ovs media_info seasons <> HTTPError 409 text) ->
  (submit ovs media_info seasons).2 <> Some (conflict_detail media_info).
Proof.
  unfold submit, submit_reply, conflict_detail,
    OverseerrAPI.request_movie, OverseerrAPI.request_tv_show.
  intros H.
  destruct (String.eqb (mi_media_type media_info) "movie").
  - destruct (post_movie ovs _) as [id | code text | text]; cbn [snd].
    + discriminate.
    + destruct (Z.eqb_spec code 409) as [-> | _]; [destruct (H text eq_refl) |].
      cbn [snd]. rewrite append_cons. intros [=].
    + rewrite append_cons. intros [=].
  - destruct (post_tv ovs _ _) as [id | code text | text]; cbn [snd].
    + discriminate.
    + destruct (Z.eqb_spec code 409) as [-> | _]; [destruct (H text eq_refl) |].
      cbn [snd]. rewrite append_cons. intros [=].
    + rewrite append_cons. intros [=].
Qed.

(** A failed update of the row that was just created. *)
Lemma fail_new_request (d : Database) (now : Z) (r0 : MediaRequest)
    (err : option string) :
  r_id r0 = next_id d ->
  update_request_status (with_media_requests d (media_requests d ++ [r0])) now
    (r_id r0) "failed" None err
  = Ok (with_media_requests d
          (media_requests d ++ [apply_update r0 now FAILED "failed" None err]),
        Some (apply_update r0 now FAILED "failed" None err)).
Proof.
  intros Hid.
  assert (Hfresh : forall x, In x (media_requests d) -> r_id x <> r_id r0).
  { intros x Hx. apply next_id_fresh in Hx. lia. }
  unfold update_request_status, get_request_by_id. cbn [media_requests with_media_requests].
  rewrite find_app_fresh by exact Hfresh.
  change (RequestStatus_of "failed") with (Some FAILED). cbv iota beta.
  rewrite map_app, map_replace_fresh by exact Hfresh.
  cbn [map]. rewrite Z.eqb_refl. reflexivity.
Qed.

(** C7.  When Overseerr answers the submission with a conflict (409), the
    submit operation returns the already-requested detail, which no other
    failure returns; the user is told so; and the request that was created
    is recorded as failed with that detail. *)
Theorem conflict_is_reported
    (ovs : Overseerr) (now : Z) (user : User) (query : string)
    (m : SignalMessage) (w : World) (best_match : MediaData)
    (others : list MediaData) (media_info : MediaInfo) (ttl text : string)
    (mt : MediaType)
    (Hquota : can_make_request user (db w) now = true)
    (Hsearch : search_media ovs query = best_match :: others)
    (Hparse : OverseerrAPI.parse_media_info best_match = Ok media_info)
    (Hnew : OverseerrAPI.is_media_available ovs (mi_tmdb_id media_info) = false)
    (Htitle : mi_title media_info = Some ttl)
    (Htype : MediaType_of (mi_media_type media_info) = Some mt)
    (Hconflict : submit_reply ovs media_info (seasons_for media_info query)
                 = HTTPError 409 text) :
  let detail := conflict_detail media_info in
  let w' := process_media_request ovs now user query m w in
  submit ovs media_info (seasons_for media_info query) = (false, None, Some detail) /\
  (forall ovs' seasons,
     (forall t, submit_reply ovs' media_info seasons <> HTTPError 409 t) ->
     (submit ovs' media_info seasons).2 <> Some detail) /\
  outbox w' =
    outbox w ++
    [reply m (phone_number user) ("🔍 Searching for '" +:+ query +:+ "'...");
     reply m (phone_number user)
       ("❌ Failed to request '" +:+ ttl +:+ "': " +:+ detail)] /\
  exists r,
    media_requests (db w') = media_requests (db w) ++ [r] /\
    status r = FAILED /\
    error_message r = Some detail /\
    user_id r = u_id user /\
    title r = ttl /\
    overseerr_request_id r = None /\
    completed_at r = None.
Proof.
  intros detail w'.
  assert (Hsub : submit ovs media_info (seasons_for media_info query)
                 = (false, None, Some detail)).
  { revert Hconflict. subst detail.
    unfold submit, submit_reply, conflict_detail,
      OverseerrAPI.request_movie, OverseerrAPI.request_tv_show.
    destruct (String.eqb (mi_media_type media_info) "movie");
      intros ->; reflexivity. }
  split; [exact Hsub |].
  split; [intros ovs' seasons; apply conflict_detail_distinct |].
  subst w'. unfold process_media_request.
  rewrite Hquota. cbn [negb]. rewrite !send_response_reply.
  cbn [called sent db]. rewrite Hsearch, Hparse. cbn [called sent db].
  rewrite Hnew. fold (seasons_for media_info query).
  unfold create_request. rewrite Htype, Htitle. cbn [with_db db].
  set (r0 := {| r_id := next_id (db w); user_id := u_id user |}).
  revert Hsub. unfold submit.
  destruct (String.eqb (mi_media_type media_info) "movie"); intros ->;
    cbn [called with_db db];
    rewrite (fail_new_request (db w) now r0 (Some detail) eq_refl);
    rewrite send_response_reply; cbn [with_db called sent db outbox media_requests
                                       with_media_requests show default from_option id];
    (split; [rewrite <- app_assoc; reflexivity |]);
    eexists; (split; [reflexivity |]);
    subst detail; unfold conflict_detail;
    destruct (String.eqb (mi_media_type media_info) "movie"); repeat split.
Qed.

(** Alice asks for Inception, and Overseerr answers the request with 409. *)
Lemma conflict_is_reported_witness :
  let ovs := Sample.overseerr (HTTPError 409 "409 Client Error: Conflict") 2 in
  let m := Sample.text_from "+15550001" "Inception" in
  let w := Sample.world [] in
  let info := Sample.inception_info in
  let detail := "This movie has already been requested" in
  let w' := process_media_request ovs 5000 Sample.alice "Inception" m w in
  can_make_request Sample.alice (db w) 5000 = true /\
  search_media ovs "Inception" = [Sample.inception] /\
  OverseerrAPI.parse_media_info Sample.inception = Ok info /\
  OverseerrAPI.is_media_available ovs (mi_tmdb_id info) = false /\
  mi_title info = Some "Inception" /\
  MediaType_of (mi_media_type info) = Some MOVIE /\
  submit_reply ovs info (seasons_for info "Inception")
  = HTTPError 409 "409 Client Error: Conflict" /\
  submit ovs info (seasons_for info "Inception") = (false, None, Some detail) /\
  (forall ovs' seasons,
     (forall t, submit_reply ovs' info seasons <> HTTPError 409 t) ->
     (submit ovs' info seasons).2 <> Some detail) /\
  outbox w' =
    [send_message "+15550001" "🔍 Searching for 'Inception'...";
     send_message "+15550001"
       "❌ Failed to request 'Inception': This movie has already been requested"] /\
  exists r,
    media_requests (db w') = [r] /\
    status r = FAILED /\
    error_message r = Some detail /\
    user_id r = 1 /\
    title r = "Inception" /\
    overseerr_request_id r = None /\
    completed_at r = None.
Proof.
  intros ovs m w info detail w'.
  pose proof (conflict_is_reported ovs 5000 Sample.alice "Inception" m w
                Sample.inception [] info "Inception" "409 Client Error: Conflict"
                MOVIE eq_refl eq_refl eq_refl eq_refl eq_refl eq_refl eq_refl) as H.
  repeat (split; [reflexivity |]). exact (proj2 H).
Defined.

End Conflict.

(** ** Notifications of a status change *)

Section Notifications.

Import SignalerrBot MediaRequestCRUD.

Lemma get_user_by_id_users (d d' : Database) (id : Z) :
  users d' = users d -> UserCRUD.get_user_by_id d' id = UserCRUD.get_user_by_id d id.
Proof. unfold UserCRUD.get_user_by_id. intros ->. reflexivity. Qed.

Lemma outbox_schedule (w w' : World) (now id : Z) (delay : option Z) :
  schedule_request_check w now id delay = Ok w' ->
  outbox w' = outbox w /\ db w' = db w /\ api_calls w' = api_calls w.
Proof.
  unfold schedule_request_check.
  destruct (requested_delay (db w) delay); [| discriminate].
  destruct (add_job _ _ _ _); [| discriminate].
  intros [= <-]. repeat split.
Qed.

(** C9.  When a poll reads a status that differs from the stored one, the
    one-shot check sends the status update to the owner of the request
    whatever the owner's auto-notification flag, while the sweep, for a
    request it does not skip as just created, sends it only if the flag is
    set. *)
Theorem one_shot_check_ignores_notification_flag
    (ovs : Overseerr) (now rid oid code : Z) (w : World)
    (request : MediaRequest) (user : User)
    (Hget : get_request_by_id (db w) rid = Some request)
    (Hoid : overseerr_request_id request = Some oid)
    (Hnz : oid <> 0)
    (Hreply : status_of_reply (get_request_status ovs oid) = Some code)
    (Hchanged : map_overseerr_status code <> RequestStatus_value (status request))
    (Howner : UserCRUD.get_user_by_id (db w) (user_id request) = Some user) :
  exists updated,
    let notification :=
      send_message (phone_number user)
        (format_status_message user updated (map_overseerr_status code) now) in
    RequestStatus_value (status updated) = map_overseerr_status code /\
    title updated = title request /\
    get_request_by_id (db (check_single_request ovs now rid w)) rid = Some updated /\
    outbox (check_single_request ovs now rid w) = outbox w ++ [notification] /\
    get_request_by_id (db (check_request_status ovs now w rid)) rid
    = Some (if just_created (db w) now request then request else updated) /\
    outbox (check_request_status ovs now w rid)
    = outbox w ++
      (if just_created (db w) now request then []
       else if auto_notifications user then [notification] else []).
Proof.
  destruct (map_overseerr_status_enum code) as (st & Hst & _).
  destruct (update_request_status_found (db w) now rid st None None request Hget)
    as (d' & Hupd & Hget' & _ & Husers & _).
  destruct (find_some_id _ _ _ Hget) as [Hrid _].
  assert (Hne : negb (String.eqb (map_overseerr_status code)
                        (RequestStatus_value (status request))) = true).
  { apply negb_true_iff, String.eqb_neq. exact Hchanged. }
  exists (apply_update request now st (RequestStatus_value st) None None).
  cbv zeta. rewrite <- Hst in *.
  split; [exact (eq_sym Hst) |]. split; [reflexivity |].
  assert (Hone : check_single_request ovs now rid w =
                 let w1 := send_status_update
                             (with_db (called w (ApiRequestStatus oid)) d') user
                             (apply_update request now st (map_overseerr_status code)
                                None None)
                             (map_overseerr_status code) now in
                 if bool_decide (map_overseerr_status code ∈ ["approved"; "downloading"])
                 then match schedule_request_check w1 now rid (Some 5) with
                      | Ok w2 => w2
                      | Raise _ => w1
                      end
                 else w1).
  { unfold check_single_request. rewrite Hget, Hoid, (ne_zero_truthy oid Hnz).
    cbn [default from_option id db called]. rewrite Hreply, Hne, Hrid, Hupd.
    cbn [with_db db called].
    rewrite (get_user_by_id_users (db w) d' _ Husers), Howner.
    reflexivity. }
  assert (Hsweep : check_request_status ovs now w rid =
                   if just_created (db w) now request then w
                   else
                     let w0 := with_db (called w (ApiRequestStatus oid)) d' in
                     if auto_notifications user
                     then send_status_update w0 user
                            (apply_update request now st (map_overseerr_status code)
                               None None)
                            (map_overseerr_status code) now
                     else w0).
  { unfold check_request_status. rewrite Hget.
    destruct (just_created (db w) now request); [reflexivity |].
    rewrite Hoid, (ne_zero_truthy oid Hnz).
    cbn [default from_option id db called]. rewrite Hreply, Hne, Hrid, Hupd.
    cbn [with_db db called].
    rewrite (get_user_by_id_users (db w) d' _ Husers), Howner.
    reflexivity. }
  rewrite Hone, Hsweep. cbv zeta.
  repeat split.
  - destruct (bool_decide _); [| exact Hget'].
    destruct (schedule_request_check _ _ _ _) as [w2 |] eqn:Hs; [| exact Hget'].
    apply outbox_schedule in Hs as (_ & -> & _). exact Hget'.
  - destruct (bool_decide _); [| reflexivity].
    destruct (schedule_request_check _ _ _ _) as [w2 |] eqn:Hs; [| reflexivity].
    apply outbox_schedule in Hs as (-> & _ & _). reflexivity.
  - destruct (just_created (db w) now request); [exact Hget |].
    destruct (auto_notifications user); exact Hget'.
  - destruct (just_created (db w) now request); [symmetry; apply app_nil_r |].
    destruct (auto_notifications user); [reflexivity |].
    cbn. rewrite app_nil_r. reflexivity.
Qed.

(** Alice has auto-notifications off; her request, approved, is found to be
    downloading. *)
Lemma one_shot_check_ignores_notification_flag_witness :
  let ovs := Sample.overseerr (Created None) 4 in
  let w := Sample.world [Sample.matrix APPROVED] in
  let request := Sample.matrix APPROVED in
  get_request_by_id (db w) 1 = Some request /\
  overseerr_request_id request = Some 7 /\
  7 <> 0 /\
  status_of_reply (get_request_status ovs 7) = Some 4 /\
  map_overseerr_status 4 <> RequestStatus_value (status request) /\
  UserCRUD.get_user_by_id (db w) (user_id request) = Some Sample.alice /\
  auto_notifications Sample.alice = false /\
  exists updated,
    let notification :=
      send_message (phone_number Sample.alice)
        (format_status_message Sample.alice updated (map_overseerr_status 4) 5000) in
    RequestStatus_value (status updated) = map_overseerr_status 4 /\
    title updated = title request /\
    get_request_by_id (db (check_single_request ovs 5000 1 w)) 1 = Some updated /\
    outbox (check_single_request ovs 5000 1 w) = outbox w ++ [notification] /\
    get_request_by_id (db (check_request_status ovs 5000 w 1)) 1 = Some updated /\
    outbox (check_request_status ovs 5000 w 1) = outbox w.
Proof.
  intros ovs w request.
  assert (Hchanged : map_overseerr_status 4 <> RequestStatus_value (status request))
    by (vm_compute; discriminate).
  repeat (split; [first [reflexivity | lia | exact Hchanged] |]).
  exact (one_shot_check_ignores_notification_flag ovs 5000 1 7 4 w request
           Sample.alice eq_refl eq_refl ltac:(lia) eq_refl Hchanged eq_refl).
Defined.

(** The same poll through the one-shot check and through the whole sweep:
    Alice, with the flag off, hears of it from the one-shot check only; Bob,
    with the flag on, from the sweep too. *)
Example notified_by_one_shot_only :
  let ovs := Sample.overseerr (Created None) 4 in
  let w := Sample.world [Sample.matrix APPROVED; Sample.dune APPROVED] in
  outbox (check_single_request ovs 5000 1 w)
  = [send_message "+15550001" "⬇️ The Matrix - Download started"] /\
  map (fun o => match o with send_message to _ => to | _ => "" end)
    (outbox (check_request_statuses ovs 5000 w))
  = ["+15550002"] /\
  map status (media_requests (db (check_request_statuses ovs 5000 w)))
  = [DOWNLOADING; DOWNLOADING].
Proof. repeat split; vm_compute; reflexivity. Qed.

End Notifications.

(** ** Transitions of the lifecycle *)

Section Lifecycle.

Import SignalerrBot MediaRequestCRUD.

Lemma value_inj (s t : RequestStatus) :
  RequestStatus_value s = RequestStatus_value t -> s = t.
Proof.
  intros H. apply (f_equal RequestStatus_of) in H.
  rewrite !RequestStatus_of_value in H. congruence.
Qed.

Lemma polled_functional (ovs : Overseerr) (d : Database) (now : Z)
    (r r1 r2 : MediaRequest) :
  polled ovs d now r r1 -> polled ovs d now r r2 -> r1 = r2.
Proof.
  intros (_ & _ & c1 & s1 & Hc1 & Hm1 & _ & ->) (_ & _ & c2 & s2 & Hc2 & Hm2 & _ & ->).
  rewrite Hc1 in Hc2. injection Hc2 as <-.
  rewrite Hm1 in Hm2. apply value_inj in Hm2. subst s2. reflexivity.
Qed.

Lemma polled_settings (ovs : Overseerr) (d d' : Database) (now : Z)
    (r r' : MediaRequest) :
  settings d' = settings d -> polled ovs d now r r' -> polled ovs d' now r r'.
Proof.
  intros Hs (Hoid & Hnew & Hrest). split; [exact Hoid |]. split; [| exact Hrest].
  unfold just_created, get_setting in *. rewrite Hs. exact Hnew.
Qed.

(** One iteration of the sweep touches the row of its request only and no
    setting; it polls the row if it can be polled, and else leaves it. *)
Lemma check_request_status_spec (ovs : Overseerr) (now : Z) (w : World) (id : Z) :
  (forall id', id' <> id ->
     get_request_by_id (db (check_request_status ovs now w id)) id'
     = get_request_by_id (db w) id') /\
  settings (db (check_request_status ovs now w id)) = settings (db w) /\
  (forall r, get_request_by_id (db w) id = Some r ->
     (get_request_by_id (db (check_request_status ovs now w id)) id = Some r /\
      forall r0, ~ polled ovs (db w) now r r0) \/
     exists r', polled ovs (db w) now r r' /\
       get_request_by_id (db (check_request_status ovs now w id)) id = Some r').
Proof.
  unfold check_request_status.
  destruct (get_request_by_id (db w) id) as [request |] eqn:Hget;
    [| split; [reflexivity | split; [reflexivity | discriminate]]].
  destruct (just_created (db w) now request) eqn:Hnew.
  { split; [reflexivity |]. split; [reflexivity |].
    intros r [= <-]. left. split; [exact Hget |].
    intros r0 (_ & Hn & _). congruence. }
  destruct (truthy_int (overseerr_request_id request)) eqn:Hoid.
  2: { split; [reflexivity |]. split; [reflexivity |].
       intros r [= <-]. left. split; [exact Hget |].
       intros r0 (Ho & _). congruence. }
  destruct (status_of_reply _) as [code |] eqn:Hcode.
  2: { split; [reflexivity |]. split; [reflexivity |].
       intros r [= <-]. left. split; [exact Hget |].
       intros r0 (_ & _ & c & st & Hc & _). congruence. }
  destruct (negb _) eqn:Hne.
  2: { split; [reflexivity |]. split; [reflexivity |].
       intros r [= <-]. left. split; [exact Hget |].
       intros r0 (_ & _ & c & st & Hc & Hm & Hst & _).
       rewrite Hcode in Hc. injection Hc as <-.
       apply negb_false_iff, String.eqb_eq in Hne. rewrite Hm in Hne.
       apply value_inj in Hne. contradiction. }
  destruct (map_overseerr_status_enum code) as (st & Hst & _).
  destruct (update_request_status_found (db w) now id st None None request Hget)
    as (d' & Hupd & Hget' & Hother & _ & Hset & _).
  destruct (find_some_id _ _ _ Hget) as [Hrid _].
  rewrite Hrid, Hst. cbn [db called]. rewrite Hupd. cbn [db with_db].
  assert (Hpolled : polled ovs (db w) now request
                      (apply_update request now st (RequestStatus_value st) None None)).
  { split; [exact Hoid |]. split; [exact Hnew |]. exists code, st.
    split; [exact Hcode |]. split; [exact Hst |]. split; [| reflexivity].
    intros ->. rewrite Hst, String.eqb_refl in Hne. discriminate. }
  destruct (UserCRUD.get_user_by_id d' (user_id request)) as [user |].
  - destruct (auto_notifications user);
      (split; [exact Hother | split; [exact Hset | intros r [= <-]; right; eauto]]).
  - split; [exact Hother | split; [exact Hset | intros r [= <-]; right; eauto]].
Qed.

Lemma sweep_fold_spec (ovs : Overseerr) (now : Z) (ids : list Z) :
  NoDup ids ->
  forall (w : World) (id : Z) (r : MediaRequest),
    get_request_by_id (db w) id = Some r ->
    let w' := fold_left (check_request_status ovs now) ids w in
    settings (db w') = settings (db w) /\
    (~ In id ids -> get_request_by_id (db w') id = Some r) /\
    (In id ids ->
       (get_request_by_id (db w') id = Some r /\
        forall r0, ~ polled ovs (db w) now r r0) \/
       exists r', polled ovs (db w) now r r' /\ get_request_by_id (db w') id = Some r').
Proof.
  induction 1 as [| a ids Ha Hnd IH]; intros w id r Hget; cbn [fold_left].
  - split; [reflexivity |]. split; [intros _; exact Hget | intros []].
  - rewrite list_elem_of_In in Ha.
    destruct (check_request_status_spec ovs now w a) as (Hother & Hset & Hsame).
    destruct (Z.eq_dec id a) as [-> | Hne].
    + destruct (Hsame r Hget) as [[H1 Hno] | (r' & Hp & H1)];
        destruct (IH _ _ _ H1) as (Hs & Hout & _).
      * split; [congruence |].
        split; [intros Hn; destruct Hn; left; reflexivity |]. intros _.
        left. split; [exact (Hout Ha) | exact Hno].
      * split; [congruence |].
        split; [intros Hn; destruct Hn; left; reflexivity |]. intros _.
        right. exists r'. split; [exact Hp | exact (Hout Ha)].
    + rewrite <- (Hother id Hne) in Hget.
      destruct (IH _ _ _ Hget) as (Hs & IH1 & IH2).
      split; [congruence |]. split.
      * intros Hn. apply IH1. intros Hin. apply Hn. right. exact Hin.
      * intros [Heq | Hin]; [congruence |].
        destruct (IH2 Hin) as [[H1 Hno] | (r' & Hp & H1)].
        -- left. split; [exact H1 |]. intros r0 Hp.
           apply (Hno r0). eapply polled_settings; [exact Hset | exact Hp].
        -- right. exists r'. split; [| exact H1].
           eapply polled_settings; [symmetry; exact Hset | exact Hp].
Qed.

Lemma NoDup_map_In_inj {A B : Type} (f : A -> B) (l : list A) (x y : A) :
  NoDup (map f l) -> In x l -> In y l -> f x = f y -> x = y.
Proof.
  induction l as [| a l IH]; simpl; [tauto |].
  intros Hnd Hx Hy Heq. apply NoDup_cons in Hnd as [Ha Hnd].
  rewrite list_elem_of_In in Ha.
  destruct Hx as [-> | Hx], Hy as [-> | Hy]; auto.
  - destruct Ha. rewrite Heq. apply in_map. exact Hy.
  - destruct Ha. rewrite <- Heq. apply in_map. exact Hx.
Qed.

Lemma NoDup_map_filter {A B : Type} (f : A -> B) (P : A -> Prop)
    `{forall x, Decision (P x)} (l : list A) :
  NoDup (map f l) -> NoDup (map f (filter P l)).
Proof.
  induction l as [| a l IH]; simpl; [auto |].
  intros Hnd. apply NoDup_cons in Hnd as [Ha Hnd].
  rewrite filter_cons. destruct (decide (P a)); [| auto].
  simpl. apply NoDup_cons. split; [| auto].
  intros Hin. apply Ha. apply list_elem_of_In.
  apply list_elem_of_In, in_map_iff in Hin as (x & Hx & Hin).
  apply in_map_iff. exists x. split; [exact Hx |].
  apply list_elem_of_In. apply list_elem_of_In in Hin.
  apply list_elem_of_filter in Hin. tauto.
Qed.

(** The requests the sweep reads are the non-terminal ones. *)
Lemma swept_is_not_terminal (d : Database) (id : Z) (r : MediaRequest) :
  keyed d ->
  get_request_by_id d id = Some r ->
  In id (map r_id (get_pending_requests d)) ->
  terminal (status r) = false.
Proof.
  intros Hk Hget Hin. destruct (find_some_id _ _ _ Hget) as [Hid Hr].
  apply in_map_iff in Hin as (p & Hp & Hin).
  apply list_elem_of_In, list_elem_of_filter in Hin as [Hst Hin].
  apply list_elem_of_In in Hin.
  assert (p = r) as -> by (eapply NoDup_map_In_inj; eauto; congruence).
  destruct (status r); try reflexivity; exfalso;
    repeat (apply elem_of_cons in Hst as [Hst | Hst]; [discriminate |]);
    inversion Hst.
Qed.

(** The sweep reads every non-terminal request. *)
Lemma open_is_swept (d : Database) (id : Z) (r : MediaRequest) :
  get_request_by_id d id = Some r ->
  terminal (status r) = false ->
  In id (map r_id (get_pending_requests d)).
Proof.
  intros Hget Hnt. destruct (find_some_id _ _ _ Hget) as [Hid Hr].
  apply in_map_iff. exists r. split; [exact Hid |].
  apply list_elem_of_In, list_elem_of_filter.
  split; [| apply list_elem_of_In; exact Hr].
  rewrite !elem_of_cons. destruct (status r); try discriminate Hnt; auto.
Qed.

(** The sweep leaves a terminal request as it is; a request it changes is
    a non-terminal one that it polled, and it polls every non-terminal
    request that can be polled. *)
Lemma sweep_spec (ovs : Overseerr) (now : Z) (w : World) (id : Z) (r : MediaRequest) :
  keyed (db w) ->
  get_request_by_id (db w) id = Some r ->
  exists r',
    get_request_by_id (db (check_request_statuses ovs now w)) id = Some r' /\
    (r' = r \/ (terminal (status r) = false /\ polled ovs (db w) now r r')) /\
    (forall r0, terminal (status r) = false -> polled ovs (db w) now r r0 -> r' = r0).
Proof.
  intros Hk Hget. unfold check_request_statuses.
  assert (Hnd : NoDup (map r_id (get_pending_requests (db w)))).
  { unfold get_pending_requests. apply NoDup_map_filter. exact Hk. }
  destruct (sweep_fold_spec ovs now _ Hnd w id r Hget) as (_ & Hout & Hin).
  destruct (in_dec Z.eq_dec id (map r_id (get_pending_requests (db w)))) as [Hi | Hi].
  - destruct (Hin Hi) as [[H Hno] | (r' & Hp & H)].
    + exists r. split; [exact H |]. split; [left; reflexivity |].
      intros r0 _ Hp. destruct (Hno r0 Hp).
    + exists r'. split; [exact H |]. split.
      * right. split; [| exact Hp]. eapply swept_is_not_terminal; eauto.
      * intros r0 _ Hp0. eapply polled_functional; eauto.
  - exists r. split; [apply Hout; exact Hi |]. split; [left; reflexivity |].
    intros r0 Hnt _. destruct Hi. eapply open_is_swept; eauto.
Qed.

Lemma create_request_ok (d d' : Database) (now uid : Z) (mtype : string) (mid : Z)
    (ttl : option string) (yr : option Z) (k : bool) (seasons : option (list Z))
    (r0 : MediaRequest) :
  create_request d now uid mtype mid ttl yr k seasons = Ok (d', r0) ->
  d' = with_media_requests d (media_requests d ++ [r0]) /\
  r_id r0 = next_id d /\ status r0 = PENDING.
Proof.
  unfold create_request. destruct (MediaType_of mtype); [| discriminate].
  destruct ttl; [| discriminate]. intros [= <- <-]. repeat split.
Qed.

(** An update of the row that was just created. *)
Lemma update_new_request (d : Database) (now : Z) (r0 : MediaRequest)
    (st : RequestStatus) (oid : option Z) (err : option string) :
  r_id r0 = next_id d ->
  update_request_status (with_media_requests d (media_requests d ++ [r0])) now
    (r_id r0) (RequestStatus_value st) oid err
  = Ok (with_media_requests d
          (media_requests d ++
             [apply_update r0 now st (RequestStatus_value st) oid err]),
        Some (apply_update r0 now st (RequestStatus_value st) oid err)).
Proof.
  intros Hid.
  assert (Hfresh : forall x, In x (media_requests d) -> r_id x <> r_id r0).
  { intros x Hx. apply next_id_fresh in Hx. lia. }
  unfold update_request_status, get_request_by_id.
  cbn [media_requests with_media_requests].
  rewrite find_app_fresh by exact Hfresh.
  rewrite RequestStatus_of_value.
  rewrite map_app, map_replace_fresh by exact Hfresh.
  cbn [map]. rewrite Z.eqb_refl. reflexivity.
Qed.

Lemma db_send_response (w : World) (to text : string) (m : option SignalMessage) :
  db (MessageHandler.send_response w to text m) = db w.
Proof.
  unfold MessageHandler.send_response.
  destruct m as [m |]; [destruct (is_group_message m) |]; reflexivity.
Qed.

Lemma db_send_error_to_admins (w : World) (e phone : string) :
  db (MessageHandler.send_error_to_admins w e phone) = db w.
Proof.
  unfold MessageHandler.send_error_to_admins.
  generalize (MessageHandler.admin_phones (db w)). intros phones.
  revert w. induction phones as [| p phones IH]; intros w; [reflexivity |].
  cbn [fold_left]. rewrite IH. reflexivity.
Qed.

Lemma db_request_failed (w : World) (user : User) (m : SignalMessage) (e : exn) :
  db (MessageHandler.request_failed w user m e) = db w.
Proof.
  unfold MessageHandler.request_failed.
  rewrite db_send_error_to_admins, db_send_response. reflexivity.
Qed.

(** Reduce the database of a world the handler built. *)
Ltac simpl_db :=
  repeat first
    [ progress cbn [db called with_db sent]
    | rewrite db_request_failed
    | rewrite db_send_response
    | rewrite db_send_error_to_admins ].

(** A submit leaves the stored requests as they are and adds at most one,
    which ends approved or failed. *)
Lemma submit_spec (ovs : Overseerr) (now : Z) (user : User) (query : string)
    (m : SignalMessage) (w : World) :
  let w' := MessageHandler.process_media_request ovs now user query m w in
  media_requests (db w') = media_requests (db w) \/
  exists r,
    media_requests (db w') = media_requests (db w) ++ [r] /\
    r_id r = next_id (db w) /\
    (status r = APPROVED \/ status r = FAILED).
Proof.
  cbv zeta. unfold MessageHandler.process_media_request.
  destruct (negb _); [simpl_db; left; reflexivity |].
  destruct (search_media ovs query) as [| best_match others];
    [simpl_db; left; reflexivity |].
  destruct (OverseerrAPI.parse_media_info best_match) as [media_info | e];
    [| simpl_db; left; reflexivity].
  destruct (OverseerrAPI.is_media_available ovs _);
    [simpl_db; left; reflexivity |].
  simpl_db.
  destruct (create_request _ _ _ _ _ _ _ _ _) as [[d r0] | e] eqn:Hc;
    [| simpl_db; left; reflexivity].
  apply create_request_ok in Hc as (-> & Hid & _).
  destruct (String.eqb (mi_media_type media_info) "movie");
    [destruct (OverseerrAPI.request_movie ovs _) as [[[] oid] err]
    | destruct (OverseerrAPI.request_tv_show ovs _ _) as [[[] oid] err]];
    simpl_db.
  1, 3: change "approved" with (RequestStatus_value APPROVED);
        rewrite (update_new_request (db w) now r0 APPROVED oid None Hid);
        unfold MessageHandler.schedule_status_check; simpl_db;
        right; eexists; (split; [reflexivity |]);
        (split; [exact Hid | left; reflexivity]).
  all: change "failed" with (RequestStatus_value FAILED);
       rewrite (update_new_request (db w) now r0 FAILED None err Hid);
       simpl_db;
       right; eexists; (split; [reflexivity |]);
       (split; [exact Hid | right; reflexivity]).
Qed.

Lemma check_request_status_keys (ovs : Overseerr) (now : Z) (w : World) (id : Z) :
  map r_id (media_requests (db (check_request_status ovs now w id)))
  = map r_id (media_requests (db w)).
Proof.
  unfold check_request_status.
  destruct (get_request_by_id (db w) id) as [request |]; [| reflexivity].
  destruct (just_created _ _ _); [reflexivity |].
  destruct (truthy_int _); [| reflexivity].
  destruct (status_of_reply _); [| reflexivity].
  destruct (negb _); [| reflexivity].
  cbn [db called].
  destruct (update_request_status _ _ _ _ _ _) as [[d' res] |] eqn:Hupd; [| reflexivity].
  apply update_request_status_keys in Hupd.
  destruct (UserCRUD.get_user_by_id _ _) as [user |]; [| exact Hupd].
  destruct (auto_notifications user); exact Hupd.
Qed.

Lemma keyed_sweep (ovs : Overseerr) (now : Z) (w : World) :
  keyed (db w) -> keyed (db (check_request_statuses ovs now w)).
Proof.
  unfold keyed, check_request_statuses.
  generalize (map r_id (get_pending_requests (db w))). intros ids. revert w.
  induction ids as [| id ids IH]; intros w Hk; [exact Hk |].
  cbn [fold_left]. apply IH. rewrite check_request_status_keys. exact Hk.
Qed.

Lemma keyed_submit (ovs : Overseerr) (now : Z) (user : User) (query : string)
    (m : SignalMessage) (w : World) :
  keyed (db w) ->
  keyed (db (MessageHandler.process_media_request ovs now user query m w)).
Proof.
  unfold keyed. intros Hk.
  destruct (submit_spec ovs now user query m w) as [-> | (r & -> & Hid & _)];
    [exact Hk |].
  rewrite map_app. apply NoDup_app. split; [exact Hk |]. split.
  - intros x Hx [-> | Hin]%elem_of_cons; [| inversion Hin].
    apply list_elem_of_In, in_map_iff in Hx as (y & Hy & Hin).
    apply next_id_fresh in Hin. lia.
  - apply NoDup_singleton.
Qed.

Lemma find_app_found (l l' : list MediaRequest) (id : Z) (r : MediaRequest) :
  find (fun x => r_id x =? id) l = Some r ->
  find (fun x => r_id x =? id) (l ++ l') = Some r.
Proof.
  induction l as [| x l IH]; simpl; [discriminate |].
  destruct (r_id x =? id); auto.
Qed.

(** A request in a terminal status stays as it is through every sweep and
    every submit. *)
Lemma terminal_is_final (acts : list activity) :
  forall (w : World) (id : Z) (r : MediaRequest),
    keyed (db w) ->
    get_request_by_id (db w) id = Some r ->
    terminal (status r) = true ->
    get_request_by_id (db (run acts w)) id = Some r.
Proof.
  unfold run. induction acts as [| a acts IH]; intros w id r Hk Hget Hterm;
    [exact Hget |].
  cbn [fold_left]. destruct a as [ovs now | ovs now user query m]; cbn [act].
  - apply IH; [apply keyed_sweep; exact Hk | | exact Hterm].
    destruct (sweep_spec ovs now w id r Hk Hget) as (r' & Hr' & [-> | [Hnt _]] & _);
      [exact Hr' | congruence].
  - apply IH; [apply keyed_submit; exact Hk | | exact Hterm].
    unfold get_request_by_id in *.
    destruct (submit_spec ovs now user query m w) as [-> | (x & -> & _)];
      [exact Hget | apply find_app_found; exact Hget].
Qed.

(** C1, as amended.  Through every sequence of sweeps and submits a request
    in a terminal status stays as it is.  A request that a sweep changes is a
    non-terminal one with a correlation id, past the skip rule, and its new
    status is the one that the status code maps to which Overseerr reports
    for this correlation id, whether that is forward along the graph or not;
    and the sweep changes every non-terminal request for which that status
    differs from the stored one.  A submit adds one request, which it leaves
    approved or failed, and touches no other. *)
Theorem sweep_and_submit_transitions (w : World) (Hkeyed : keyed (db w)) :
  (forall acts id r,
     get_request_by_id (db w) id = Some r ->
     terminal (status r) = true ->
     get_request_by_id (db (run acts w)) id = Some r) /\
  (forall ovs now id r,
     get_request_by_id (db w) id = Some r ->
     exists r',
       get_request_by_id (db (check_request_statuses ovs now w)) id = Some r' /\
       (r' = r \/ (terminal (status r) = false /\ polled ovs (db w) now r r')) /\
       (forall r0,
          terminal (status r) = false -> polled ovs (db w) now r r0 -> r' = r0)) /\
  (forall ovs now user query m,
     let w' := MessageHandler.process_media_request ovs now user query m w in
     media_requests (db w') = media_requests (db w) \/
     exists r,
       media_requests (db w') = media_requests (db w) ++ [r] /\
       r_id r = next_id (db w) /\
       (status r = APPROVED \/ status r = FAILED)).
Proof.
  split; [| split].
  - intros acts id r Hget Hterm. apply terminal_is_final; assumption.
  - intros ovs now id r Hget. apply sweep_spec; assumption.
  - intros ovs now user query m. apply submit_spec.
Qed.

Lemma sweep_and_submit_transitions_witness :
  let w := Sample.world [Sample.matrix COMPLETED; Sample.dune APPROVED] in
  keyed (db w) /\
  (forall acts id r,
     get_request_by_id (db w) id = Some r ->
     terminal (status r) = true ->
     get_request_by_id (db (run acts w)) id = Some r) /\
  (forall ovs now id r,
     get_request_by_id (db w) id = Some r ->
     exists r',
       get_request_by_id (db (check_request_statuses ovs now w)) id = Some r' /\
       (r' = r \/ (terminal (status r) = false /\ polled ovs (db w) now r r')) /\
       (forall r0,
          terminal (status r) = false -> polled ovs (db w) now r r0 -> r' = r0)) /\
  (forall ovs now user query m,
     let w' := MessageHandler.process_media_request ovs now user query m w in
     media_requests (db w') = media_requests (db w) \/
     exists r,
       media_requests (db w') = media_requests (db w) ++ [r] /\
       r_id r = next_id (db w) /\
       (status r = APPROVED \/ status r = FAILED)).
Proof.
  intros w.
  assert (Hk : keyed (db w)).
  { unfold keyed. apply (bool_decide_unpack _). vm_compute. exact I. }
  split; [exact Hk |].
  exact (sweep_and_submit_transitions w Hk).
Defined.

(** Sweeps and submits around a completed and an approved request: the
    completed one is as before, the approved one has moved. *)
Example terminal_survives_run :
  let ovs := Sample.overseerr (Created (Some 9)) 4 in
  let w := Sample.world [Sample.matrix COMPLETED; Sample.dune APPROVED] in
  let w' := run [Sweep ovs 5000;
                 Submit ovs 5010 Sample.alice "Inception"
                   (Sample.text_from "+15550001" "Inception");
                 Sweep (Sample.overseerr (Created None) 5) 5040] w in
  map (fun r => (title r, status r)) (media_requests (db w'))
  = [("The Matrix", COMPLETED); ("Dune", COMPLETED); ("Inception", COMPLETED)].
Proof. vm_compute. reflexivity. Qed.

(** A run of the bot: Alice's request is submitted and approved, a sweep
    finds it downloading, and the next sweep, reading the code for approved,
    moves it back. *)
Example backward_run :
  map status (media_requests (db Sample.after_submit)) = [APPROVED] /\
  map status (media_requests (db Sample.after_first_sweep)) = [DOWNLOADING] /\
  map status
    (media_requests
       (db (check_request_statuses (Sample.overseerr (Created None) 2) 5060
              Sample.after_first_sweep)))
  = [APPROVED].
Proof. repeat split; vm_compute; reflexivity. Qed.

(** The one-shot check polls a request in any status: a completed request
    whose code reads processing goes back to downloading. *)
Example one_shot_moves_completed :
  map status
    (media_requests
       (db (check_single_request (Sample.overseerr (Created None) 4) 5000 1
              (Sample.world [Sample.matrix COMPLETED]))))
  = [DOWNLOADING].
Proof. vm_compute. reflexivity. Qed.

(** The lifecycle as the specification words it fails: the second sweep of
    the run above moves the request from downloading back to approved. *)
Lemma sweep_moves_backward : ~ polls_move_forward.
Proof.
  intros H.
  assert (Hk : keyed (db Sample.after_first_sweep)).
  { unfold keyed. apply (bool_decide_unpack _). vm_compute. exact I. }
  destruct (H (Sample.overseerr (Created None) 2) 5060 Sample.after_first_sweep Hk)
    as [Hsweep _].
  assert (Hbefore : exists r,
            get_request_by_id (db Sample.after_first_sweep) 1 = Some r /\
            status r = DOWNLOADING).
  { vm_compute. eauto. }
  assert (Hafter : exists r,
            get_request_by_id
              (db (check_request_statuses (Sample.overseerr (Created None) 2) 5060
                     Sample.after_first_sweep)) 1 = Some r /\
            status r = APPROVED).
  { vm_compute. eauto. }
  destruct Hbefore as (r & Hr & Hsr), Hafter as (r' & Hr' & Hsr').
  destruct (Hsweep 1 r r' Hr Hr') as [Heq | Hedge].
  - rewrite Hsr, Hsr' in Heq. discriminate.
  - rewrite Hsr, Hsr' in Hedge. discriminate.
Qed.

End Lifecycle.

(** ** Numerals in a request text *)

Section Numerals.

Import MessageHandler.

Lemma digit_is_no_space (a : ascii) : Text.is_digit a = true -> Text.is_space a = false.
Proof. destruct a as [[] [] [] [] [] [] [] []]; vm_compute; congruence. Qed.

Lemma lower_digit (a : ascii) : Text.is_digit a = true -> Text.lower_char a = a.
Proof. destruct a as [[] [] [] [] [] [] [] []]; vm_compute; congruence. Qed.

Lemma pretty_N_char_digit (x : N) :
  (x < 10)%N ->
  Text.is_digit (pretty_N_char x) = true /\
  Text.digit_val (pretty_N_char x) = Z.of_N x.
Proof.
  intros H.
  assert (x = 0 \/ x = 1 \/ x = 2 \/ x = 3 \/ x = 4 \/ x = 5 \/ x = 6 \/ x = 7
          \/ x = 8 \/ x = 9)%N as Hx by lia.
  repeat (destruct Hx as [-> | Hx]; [split; reflexivity |]).
  subst x. split; reflexivity.
Qed.

Lemma all_digits_snoc (d : string) (a : ascii) :
  Text.all_digits d = true -> Text.is_digit a = true ->
  Text.all_digits (d +:+ String a "") = true.
Proof.
  intros Hd Ha. induction d as [| b d IH]; simpl in *.
  - rewrite Ha. reflexivity.
  - apply andb_true_iff in Hd as [Hb Hd]. rewrite ?append_cons. simpl.
    rewrite Hb, IH by exact Hd. reflexivity.
Qed.

Lemma chars_snoc (d : string) (a : ascii) :
  list_ascii_of_string (d +:+ String a "") = list_ascii_of_string d ++ [a].
Proof.
  induction d as [| b d IH]; [reflexivity |].
  rewrite ?append_cons. simpl. rewrite IH. reflexivity.
Qed.

Lemma int_of_digits_snoc (d : string) (a : ascii) :
  Text.int_of_digits (d +:+ String a "")
  = 10 * Text.int_of_digits d + Text.digit_val a.
Proof.
  unfold Text.int_of_digits. rewrite chars_snoc, fold_left_app. reflexivity.
Qed.

(** The digits [pretty_N_go] puts before [s] are decimal digits and read
    back as the number. *)
Lemma pretty_N_go_digits (x : N) :
  forall s, exists d,
    pretty_N_go x s = d +:+ s /\
    Text.all_digits d = true /\
    Text.int_of_digits d = Z.of_N x /\
    ((0 < x)%N -> d <> "").
Proof.
  induction (N.lt_wf_0 x) as [x _ IH]. intros s.
  destruct (N.eq_dec x 0%N) as [-> | Hx].
  - exists "". rewrite pretty_N_go_0. repeat split. lia.
  - rewrite pretty_N_go_step by lia.
    destruct (IH (x `div` 10)%N ltac:(apply N.div_lt; lia)
                (String (pretty_N_char (x `mod` 10)) s))
      as (d & Hgo & Hall & Hval & _).
    destruct (pretty_N_char_digit (x `mod` 10)%N) as [Hdig Hdv];
      [apply N.mod_lt; lia |].
    exists (d +:+ String (pretty_N_char (x `mod` 10)) "").
    rewrite Hgo, append_snoc. split; [reflexivity |].
    split; [apply all_digits_snoc; assumption |].
    split.
    + rewrite int_of_digits_snoc, Hval, Hdv.
      pose proof (N.div_mod x 10%N ltac:(lia)). lia.
    + intros _. destruct d; discriminate.
Qed.

(** A printed natural number is a non-empty string of digits that reads
    back as the number. *)
Lemma pretty_N_digits (n : N) :
  exists a d,
    pretty n = String a d /\
    Text.all_digits (String a d) = true /\
    Text.int_of_digits (String a d) = Z.of_N n.
Proof.
  unfold pretty, pretty_N. case_decide as Hn.
  - subst n. exists "0"%char, "". repeat split.
  - destruct (pretty_N_go_digits n "") as (d & Hgo & Hall & Hval & Hne).
    rewrite append_nil_r in Hgo. rewrite Hgo.
    destruct d as [| a d]; [destruct Hne; [lia | reflexivity] |].
    exists a, d. repeat split; assumption.
Qed.

Lemma span_digits_app (d rest : string) :
  Text.all_digits d = true ->
  Text.span_digits rest = ("", rest) ->
  Text.span_digits (d +:+ rest) = (d, rest).
Proof.
  intros Hd Hrest. induction d as [| a d IH]; [exact Hrest |].
  simpl in Hd. apply andb_true_iff in Hd as [Ha Hd].
  rewrite ?append_cons. simpl. rewrite Ha, IH by exact Hd. reflexivity.
Qed.

Lemma lower_app (s t : string) :
  Text.lower (s +:+ t) = Text.lower s +:+ Text.lower t.
Proof.
  induction s as [| a s IH]; [reflexivity |].
  rewrite ?append_cons. simpl. rewrite IH. reflexivity.
Qed.

Lemma lower_digits (d : string) : Text.all_digits d = true -> Text.lower d = d.
Proof.
  induction d as [| a d IH]; [reflexivity |]. simpl.
  intros H. apply andb_true_iff in H as [Ha Hd].
  rewrite lower_digit, IH by assumption. reflexivity.
Qed.

Lemma lstrip_digit (a : ascii) (d : string) :
  Text.is_digit a = true -> Text.lstrip (String a d) = String a d.
Proof. intros Ha. simpl. rewrite (digit_is_no_space a Ha). reflexivity. Qed.

Lemma skip_space_digit (a : ascii) (d : string) :
  Text.is_digit a = true ->
  Text.skip_spaces (" " +:+ String a d) = String a d.
Proof. intros Ha. exact (lstrip_digit a d Ha). Qed.

Lemma second_group_dash (a : ascii) (d : string) :
  Text.all_digits (String a d) = true ->
  second_group ("-" +:+ String a d) = Some (String a d).
Proof.
  intros H.
  assert (Ha : Text.is_digit a = true) by (simpl in H; apply andb_true_iff in H; tauto).
  unfold second_group.
  change (strip_dash (Text.skip_spaces ("-" +:+ String a d))) with (Some (String a d)).
  cbv iota beta. unfold Text.skip_spaces. rewrite (lstrip_digit a d Ha).
  rewrite <- (append_nil_r (String a d)) at 1.
  rewrite (span_digits_app (String a d) "" H eq_refl). reflexivity.
Qed.

(** The pattern matches "season N-M" and "seasons N-M" with the two
    numerals as its groups, and "season N" with the one. *)
Lemma season_match_at_range (plural : bool) (a1 a2 : ascii) (d1 d2 : string) :
  Text.all_digits (String a1 d1) = true ->
  Text.all_digits (String a2 d2) = true ->
  season_match_at
    ((if plural then "seasons " else "season ") +:+ String a1 d1 +:+ "-" +:+ String a2 d2)
  = Some (String a1 d1, Some (String a2 d2)).
Proof.
  intros H1 H2.
  assert (Ha1 : Text.is_digit a1 = true) by (simpl in H1; apply andb_true_iff in H1; tauto).
  unfold season_match_at.
  assert (Hskip : Text.skip_spaces
                    (skip_optional "s"
                       ((if plural then "s " else " ")
                        +:+ String a1 d1 +:+ "-" +:+ String a2 d2))
                  = String a1 d1 +:+ "-" +:+ String a2 d2).
  { destruct plural; exact (skip_space_digit a1 _ Ha1). }
  destruct plural;
    [change (strip_prefix "season" ("seasons " +:+ ?x)) with (Some ("s " +:+ x))
    |change (strip_prefix "season" ("season " +:+ ?x)) with (Some (" " +:+ x))];
    cbv iota beta; rewrite Hskip;
    rewrite (span_digits_app (String a1 d1) ("-" +:+ String a2 d2) H1 eq_refl);
    rewrite (second_group_dash a2 d2 H2); reflexivity.
Qed.

Lemma season_match_at_single (plural : bool) (a1 : ascii) (d1 : string) :
  Text.all_digits (String a1 d1) = true ->
  season_match_at ((if plural then "seasons " else "season ") +:+ String a1 d1)
  = Some (String a1 d1, None).
Proof.
  intros H1.
  assert (Ha1 : Text.is_digit a1 = true) by (simpl in H1; apply andb_true_iff in H1; tauto).
  unfold season_match_at.
  assert (Hskip : Text.skip_spaces
                    (skip_optional "s" ((if plural then "s " else " ") +:+ String a1 d1))
                  = String a1 d1 +:+ "").
  { rewrite append_nil_r. destruct plural; exact (skip_space_digit a1 _ Ha1). }
  destruct plural;
    [change (strip_prefix "season" ("seasons " +:+ ?x)) with (Some ("s " +:+ x))
    |change (strip_prefix "season" ("season " +:+ ?x)) with (Some (" " +:+ x))];
    cbv iota beta; rewrite Hskip;
    rewrite (span_digits_app (String a1 d1) "" H1 eq_refl); reflexivity.
Qed.

(** No match of the pattern begins inside a text that has no "sea", when
    an "s" follows it. *)
Lemma season_match_at_clear (a : ascii) (pre s : string) :
  Text.startswith (String a pre) "sea" = false ->
  season_match_at (String a pre +:+ String "s" s) = None.
Proof.
  intros Hsea. unfold season_match_at.
  replace (strip_prefix "season" (String a pre +:+ String "s" s)) with (@None string);
    [reflexivity |].
  rewrite append_cons. cbn [strip_prefix].
  destruct (Ascii.eqb_spec "s" a) as [<- | _]; [| reflexivity].
  destruct pre as [| b pre]; [reflexivity |].
  rewrite append_cons. cbn [strip_prefix].
  destruct (Ascii.eqb_spec "e" b) as [<- | _]; [| reflexivity].
  destruct pre as [| c pre]; [reflexivity |].
  rewrite append_cons. cbn [strip_prefix].
  destruct (Ascii.eqb_spec "a" c) as [<- | _]; [| reflexivity].
  destruct pre; discriminate Hsea.
Qed.

Lemma season_search_skip (pre s : string) :
  Text.contains "sea" pre = false ->
  season_search (pre +:+ String "s" s) = season_search (String "s" s).
Proof.
  induction pre as [| a pre IH]; [reflexivity |].
  cbn [Text.contains]. intros H. apply orb_false_iff in H as [Hhere Hrest].
  pose proof (season_match_at_clear a pre s Hhere) as Hnone.
  rewrite append_cons in *. cbn [season_search]. rewrite Hnone.
  apply IH. exact Hrest.
Qed.

(** A text with "seasons N-M" or "season N" after a part that has no "sea"
    mentions the seasons N to M, or N alone. *)
Lemma season_mention_found (pre : string) (n m : N) :
  Text.contains "sea" (Text.lower pre) = false ->
  season_mention (pre +:+ "seasons " +:+ pretty n +:+ "-" +:+ pretty m)
  = Some (Z.of_N n, Z.of_N m) /\
  season_mention (pre +:+ "season " +:+ pretty n) = Some (Z.of_N n, Z.of_N n).
Proof.
  intros Hpre.
  destruct (pretty_N_digits n) as (a1 & d1 & -> & H1 & Hn).
  destruct (pretty_N_digits m) as (a2 & d2 & -> & H2 & Hm).
  unfold season_mention. split.
  - rewrite !lower_app, (lower_digits _ H1), (lower_digits _ H2).
    change (Text.lower "seasons ") with "seasons ".
    change (Text.lower "-") with "-".
    change ("seasons " +:+ ?x) with (String "s" ("easons " +:+ x)).
    rewrite (season_search_skip _ _ Hpre). cbn [season_search].
    change (String "s" ("easons " +:+ ?x)) with ("seasons " +:+ x).
    rewrite (season_match_at_range true a1 a2 d1 d2 H1 H2).
    rewrite Hn, Hm. reflexivity.
  - rewrite !lower_app, (lower_digits _ H1).
    change (Text.lower "season ") with "season ".
    change ("season " +:+ ?x) with (String "s" ("eason " +:+ x)).
    rewrite (season_search_skip _ _ Hpre). cbn [season_search].
    change (String "s" ("eason " +:+ ?x)) with ("season " +:+ x).
    rewrite (season_match_at_single false a1 d1 H1).
    rewrite Hn. reflexivity.
Qed.

Lemma determine_of_mention (media_info : MediaInfo) (query : string) (n m : Z) :
  season_mention query = Some (n, m) ->
  determine_seasons_to_request media_info query = Some (Text.range n (m + 1)).
Proof.
  unfold season_mention, determine_seasons_to_request.
  destruct (season_search (Text.lower query)) as [[g1 g2] |]; [| discriminate].
  intros [= <- <-]. reflexivity.
Qed.

(** So every such text yields the list of the seasons N to M. *)
Corollary explicit_mention_yields_range (media_info : MediaInfo) (pre : string)
    (n m : N) :
  Text.contains "sea" (Text.lower pre) = false ->
  determine_seasons_to_request media_info
    (pre +:+ "seasons " +:+ pretty n +:+ "-" +:+ pretty m)
  = Some (Text.range (Z.of_N n) (Z.of_N m + 1)) /\
  determine_seasons_to_request media_info (pre +:+ "season " +:+ pretty n)
  = Some [Z.of_N n].
Proof.
  intros Hpre. destruct (season_mention_found pre n m Hpre) as [Hrange Hone].
  rewrite (determine_of_mention _ _ _ _ Hrange), (determine_of_mention _ _ _ _ Hone).
  split; [reflexivity |].
  unfold Text.range. replace (Z.of_N n + 1 - Z.of_N n) with 1 by lia.
  simpl. repeat f_equal. lia.
Qed.

Example request_show_seasons :
  determine_seasons_to_request (tv_show 9)
    ("request Show " +:+ "seasons " +:+ pretty 3%N +:+ "-" +:+ pretty 11%N)
  = Some [3; 4; 5; 6; 7; 8; 9; 10; 11].
Proof. reflexivity. Qed.

End Numerals.

(** * Further properties of the code *)

(** ** Rows of the requests table *)

Section RequestRows.

Import MediaRequestCRUD.

Lemma find_app_new (l : list MediaRequest) (r : MediaRequest) (id : Z) :
  (forall x, In x l -> r_id x <> r_id r) ->
  id <> r_id r ->
  find (fun x => r_id x =? id) (l ++ [r]) = find (fun x => r_id x =? id) l.
Proof.
  intros _ Hne. induction l as [| x l IH]; simpl.
  - replace (r_id r =? id) with false by (symmetry; apply Z.eqb_neq; lia).
    reflexivity.
  - destruct (r_id x =? id); [reflexivity | exact IH].
Qed.

Lemma find_fresh_none (l : list MediaRequest) (id : Z) :
  (forall x, In x l -> r_id x <> id) ->
  find (fun x => r_id x =? id) l = None.
Proof.
  intros H. induction l as [| x l IH]; simpl; [reflexivity |].
  replace (r_id x =? id) with false
    by (symmetry; apply Z.eqb_neq, H; left; reflexivity).
  apply IH. intros y Hy. apply H. right. exact Hy.
Qed.

(** X1.  A request that [create_request] stores can be read back under its
    new key: it is pending, without correlation id, completed stamp or error
    detail, and with the season list only if that is not empty.  The key was
    free before, every row that was stored is read back as it was, and the
    keys of the table stay distinct. *)
Theorem create_request_reads_back
    (d d' : Database) (now uid : Z) (mtype : string) (mid : Z)
    (ttl : option string) (yr : option Z) (four_k : bool)
    (seasons : option (list Z)) (r : MediaRequest)
    (Hcreate : create_request d now uid mtype mid ttl yr four_k seasons = Ok (d', r)) :
  get_request_by_id d' (r_id r) = Some r /\
  get_request_by_id d (r_id r) = None /\
  (forall id r0, get_request_by_id d id = Some r0 -> get_request_by_id d' id = Some r0) /\
  (keyed d -> keyed d') /\
  status r = PENDING /\
  overseerr_request_id r = None /\ completed_at r = None /\ error_message r = None /\
  user_id r = uid /\ media_id r = mid /\ created_at r = now /\
  Some (title r) = ttl /\ MediaType_of mtype = Some (media_type r) /\
  seasons_requested r = (if truthy_list seasons then seasons else None) /\
  users d' = users d /\ settings d' = settings d.
Proof.
  assert (Hfields :
    status r = PENDING /\
    overseerr_request_id r = None /\ completed_at r = None /\ error_message r = None /\
    user_id r = uid /\ media_id r = mid /\ created_at r = now /\
    Some (title r) = ttl /\ MediaType_of mtype = Some (media_type r) /\
    seasons_requested r = (if truthy_list seasons then seasons else None)).
  { revert Hcreate. unfold create_request.
    destruct (MediaType_of mtype); [| discriminate].
    destruct ttl; [| discriminate]. intros [= <- <-]. cbn.
    unfold set_seasons_requested. destruct (truthy_list seasons); repeat split. }
  destruct (create_request_ok _ _ _ _ _ _ _ _ _ _ _ Hcreate) as (-> & Hid & _).
  assert (Hfresh : forall x, In x (media_requests d) -> r_id x <> r_id r).
  { intros x Hx. apply next_id_fresh in Hx. lia. }
  unfold get_request_by_id. cbn [media_requests with_media_requests].
  split; [apply find_app_fresh; exact Hfresh |].
  split; [apply find_fresh_none; exact Hfresh |].
  split; [intros id r0 H0; apply find_app_found; exact H0 |].
  split.
  - unfold keyed. cbn [media_requests with_media_requests]. intros Hk.
    rewrite map_app. apply NoDup_app. split; [exact Hk |]. split.
    + intros x Hx [-> | Hin]%elem_of_cons; [| inversion Hin].
      apply list_elem_of_In, in_map_iff in Hx as (y & Hy & Hin).
      apply (Hfresh y Hin Hy).
    + apply NoDup_singleton.
  - repeat split; apply Hfields.
Qed.

Lemma create_request_reads_back_witness :
  let d := Sample.database [Sample.matrix APPROVED] in
  exists d' r,
    create_request d 5000 2 "tv" 1396 (Some "Breaking Bad") (Some 2008) false (Some [])
    = Ok (d', r) /\
    get_request_by_id d' (r_id r) = Some r /\
    get_request_by_id d (r_id r) = None /\
    (forall id r0, get_request_by_id d id = Some r0 -> get_request_by_id d' id = Some r0) /\
    (keyed d -> keyed d') /\
    status r = PENDING /\
    overseerr_request_id r = None /\ completed_at r = None /\ error_message r = None /\
    user_id r = 2 /\ media_id r = 1396 /\ created_at r = 5000 /\
    Some (title r) = Some "Breaking Bad" /\ MediaType_of "tv" = Some (media_type r) /\
    seasons_requested r = None /\
    users d' = users d /\ settings d' = settings d.
Proof.
  intros d. eexists. eexists. split; [reflexivity |].
  exact (create_request_reads_back d _ 5000 2 "tv" 1396 (Some "Breaking Bad")
           (Some 2008) false (Some []) _ eq_refl).
Defined.

(** X2.  A status update for a key that is not in the table returns no row
    and leaves the database as it is; one with a status text outside the
    enumeration raises, and only for a key that is in the table.  An update
    that goes through changes no user, setting or log entry, no key of the
    table and no row under another key. *)
Theorem update_request_status_frame
    (d : Database) (now id : Z) (status_text : string) (oid : option Z)
    (err : option string) :
  match update_request_status d now id status_text oid err with
  | Ok (d', res) =>
      (get_request_by_id d id = None -> res = None /\ d' = d) /\
      (forall r, get_request_by_id d id = Some r ->
         exists st, RequestStatus_of status_text = Some st /\
                    res = Some (apply_update r now st status_text oid err) /\
                    get_request_by_id d' id = res) /\
      (forall id', id' <> id -> get_request_by_id d' id' = get_request_by_id d id') /\
      map r_id (media_requests d') = map r_id (media_requests d) /\
      users d' = users d /\ settings d' = settings d /\ log_entries d' = log_entries d
  | Raise _ =>
      is_Some (get_request_by_id d id) /\ RequestStatus_of status_text = None
  end.
Proof.
  destruct (update_request_status d now id status_text oid err) as [[d' res] | e] eqn:Hupd.
  - pose proof (update_request_status_keys _ _ _ _ _ _ _ _ Hupd) as Hkeys.
    revert Hupd. unfold update_request_status.
    destruct (get_request_by_id d id) as [r |] eqn:Hget.
    + destruct (RequestStatus_of status_text) as [st |] eqn:Hst; [| discriminate].
      intros [= <- <-]. destruct (find_some_id _ _ _ Hget) as [Hid _].
      split; [discriminate |]. split.
      { intros r0 [= <-]. exists st. split; [reflexivity |]. split; [reflexivity |].
        unfold get_request_by_id in *. cbn [media_requests with_media_requests].
        eapply find_replace_same; eauto. }
      split.
      { intros id' Hne. unfold get_request_by_id. cbn [media_requests with_media_requests].
        apply find_replace_other; auto. }
      split; [exact Hkeys |]. repeat split.
    + intros [= <- <-]. split; [auto |]. split; [discriminate |].
      repeat split.
  - revert Hupd. unfold update_request_status.
    destruct (get_request_by_id d id) as [r |]; [| discriminate].
    destruct (RequestStatus_of status_text); [discriminate |].
    intros _. split; [eauto | reflexivity].
Qed.

End RequestRows.

(** ** What no operation on a request undoes *)

Section Monotone.

Import MediaRequestCRUD.

Lemma later_state_refl (r : MediaRequest) : later_state r r.
Proof. repeat split; auto. Qed.

Lemma later_state_update (r : MediaRequest) (now : Z) (st : RequestStatus)
    (status_text : string) (oid : option Z) (err : option string) :
  later_state r (apply_update r now st status_text oid err).
Proof.
  repeat split; cbn; intros H.
  - destruct (truthy_int oid) eqn:E; [| exact H].
    destruct oid; [eauto | discriminate].
  - destruct (String.eqb status_text "completed"); [eauto | exact H].
  - destruct (truthy_str err) eqn:E; [| exact H].
    destruct err; [eauto | discriminate].
Qed.

Lemma later_state_trans (r1 r2 r3 : MediaRequest) :
  later_state r1 r2 -> later_state r2 r3 -> later_state r1 r3.
Proof.
  unfold later_state. intros H1 H2.
  destruct H1 as (?&?&?&?&?&?&?&?&?&?&?), H2 as (?&?&?&?&?&?&?&?&?&?&?).
  repeat split; try congruence; auto.
Qed.

Lemma run_op_later (d : Database) (o : op) (id : Z) (r : MediaRequest) :
  get_request_by_id d id = Some r ->
  exists r', get_request_by_id (run_op d o) id = Some r' /\ later_state r r'.
Proof.
  intros Hget. destruct o as [now uid mtype mid ttl yr k seasons | now rid st oid err];
    cbn [run_op].
  - destruct (create_request _ _ _ _ _ _ _ _ _) as [[d' r0] | e] eqn:Hc;
      [| exists r; split; [exact Hget | apply later_state_refl]].
    exists r. split; [| apply later_state_refl].
    apply create_request_ok in Hc as (-> & _).
    unfold get_request_by_id in *. cbn [media_requests with_media_requests].
    apply find_app_found. exact Hget.
  - unfold update_request_status.
    destruct (get_request_by_id d rid) as [r0 |] eqn:Hrid;
      [| exists r; split; [exact Hget | apply later_state_refl]].
    destruct (RequestStatus_of st) as [s |];
      [| exists r; split; [exact Hget | apply later_state_refl]].
    destruct (find_some_id _ _ _ Hrid) as [Hid _].
    unfold get_request_by_id in *. cbn [media_requests with_media_requests].
    destruct (Z.eq_dec id rid) as [-> | Hne].
    + rewrite Hget in Hrid. injection Hrid as <-.
      eexists. split; [eapply find_replace_same; eauto | apply later_state_update].
    + exists r. rewrite find_replace_other by auto.
      split; [exact Hget | apply later_state_refl].
Qed.

(** X3.  No sequence of create and status-update operations removes a
    request or changes its key, owner, media, title, year, season list or
    creation time; and a correlation id, a completed stamp or an error detail
    that a request has is never taken away again. *)
Theorem request_never_loses (ops : list op) (d : Database) (id : Z) (r : MediaRequest)
    (Hget : get_request_by_id d id = Some r) :
  exists r',
    get_request_by_id (run_ops ops d) id = Some r' /\
    r_id r' = r_id r /\ user_id r' = user_id r /\ media_type r' = media_type r /\
    media_id r' = media_id r /\ title r' = title r /\ year r' = year r /\
    seasons_requested r' = seasons_requested r /\ created_at r' = created_at r /\
    (is_Some (overseerr_request_id r) -> is_Some (overseerr_request_id r')) /\
    (is_Some (completed_at r) -> is_Some (completed_at r')) /\
    (is_Some (error_message r) -> is_Some (error_message r')).
Proof.
  change (exists r', get_request_by_id (run_ops ops d) id = Some r' /\ later_state r r').
  revert d r Hget. unfold run_ops.
  induction ops as [| o ops IH]; intros d r Hget; cbn [fold_left].
  - exists r. split; [exact Hget | apply later_state_refl].
  - destruct (run_op_later d o id r Hget) as (r1 & H1 & L1).
    destruct (IH _ _ H1) as (r2 & H2 & L2).
    exists r2. split; [exact H2 | eapply later_state_trans; eauto].
Qed.

Lemma request_never_loses_witness :
  exists r',
    get_request_by_id
      (run_ops [OpUpdate 2000 1 "completed" None None;
                OpUpdate 2100 1 "pending" (Some 0) (Some "")]
         (Sample.database [Sample.matrix APPROVED])) 1 = Some r' /\
    r_id r' = 1 /\ user_id r' = 1 /\ media_type r' = MOVIE /\
    media_id r' = 603 /\ title r' = "The Matrix" /\ year r' = Some 1999 /\
    seasons_requested r' = None /\ created_at r' = 1000 /\
    (is_Some (Some 7) -> is_Some (overseerr_request_id r')) /\
    (is_Some (@None Z) -> is_Some (completed_at r')) /\
    (is_Some (@None string) -> is_Some (error_message r')).
Proof.
  exact (request_never_loses
           [OpUpdate 2000 1 "completed" None None;
            OpUpdate 2100 1 "pending" (Some 0) (Some "")]
           (Sample.database [Sample.matrix APPROVED]) 1 (Sample.matrix APPROVED)
           eq_refl).
Defined.

End Monotone.

(** ** Results of a submission *)

(** Reduce the database of a world the handler built. *)
Ltac db_simpl :=
  repeat first
    [ progress cbn [db called with_db sent]
    | rewrite db_request_failed
    | rewrite db_send_response
    | rewrite db_send_error_to_admins ].

Section Submission.

Import MessageHandler MediaRequestCRUD SignalerrBot.

(** X4.  [request_movie] and [request_tv_show] return either success, with
    the id Overseerr gave and no error, or failure, with no id and an error
    text that is not empty; success is returned exactly when Overseerr
    answered the request without an exception. *)
Theorem submission_result_shape (ovs : Overseerr) (mid : Z) (seasons : option (list Z)) :
  (let '(success, request_id, error) := OverseerrAPI.request_movie ovs mid in
   if success
   then error = None /\ post_movie ovs mid = Created request_id
   else request_id = None /\ truthy_str error = true /\
        forall id, post_movie ovs mid <> Created id) /\
  (let '(success, request_id, error) := OverseerrAPI.request_tv_show ovs mid seasons in
   if success
   then error = None /\
        post_tv ovs mid (if truthy_list seasons then seasons else None)
        = Created request_id
   else request_id = None /\ truthy_str error = true /\
        forall id, post_tv ovs mid (if truthy_list seasons then seasons else None)
                   <> Created id).
Proof.
  unfold OverseerrAPI.request_movie, OverseerrAPI.request_tv_show. split.
  - destruct (post_movie ovs mid) as [id | code text | text].
    + split; reflexivity.
    + destruct (code =? 409); repeat split; discriminate.
    + repeat split; discriminate.
  - destruct (post_tv ovs mid _) as [id | code text | text].
    + split; reflexivity.
    + destruct (code =? 409); repeat split; discriminate.
    + repeat split; discriminate.
Qed.

Lemma request_movie_failure (ovs : Overseerr) (mid : Z) (oid : option Z)
    (err : option string) :
  OverseerrAPI.request_movie ovs mid = (false, oid, err) -> truthy_str err = true.
Proof.
  unfold OverseerrAPI.request_movie.
  destruct (post_movie ovs _) as [id | code text | text]; [discriminate | |].
  - destruct (code =? 409); intros [= <- <-]; reflexivity.
  - intros [= <- <-]. reflexivity.
Qed.

Lemma request_tv_show_failure (ovs : Overseerr) (mid : Z) (seasons : option (list Z))
    (oid : option Z) (err : option string) :
  OverseerrAPI.request_tv_show ovs mid seasons = (false, oid, err) ->
  truthy_str err = true.
Proof.
  unfold OverseerrAPI.request_tv_show.
  destruct (post_tv ovs _ _) as [id | code text | text]; [discriminate | |].
  - destruct (code =? 409); intros [= <- <-]; reflexivity.
  - intros [= <- <-]. reflexivity.
Qed.

Lemma create_request_blank (d d' : Database) (now uid : Z) (mtype : string) (mid : Z)
    (ttl : option string) (yr : option Z) (k : bool) (seasons : option (list Z))
    (r0 : MediaRequest) :
  create_request d now uid mtype mid ttl yr k seasons = Ok (d', r0) ->
  overseerr_request_id r0 = None /\ completed_at r0 = None /\ error_message r0 = None.
Proof.
  unfold create_request. destruct (MediaType_of mtype); [| discriminate].
  destruct ttl; [| discriminate]. intros [= <- <-]. repeat split.
Qed.

Lemma approved_row_fields (r0 : MediaRequest) (now : Z) (oid : option Z) :
  completed_at r0 = None -> error_message r0 = None ->
  fields_of_bot (apply_update r0 now APPROVED "approved" oid None).
Proof.
  intros Hd He. unfold fields_of_bot. cbn. rewrite Hd, He.
  repeat split; try discriminate; intros H; inversion H; discriminate.
Qed.

Lemma failed_row_fields (r0 : MediaRequest) (now : Z) (err : option string) :
  overseerr_request_id r0 = None -> completed_at r0 = None ->
  truthy_str err = true ->
  fields_of_bot (apply_update r0 now FAILED "failed" None err).
Proof.
  intros Ho Hd He. unfold fields_of_bot. cbn. rewrite Ho, Hd, He.
  destruct err as [e |]; [| discriminate].
  repeat split; try discriminate; eauto. intros H; inversion H; discriminate.
Qed.

(** The row a submit adds has its fields in agreement with its status. *)
Lemma submit_fields (ovs : Overseerr) (now : Z) (user : User) (query : string)
    (m : SignalMessage) (w : World) :
  let w' := process_media_request ovs now user query m w in
  media_requests (db w') = media_requests (db w) \/
  exists r,
    media_requests (db w') = media_requests (db w) ++ [r] /\
    r_id r = next_id (db w) /\
    fields_of_bot r.
Proof.
  cbv zeta. unfold process_media_request.
  destruct (negb _); [db_simpl; left; reflexivity |].
  destruct (search_media ovs query) as [| best_match others];
    [db_simpl; left; reflexivity |].
  destruct (OverseerrAPI.parse_media_info best_match) as [media_info | e];
    [| db_simpl; left; reflexivity].
  destruct (OverseerrAPI.is_media_available ovs _);
    [db_simpl; left; reflexivity |].
  db_simpl.
  destruct (create_request _ _ _ _ _ _ _ _ _) as [[d r0] | e] eqn:Hc;
    [| db_simpl; left; reflexivity].
  destruct (create_request_blank _ _ _ _ _ _ _ _ _ _ _ Hc) as (Ho & Hd & He).
  apply create_request_ok in Hc as (-> & Hid & _).
  destruct (String.eqb (mi_media_type media_info) "movie");
    [destruct (OverseerrAPI.request_movie ovs _) as [[[] oid] err] eqn:Hsub;
       [| apply request_movie_failure in Hsub]
    | destruct (OverseerrAPI.request_tv_show ovs _ _) as [[[] oid] err] eqn:Hsub;
       [| apply request_tv_show_failure in Hsub]];
    db_simpl.
  1, 3: change "approved" with (RequestStatus_value APPROVED);
        rewrite (update_new_request (db w) now r0 APPROVED oid None Hid);
        unfold schedule_status_check; db_simpl;
        right; eexists; (split; [reflexivity |]);
        (split; [exact Hid | apply approved_row_fields; assumption]).
  all: change "failed" with (RequestStatus_value FAILED);
       rewrite (update_new_request (db w) now r0 FAILED None err Hid);
       db_simpl;
       right; eexists; (split; [reflexivity |]);
       (split; [exact Hid | apply failed_row_fields; assumption]).
Qed.

Lemma get_of_in (d : Database) (r : MediaRequest) :
  keyed d -> In r (media_requests d) -> get_request_by_id d (r_id r) = Some r.
Proof.
  intros Hk Hin. unfold get_request_by_id.
  destruct (find _ _) as [x |] eqn:Hf.
  - destruct (find_some_id _ _ _ Hf) as [Hid Hx].
    f_equal. eapply NoDup_map_In_inj; eauto.
  - apply (find_none _ _ Hf) in Hin. rewrite Z.eqb_refl in Hin. discriminate.
Qed.

Lemma sweep_keys (ovs : Overseerr) (now : Z) (w : World) :
  map r_id (media_requests (db (check_request_statuses ovs now w)))
  = map r_id (media_requests (db w)).
Proof.
  unfold check_request_statuses.
  generalize (map r_id (get_pending_requests (db w))). intros ids. revert w.
  induction ids as [| id ids IH]; intros w; [reflexivity |].
  cbn [fold_left]. rewrite IH. apply check_request_status_keys.
Qed.

Lemma polled_fields (ovs : Overseerr) (d : Database) (now : Z) (r r' : MediaRequest) :
  fields_of_bot r -> terminal (status r) = false -> polled ovs d now r r' ->
  fields_of_bot r'.
Proof.
  intros (Hdone & Herr & _) Hnt (_ & _ & code & st & _ & Hmap & _ & ->).
  destruct (map_overseerr_status_enum code) as (st' & Hst' & Hnf).
  rewrite Hmap in Hst'. apply value_inj in Hst'. subst st'.
  assert (Hd : completed_at r = None).
  { destruct (completed_at r); [| reflexivity].
    destruct Hdone as [Hdone _]. rewrite Hdone in Hnt by eauto. discriminate. }
  assert (He : error_message r = None).
  { destruct (error_message r); [| reflexivity].
    destruct Herr as [Herr _]. rewrite Herr in Hnt by eauto. discriminate. }
  unfold fields_of_bot. cbn. rewrite Hd, He.
  destruct st; cbn; repeat split; try discriminate; try congruence; eauto;
    intros H; inversion H; discriminate.
Qed.

Lemma sweep_fields (ovs : Overseerr) (now : Z) (w : World) :
  keyed (db w) ->
  (forall r, In r (media_requests (db w)) -> fields_of_bot r) ->
  forall r', In r' (media_requests (db (check_request_statuses ovs now w))) ->
             fields_of_bot r'.
Proof.
  intros Hk Hinv r' Hin'.
  assert (Hid : In (r_id r') (map r_id (media_requests (db w)))).
  { rewrite <- (sweep_keys ovs now w). apply in_map. exact Hin'. }
  apply in_map_iff in Hid as (r & Hid & Hin).
  pose proof (get_of_in _ _ Hk Hin) as Hget.
  pose proof (get_of_in _ _ (keyed_sweep ovs now w Hk) Hin') as Hget'.
  destruct (sweep_spec ovs now w (r_id r) r Hk Hget) as (r'' & Hr'' & Hcase & _).
  rewrite Hid, Hget' in Hr''. injection Hr'' as <-.
  destruct Hcase as [-> | [Hnt Hp]]; [apply Hinv; exact Hin |].
  eapply polled_fields; eauto.
Qed.

(** X5.  Through every sequence of sweeps and submits of the bot, starting
    from a table that has the property (an empty one has), every request has
    its completed stamp exactly when its status is completed and an error
    detail exactly when its status is failed, and no failed request has a
    correlation id; so a declined request never has an error detail. *)
Theorem bot_keeps_fields (acts : list activity) (w : World)
    (Hkeyed : keyed (db w))
    (Hfields : forall r, In r (media_requests (db w)) -> fields_of_bot r) :
  forall r, In r (media_requests (db (run acts w))) ->
    (is_Some (completed_at r) <-> status r = COMPLETED) /\
    (is_Some (error_message r) <-> status r = FAILED) /\
    (status r = FAILED -> overseerr_request_id r = None).
Proof.
  change (forall r, In r (media_requests (db (run acts w))) -> fields_of_bot r).
  revert w Hkeyed Hfields. unfold run.
  induction acts as [| a acts IH]; intros w Hk Hinv; [exact Hinv |].
  cbn [fold_left]. destruct a as [ovs now | ovs now user query m]; cbn [act].
  - apply IH; [apply keyed_sweep; exact Hk | apply sweep_fields; assumption].
  - apply IH; [apply keyed_submit; exact Hk |].
    destruct (submit_fields ovs now user query m w) as [-> | (x & -> & _ & Hx)];
      [exact Hinv |].
    intros r [Hin | [<- | []]]%in_app_or; [apply Hinv; exact Hin | exact Hx].
Qed.

Lemma bot_keeps_fields_witness :
  let ovs := Sample.overseerr (HTTPError 409 "409 Client Error: Conflict") 3 in
  let acts := [Submit (Sample.overseerr (Created (Some 9)) 3) 5000 Sample.alice
                 "Inception" (Sample.text_from "+15550001" "Inception");
               Submit ovs 5010 Sample.alice "Inception"
                 (Sample.text_from "+15550001" "Inception");
               Sweep ovs 5040] in
  keyed (db (Sample.world [])) /\
  (forall r, In r (media_requests (db (Sample.world []))) -> fields_of_bot r) /\
  map status (media_requests (db (run acts (Sample.world [])))) = [DECLINED; FAILED] /\
  forall r, In r (media_requests (db (run acts (Sample.world [])))) ->
    (is_Some (completed_at r) <-> status r = COMPLETED) /\
    (is_Some (error_message r) <-> status r = FAILED) /\
    (status r = FAILED -> overseerr_request_id r = None).
Proof.
  intros ovs acts.
  assert (Hk : keyed (db (Sample.world []))) by apply NoDup_nil_2.
  assert (Hf : forall r, In r (media_requests (db (Sample.world []))) -> fields_of_bot r)
    by (intros r []).
  split; [exact Hk |]. split; [exact Hf |].
  split; [vm_compute; reflexivity |].
  exact (bot_keeps_fields acts (Sample.world []) Hk Hf).
Defined.

End Submission.

(** ** The one-shot check and its job *)

Section OneShot.

Import SignalerrBot.

Lemma mapped_in_progress (code : Z) :
  map_overseerr_status code ∈ ["approved"; "downloading"] <-> code = 2 \/ code = 4.
Proof.
  rewrite map_overseerr_status_cases. rewrite !elem_of_cons, elem_of_nil.
  repeat case_decide; subst; split; intros Hin; try lia; auto;
    destruct Hin as [Hin | [Hin | []]]; discriminate Hin.
Qed.

Lemma jobs_send_status_update (w : World) (user : User) (r : MediaRequest)
    (st : string) (now : Z) :
  jobs (send_status_update w user r st now) = jobs w.
Proof. reflexivity. Qed.

(** X6.  The one-shot check arms its own job again, for five minutes later,
    exactly when Overseerr reports code 2 (approved) or 4 (downloading) for a
    request that has a correlation id; for every other answer, and for a
    request that is missing or has no correlation id, the job store is as
    before.  It never touches a job under another id. *)
Theorem one_shot_check_rearms (ovs : Overseerr) (now id : Z) (w : World) :
  let w' := check_single_request ovs now id w in
  let again :=
    <[check_job_id id :=
        {| job_func := check_single_request_job id;
           job_trigger := DateTrigger (now + 300);
           job_name := "Check Request " +:+ pretty id |}]> (jobs w) in
  (forall k, k <> check_job_id id -> jobs w' !! k = jobs w !! k) /\
  match MediaRequestCRUD.get_request_by_id (db w) id with
  | Some r =>
      if truthy_int (overseerr_request_id r) then
        match status_of_reply
                (get_request_status ovs (default 0 (overseerr_request_id r))) with
        | Some code =>
            jobs w' = if bool_decide (code = 2 \/ code = 4) then again else jobs w
        | None => jobs w' = jobs w /\ db w' = db w /\ outbox w' = outbox w
        end
      else w' = w
  | None => w' = w
  end.
Proof.
  intros w' again.
  assert (Hmain :
    match MediaRequestCRUD.get_request_by_id (db w) id with
    | Some r =>
        if truthy_int (overseerr_request_id r) then
          match status_of_reply
                  (get_request_status ovs (default 0 (overseerr_request_id r))) with
          | Some code =>
              jobs w' = if bool_decide (code = 2 \/ code = 4) then again else jobs w
          | None => jobs w' = jobs w /\ db w' = db w /\ outbox w' = outbox w
          end
        else w' = w
    | None => w' = w
    end).
  { subst w' again. unfold check_single_request.
    destruct (MediaRequestCRUD.get_request_by_id (db w) id) as [r |] eqn:Hget;
      [| reflexivity].
    destruct (truthy_int (overseerr_request_id r)); [| reflexivity].
    destruct (status_of_reply _) as [code |]; [| repeat split].
    cbv zeta.
    assert (Hid : r_id r = id)
      by (unfold MediaRequestCRUD.get_request_by_id in Hget;
          apply find_some_id in Hget; tauto).
    destruct (map_overseerr_status_enum code) as (st & Hst & _).
    set (w0 := called w _).
    assert (Hafter : exists w1,
      (if negb (String.eqb (map_overseerr_status code)
                  (RequestStatus_value (status r)))
       then
         match MediaRequestCRUD.update_request_status (db w0) now (r_id r)
                 (map_overseerr_status code) None None with
         | Raise e => Raise e
         | Ok (d, updated) =>
             match UserCRUD.get_user_by_id (db (with_db w0 d)) (user_id r) with
             | Some user =>
                 Ok (send_status_update (with_db w0 d) user (default r updated)
                       (map_overseerr_status code) now)
             | None => Ok (with_db w0 d)
             end
         end
       else Ok w0) = Ok w1 /\ jobs w1 = jobs w /\
      requested_delay (db w1) (Some 5) = Some 5).
    { destruct (negb _); [| exists w0; repeat split].
      rewrite Hid, Hst.
      destruct (update_request_status_found (db w0) now id st None None r Hget)
        as (d' & -> & _).
      destruct (UserCRUD.get_user_by_id _ _); eexists; repeat split. }
    destruct Hafter as (w1 & -> & Hj & Hd).
    rewrite (bool_decide_ext _ _ (mapped_in_progress code)).
    destruct (bool_decide (code = 2 \/ code = 4)); [| exact Hj].
    rewrite (schedule_request_check_ok w1 now id 5 (Some 5) Hd).
    cbn [jobs with_jobs]. rewrite Hj. reflexivity. }
  split; [| exact Hmain].
  intros k Hk.
  destruct (MediaRequestCRUD.get_request_by_id (db w) id) as [r |];
    [| rewrite Hmain; reflexivity].
  destruct (truthy_int (overseerr_request_id r)); [| rewrite Hmain; reflexivity].
  destruct (status_of_reply _) as [code |];
    [| destruct Hmain as [-> _]; reflexivity].
  rewrite Hmain. destruct (bool_decide _); [| reflexivity].
  subst again. rewrite lookup_insert_ne by congruence. reflexivity.
Qed.

Lemma pretty_Z_head (z : Z) :
  exists a d, pretty z = String a d /\ (Text.is_digit a = true \/ a = "-"%char).
Proof.
  destruct z as [| p | p].
  - exists "0"%char, "". split; [reflexivity | left; reflexivity].
  - destruct (pretty_N_digits (N.pos p)) as (a & d & Hp & Hall & _).
    exists a, d. split; [exact Hp |]. left.
    simpl in Hall. apply andb_true_iff in Hall. tauto.
  - exists "-"%char, (pretty (N.pos p)). split; [reflexivity | right; reflexivity].
Qed.

Lemma check_job_id_inj (a b : Z) : check_job_id a = check_job_id b -> a = b.
Proof.
  unfold check_job_id. intros H.
  apply (inj (String.app "check_request_")) in H.
  apply (inj pretty) in H. exact H.
Qed.

Lemma check_job_id_not_recurring (id : Z) :
  check_job_id id <> "check_request_statuses" /\
  check_job_id id <> "cleanup_logs" /\
  check_job_id id <> "daily_stats".
Proof.
  unfold check_job_id.
  destruct (pretty_Z_head id) as (a & d & -> & Ha).
  repeat split; intros H; try discriminate H.
  injection H as Ha' _. subst a. destruct Ha as [Ha | Ha]; discriminate Ha.
Qed.

(** X7.  The job ids of the one-shot checks are one per request and differ
    from the ids of the three recurring jobs: scheduling a check for one
    request leaves the check of every other request and the recurring jobs
    in the store as they were, and puts the check of this request there. *)
Theorem schedule_request_check_spares (w w' : World) (now id : Z)
    (delay : option Z)
    (Hok : schedule_request_check w now id delay = Ok w') :
  (forall id', id' <> id ->
     jobs w' !! check_job_id id' = jobs w !! check_job_id id') /\
  jobs w' !! "check_request_statuses" = jobs w !! "check_request_statuses" /\
  jobs w' !! "cleanup_logs" = jobs w !! "cleanup_logs" /\
  jobs w' !! "daily_stats" = jobs w !! "daily_stats" /\
  exists j, jobs w' !! check_job_id id = Some j /\
            job_func j = check_single_request_job id.
Proof.
  unfold schedule_request_check in Hok.
  destruct (requested_delay (db w) delay) as [d |]; [| discriminate].
  rewrite add_job_replacing in Hok. injection Hok as <-. cbn [jobs with_jobs].
  destruct (check_job_id_not_recurring id) as (H1 & H2 & H3).
  split; [| split; [| split; [| split]]].
  - intros id' Hne. rewrite lookup_insert_ne; [reflexivity |].
    intros H. apply check_job_id_inj in H. congruence.
  - rewrite lookup_insert_ne by exact H1. reflexivity.
  - rewrite lookup_insert_ne by exact H2. reflexivity.
  - rewrite lookup_insert_ne by exact H3. reflexivity.
  - eexists. rewrite lookup_insert_eq. split; reflexivity.
Qed.

Lemma schedule_request_check_spares_witness :
  exists w',
    schedule_request_check (Sample.world []) 0 12 None = Ok w' /\
    (forall id', id' <> 12 ->
       jobs w' !! check_job_id id' = jobs (Sample.world []) !! check_job_id id') /\
    jobs w' !! "check_request_statuses"
    = jobs (Sample.world []) !! "check_request_statuses" /\
    jobs w' !! "cleanup_logs" = jobs (Sample.world []) !! "cleanup_logs" /\
    jobs w' !! "daily_stats" = jobs (Sample.world []) !! "daily_stats" /\
    exists j, jobs w' !! check_job_id 12 = Some j /\
              job_func j = check_single_request_job 12.
Proof.
  pose proof (schedule_request_check_ok (Sample.world []) 0 12 2 None
                ltac:(vm_compute; reflexivity)) as Hok.
  eexists. split; [exact Hok |].
  exact (schedule_request_check_spares _ _ 0 12 None Hok).
Defined.

End OneShot.

(** ** The gates of the router *)

Section Gates.

Import MessageHandler.

Lemma find_phone_stamped (l : list User) (phone : string) (user : User) (now : Z) :
  find (fun u => String.eqb (phone_number u) phone) l = Some user ->
  find (fun u => String.eqb (phone_number u) phone)
    (map (fun u => if u_id u =? u_id user then UserCRUD.set_last_active u now else u) l)
  = Some (UserCRUD.set_last_active user now).
Proof.
  induction l as [| x l IH]; cbn [find map]; [discriminate |].
  destruct (String.eqb (phone_number x) phone) eqn:Hx.
  - intros [= ->]. rewrite Z.eqb_refl. cbn. rewrite Hx. reflexivity.
  - intros H. destruct (u_id x =? u_id user); cbn; rewrite Hx; exact (IH H).
Qed.

Lemma known_by_id (d : Database) (phone : string) (user : User) :
  UserCRUD.get_user_by_phone d phone = Some user ->
  is_Some (UserCRUD.get_user_by_id d (u_id user)).
Proof.
  unfold UserCRUD.get_user_by_phone, UserCRUD.get_user_by_id. intros H.
  apply find_some in H as [Hin _].
  destruct (find _ _) eqn:Hf; [eauto |].
  apply (find_none _ _ Hf) in Hin. rewrite Z.eqb_refl in Hin. discriminate.
Qed.

Lemma phone_after_stamp (d : Database) (phone : string) (user : User) (now : Z) :
  UserCRUD.get_user_by_phone d phone = Some user ->
  UserCRUD.get_user_by_phone (UserCRUD.update_user_last_active d now (u_id user)) phone
  = Some (UserCRUD.set_last_active user now).
Proof.
  intros H. unfold UserCRUD.update_user_last_active.
  destruct (known_by_id d phone user H) as [x ->].
  unfold UserCRUD.get_user_by_phone. cbn [users with_users].
  apply find_phone_stamped. exact H.
Qed.

Lemma requests_after_stamp (d : Database) (now id : Z) :
  media_requests (UserCRUD.update_user_last_active d now id) = media_requests d /\
  log_entries (UserCRUD.update_user_last_active d now id) = log_entries d.
Proof.
  unfold UserCRUD.update_user_last_active.
  destruct (UserCRUD.get_user_by_id d id); split; reflexivity.
Qed.

(** X8.  Once the setting [maintenance_mode] is set to a value that reads
    "true" in lower case, a message with text from a known user who is no
    admin is answered with the maintenance notice and nothing else: no
    handler runs, no request is stored, the catalog is not called and no job
    is scheduled.  The message is still logged and the sender's last activity
    stamped. *)
Theorem maintenance_stops_other_users
    (handlers : string -> handler) (ovs : Overseerr) (now : Z)
    (m : SignalMessage) (w : World) (user : User) (v text : string)
    (Hget : get_text m = Ok text)
    (Htext : Text.truthy text = true)
    (Hknown : UserCRUD.get_user_by_phone (db w) (get_sender m) = Some user)
    (Hon : Text.lower v = "true")
    (Huser : is_admin user = false) :
  let w0 := with_db w (SettingsCRUD.set_setting (db w) "maintenance_mode" v) in
  let w' := handle_message handlers ovs now m w0 in
  outbox w' = outbox w ++ [reply m (get_sender m) maintenance_notice] /\
  media_requests (db w') = media_requests (db w) /\
  api_calls w' = api_calls w /\
  jobs w' = jobs w /\
  UserCRUD.get_user_by_phone (db w') (get_sender m)
  = Some (UserCRUD.set_last_active user now) /\
  length (log_entries (db w')) = S (length (log_entries (db w))).
Proof.
  intros w0 w'. subst w' w0. unfold handle_message. rewrite Hget, Htext.
  cbn [negb db with_db]. rewrite get_user_by_phone_create_log.
  change (UserCRUD.get_user_by_phone
            (SettingsCRUD.set_setting (db w) "maintenance_mode" v) (get_sender m))
    with (UserCRUD.get_user_by_phone (db w) (get_sender m)).
  rewrite Hknown. rewrite get_setting_update_user.
  assert (Hset : get_setting
            (LogCRUD.create_log
               (SettingsCRUD.set_setting (db w) "maintenance_mode" v)
               "INFO" "message_handler" None None) "maintenance_mode" "false" = v).
  { unfold get_setting. cbn. rewrite lookup_insert_eq. reflexivity. }
  rewrite Hset, Hon. cbn [String.eqb Ascii.eqb Bool.eqb andb]. 
  change (is_admin (UserCRUD.set_last_active user now)) with (is_admin user).
  rewrite Huser. cbn [negb]. rewrite send_response_reply.
  cbn [outbox sent db api_calls jobs with_db].
  destruct (requests_after_stamp
              (LogCRUD.create_log
                 (SettingsCRUD.set_setting (db w) "maintenance_mode" v)
                 "INFO" "message_handler" None None) now (u_id user)) as [Hr Hl].
  rewrite Hr, Hl.
  split; [reflexivity |]. split; [reflexivity |]. split; [reflexivity |].
  split; [reflexivity |]. split.
  - apply phone_after_stamp. exact Hknown.
  - cbn. rewrite length_app. cbn. lia.
Qed.

(** Maintenance is switched on with the value "True"; Alice writes. *)
Lemma maintenance_stops_other_users_witness :
  let m := Sample.text_from "+15550001" "request Inception" in
  let w0 := with_db (Sample.world [])
              (SettingsCRUD.set_setting (db (Sample.world [])) "maintenance_mode" "True") in
  let w' := handle_message Sample.idle_handlers
              (Sample.overseerr (Created (Some 7)) 2) 5000 m w0 in
  outbox w' = [reply m "+15550001" maintenance_notice] /\
  media_requests (db w') = [] /\
  api_calls w' = [] /\
  jobs w' = ∅ /\
  UserCRUD.get_user_by_phone (db w') "+15550001"
  = Some (UserCRUD.set_last_active Sample.alice 5000) /\
  length (log_entries (db w')) = 1%nat.
Proof.
  intros m.
  assert (H0 : get_text m = Ok "request Inception") by reflexivity.
  assert (H1 : Text.truthy "request Inception" = true) by reflexivity.
  assert (H2 : UserCRUD.get_user_by_phone (db (Sample.world [])) (get_sender m)
               = Some Sample.alice) by reflexivity.
  assert (H3 : Text.lower "True" = "true") by reflexivity.
  assert (H4 : is_admin Sample.alice = false) by reflexivity.
  exact (maintenance_stops_other_users Sample.idle_handlers
           (Sample.overseerr (Created (Some 7)) 2) 5000 m (Sample.world [])
           Sample.alice "True" "request Inception" H0 H1 H2 H3 H4).
Defined.

Lemma admin_verb_is_no_standard_verb (c : string) :
  c ∈ admin_commands -> c ∉ commands.
Proof.
  unfold admin_commands. rewrite !elem_of_cons, elem_of_nil.
  intros H.
  repeat (destruct H as [-> | H];
          [apply (proj1 (bool_decide_eq_false (_ ∈ commands))); vm_compute; reflexivity |]).
  destruct H.
Qed.

(** X9.  A known user who is no admin and writes an admin verb, outside
    maintenance, is answered that the permission is missing, and no handler
    runs; for an admin the handler of the verb runs, on the stamped user and
    with the words after the verb.  No admin verb is a standard verb, so the
    table of standard commands never takes it. *)
Theorem admin_verbs_need_admin
    (handlers : string -> handler) (ovs : Overseerr) (now : Z)
    (m : SignalMessage) (w : World) (user : User) (text : string)
    (Hget : get_text m = Ok text)
    (Htext : Text.truthy text = true)
    (Hknown : UserCRUD.get_user_by_phone (db w) (get_sender m) = Some user)
    (Hopen : in_maintenance (db w) user = false)
    (Hverb : (parse_command text).1 ∈ admin_commands) :
  handle_message handlers ovs now m w =
  if is_admin user then
    let ran := handlers (parse_command text).1
                 (UserCRUD.set_last_active user now)
                 (parse_command text).2 m now (at_router w now user) in
    match ran.2 with
    | None => ran.1
    | Some e =>
        send_error_to_admins ran.1 ("Error handling message: " +:+ exn_text e)
          (get_sender m)
    end
  else send_response (at_router w now user) (get_sender m) permission_denied (Some m).
Proof.
  unfold handle_message. rewrite Hget, Htext. cbn [negb db with_db].
  rewrite get_user_by_phone_create_log, Hknown.
  rewrite get_setting_update_user.
  change (String.eqb _ "true" && negb (is_admin (UserCRUD.set_last_active user now)))
    with (in_maintenance (db w) user).
  rewrite Hopen.
  pose proof (admin_verb_is_no_standard_verb _ Hverb) as Hstd.
  destruct (parse_command text) as [command args]. cbn [fst snd] in *.
  rewrite (bool_decide_eq_false_2 _ Hstd), (bool_decide_eq_true_2 _ Hverb).
  change (is_admin (UserCRUD.set_last_active user now)) with (is_admin user).
  destruct (is_admin user); [| reflexivity].
  fold (at_router w now user).
  destruct (handlers command _ args m now _) as [w1 [e |]]; reflexivity.
Qed.

(** Alice, no admin, writes "/AddUser +15550003 Carol". *)
Lemma admin_verbs_need_admin_witness :
  let m := Sample.text_from "+15550001" "/AddUser +15550003 Carol" in
  let w := Sample.world [] in
  get_text m = Ok "/AddUser +15550003 Carol" /\
  ((parse_command "/AddUser +15550003 Carol").1 ∈ admin_commands) /\
  handle_message (fun _ => handle_add_user) (Sample.overseerr (Created None) 2) 5000
    m w
  = send_response (at_router w 5000 Sample.alice) "+15550001"
      permission_denied (Some m).
Proof.
  intros m w.
  assert (H0 : get_text m = Ok "/AddUser +15550003 Carol") by reflexivity.
  assert (H1 : Text.truthy "/AddUser +15550003 Carol" = true) by reflexivity.
  assert (H2 : UserCRUD.get_user_by_phone (db w) (get_sender m) = Some Sample.alice)
    by reflexivity.
  assert (H3 : in_maintenance (db w) Sample.alice = false)
    by (vm_compute; reflexivity).
  assert (H4 : (parse_command "/AddUser +15550003 Carol").1 ∈ admin_commands)
    by (apply (bool_decide_unpack _); vm_compute; exact I).
  split; [exact H0 |]. split; [exact H4 |].
  exact (admin_verbs_need_admin (fun _ => handle_add_user)
           (Sample.overseerr (Created None) 2) 5000 m w Sample.alice
           "/AddUser +15550003 Carol" H0 H1 H2 H3 H4).
Defined.

End Gates.

(** ** The verb and the words of a message *)

Section Parsing.

Import MessageHandler.

Lemma lower_char_idem (a : ascii) :
  Text.lower_char (Text.lower_char a) = Text.lower_char a.
Proof. destruct a as [[] [] [] [] [] [] [] []]; reflexivity. Qed.

Lemma lower_idem (s : string) : Text.lower (Text.lower s) = Text.lower s.
Proof.
  induction s as [| a s IH]; [reflexivity |].
  simpl. rewrite lower_char_idem, IH. reflexivity.
Qed.

Lemma no_space_lower (s : string) : Text.no_space (Text.lower s) = Text.no_space s.
Proof.
  induction s as [| a s IH]; [reflexivity |].
  simpl. rewrite is_space_lower_char, IH. reflexivity.
Qed.

Lemma no_space_snoc (cur : string) (a : ascii) :
  Text.no_space cur = true -> Text.is_space a = false ->
  Text.no_space (cur +:+ String a "") = true.
Proof.
  intros Hc Ha. induction cur as [| b cur IH]; simpl in *.
  - rewrite Ha. reflexivity.
  - apply andb_true_iff in Hc as [Hb Hc]. rewrite ?append_cons. simpl.
    rewrite Hb, IH by exact Hc. reflexivity.
Qed.

Lemma snoc_not_empty (cur : string) (a : ascii) : cur +:+ String a "" <> "".
Proof. destruct cur; discriminate. Qed.

(** Every word of [split] is free of white space and not empty. *)
Lemma split_go_words (s cur : string) :
  Text.no_space cur = true ->
  Forall (fun t => Text.no_space t = true /\ t <> "") (Text.split_go cur s).
Proof.
  revert cur. induction s as [| a s IH]; intros cur Hc; simpl.
  - destruct cur; [constructor |]. constructor; [| constructor].
    split; [exact Hc | discriminate].
  - destruct (Text.is_space a) eqn:Ha.
    + destruct cur; [apply IH; reflexivity |].
      constructor; [split; [exact Hc | discriminate] | apply IH; reflexivity].
    + apply IH. apply no_space_snoc; assumption.
Qed.

Lemma split_go_lstrip (s : string) :
  Text.split_go "" (Text.lstrip s) = Text.split_go "" s.
Proof.
  induction s as [| a s IH]; [reflexivity |]. simpl.
  destruct (Text.is_space a) eqn:Ha; [exact IH |]. simpl. rewrite Ha. reflexivity.
Qed.

Lemma split_go_cons (a : ascii) (s1 s2 cur : string) :
  (forall c, Text.split_go c s1 = Text.split_go c s2) ->
  Text.split_go cur (String a s1) = Text.split_go cur (String a s2).
Proof. intros H. cbn [Text.split_go]. rewrite !H. reflexivity. Qed.

Lemma split_go_rstrip (s cur : string) :
  Text.split_go cur (Text.rstrip s) = Text.split_go cur s.
Proof.
  revert cur. induction s as [| a s IH]; intros cur; [reflexivity |].
  cbn [Text.rstrip].
  destruct (Text.rstrip s) as [| b r] eqn:Hr.
  - rewrite <- (split_go_cons a "" s cur IH).
    destruct (Text.is_space a) eqn:Ha; [| reflexivity].
    cbn [Text.split_go]. rewrite Ha. destruct cur; reflexivity.
  - apply split_go_cons. exact IH.
Qed.

(** White space around a text does not change its words. *)
Lemma split_strip (s : string) : Text.split (Text.strip s) = Text.split s.
Proof.
  unfold Text.split, Text.strip. rewrite split_go_rstrip. apply split_go_lstrip.
Qed.

Lemma lower_snoc (cur : string) (a : ascii) :
  Text.lower (cur +:+ String a "") = Text.lower cur +:+ String (Text.lower_char a) "".
Proof. rewrite lower_app. reflexivity. Qed.

Lemma split_go_lower (s cur : string) :
  Text.split_go (Text.lower cur) (Text.lower s)
  = map Text.lower (Text.split_go cur s).
Proof.
  revert cur. induction s as [| a s IH]; intros cur; simpl.
  - destruct cur; reflexivity.
  - rewrite is_space_lower_char. pose proof (IH "") as IH0. cbn [Text.lower] in IH0.
    destruct (Text.is_space a).
    + destruct cur; simpl; [exact IH0 | rewrite IH0; reflexivity].
    + rewrite <- lower_snoc. apply IH.
Qed.

Lemma split_lower (s : string) :
  Text.split (Text.lower s) = map Text.lower (Text.split s).
Proof. apply (split_go_lower s ""). Qed.

Lemma lstrip_char_no_head (c : ascii) (s : string) :
  Text.startswith (Text.lstrip_char c s) (String c "") = false.
Proof.
  unfold Text.startswith.
  induction s as [| a s IH]; [reflexivity |]. simpl.
  destruct (Ascii.eqb_spec a c) as [-> | Hne]; [exact IH |].
  simpl. destruct (ascii_dec c a); [congruence | reflexivity].
Qed.

Lemma lstrip_char_no_space (c : ascii) (s : string) :
  Text.no_space s = true -> Text.no_space (Text.lstrip_char c s) = true.
Proof.
  induction s as [| a s IH]; [reflexivity |]. simpl. intros H.
  apply andb_true_iff in H as [Ha Hs].
  destruct (Ascii.eqb a c); [apply IH; exact Hs |].
  simpl. rewrite Ha, Hs. reflexivity.
Qed.

Lemma lstrip_char_lower (c : ascii) (s : string) :
  Text.lower (Text.lstrip_char c (Text.lower s)) = Text.lstrip_char c (Text.lower s).
Proof.
  induction s as [| a s IH]; [reflexivity |]. simpl.
  destruct (Ascii.eqb (Text.lower_char a) c); [exact IH |].
  simpl. rewrite lower_char_idem, lower_idem. reflexivity.
Qed.

(** X10.  The verb [parse_command] returns is in normal form: it is in
    lower case, does not begin with a slash and has no white space; the
    arguments are words, none empty and none with white space.  White space
    around the text does not change the result, and lower-casing the text
    changes the case of the arguments only: the verb is read without regard
    to case. *)
Theorem parse_command_normal_form (text : string) :
  let '(command, args) := parse_command text in
  Text.lower command = command /\
  Text.startswith command "/" = false /\
  Text.no_space command = true /\
  Forall (fun a => Text.no_space a = true /\ a <> "") args /\
  parse_command (Text.strip text) = (command, args) /\
  parse_command (Text.lower text) = (command, map Text.lower args).
Proof.
  assert (Hstrip : parse_command (Text.strip text) = parse_command text).
  { unfold parse_command. rewrite !split_strip. reflexivity. }
  assert (Hlower : parse_command (Text.lower text)
                   = ((parse_command text).1, map Text.lower (parse_command text).2)).
  { unfold parse_command. rewrite !split_strip, split_lower.
    destruct (Text.split text) as [| p rest]; [reflexivity |].
    cbn [map fst snd]. rewrite lower_idem. reflexivity. }
  rewrite Hstrip, Hlower. clear Hstrip Hlower.
  unfold parse_command. rewrite split_strip.
  pose proof (split_go_words text "" eq_refl) as Hw. fold (Text.split text) in Hw.
  destruct (Text.split text) as [| p rest].
  - repeat split. constructor.
  - apply Forall_cons in Hw as [[Hp _] Hrest]. cbn [fst snd].
    split; [apply lstrip_char_lower |].
    split; [apply lstrip_char_no_head |].
    split; [apply lstrip_char_no_space; rewrite no_space_lower; exact Hp |].
    split; [exact Hrest |]. split; reflexivity.
Qed.

End Parsing.

(** ** Messages to the admins *)

Section Admins.

Import MessageHandler.

Lemma rstrip_idem (s : string) : Text.rstrip (Text.rstrip s) = Text.rstrip s.
Proof.
  induction s as [| a s IH]; [reflexivity |].
  cbn [Text.rstrip]. destruct (Text.rstrip s) as [| b r] eqn:Hr.
  - destruct (Text.is_space a) eqn:Ha; [reflexivity |].
    cbn [Text.rstrip]. rewrite Ha. reflexivity.
  - change (Text.rstrip (String a (String b r)))
      with (match Text.rstrip (String b r) with
            | "" => if Text.is_space a then "" else String a ""
            | String c r' => String a (String c r')
            end).
    rewrite IH. reflexivity.
Qed.

Lemma strip_idem (s : string) : Text.strip (Text.strip s) = Text.strip s.
Proof.
  destruct (Text.strip s) as [| a r] eqn:Hs; [reflexivity |].
  destruct (strip_head s) as (a' & r' & Heq & Ha); [rewrite Hs; reflexivity |].
  rewrite Hs in Heq. injection Heq as <- <-.
  unfold Text.strip at 1. cbn [Text.lstrip]. rewrite Ha.
  rewrite <- Hs. unfold Text.strip. apply rstrip_idem.
Qed.

Lemma admin_phones_trimmed (d : Database) :
  Forall (fun p => p <> "" /\ Text.strip p = p) (admin_phones d).
Proof.
  unfold admin_phones. apply Forall_forall. intros p Hp.
  apply list_elem_of_In, in_map_iff in Hp as (x & <- & Hx).
  apply list_elem_of_In, list_elem_of_filter in Hx as [Hx _].
  split; [| apply strip_idem].
  intros He. rewrite He in Hx. discriminate.
Qed.

(** X11.  [notify_admins] and [send_error_to_admins] send one direct message
    to each number of the setting [admin_phone_numbers], in the order of the
    setting, and do nothing else.  The numbers are the entries between the
    commas, trimmed, without the blank ones; which users are flagged as
    admins plays no part. *)
Theorem admins_are_told_once_each (w : World) (text err user_phone : string) :
  let phones := admin_phones (db w) in
  let w1 := SignalerrBot.notify_admins w text in
  let w2 := send_error_to_admins w err user_phone in
  outbox w1 = outbox w ++ map (fun p => send_message p text) phones /\
  db w1 = db w /\ api_calls w1 = api_calls w /\ jobs w1 = jobs w /\
  (exists report,
     outbox w2 = outbox w ++ map (fun p => send_message p report) phones) /\
  db w2 = db w /\ api_calls w2 = api_calls w /\ jobs w2 = jobs w /\
  Forall (fun p => p <> "" /\ Text.strip p = p) phones /\
  (forall us, admin_phones (with_users (db w) us) = phones).
Proof.
  intros phones w1 w2. subst w1 w2.
  unfold SignalerrBot.notify_admins, send_error_to_admins. fold phones.
  destruct (fan_out text phones w) as (Ho & Hd & Ha & Hj).
  split; [exact Ho |]. split; [exact Hd |]. split; [exact Ha |].
  split; [exact Hj |].
  match goal with
  | |- context [fold_left (fun w p => sent w (send_message p ?t)) phones w] =>
      destruct (fan_out t phones w) as (Ho' & Hd' & Ha' & Hj')
  end.
  split; [eexists; exact Ho' |]. split; [exact Hd' |]. split; [exact Ha' |].
  split; [exact Hj' |]. split; [apply admin_phones_trimmed |]. reflexivity.
Qed.

(** Two numbers with blanks around them and an empty entry. *)
Example admin_phones_ex :
  admin_phones
    (SettingsCRUD.set_setting empty_database "admin_phone_numbers"
       " +15550002 ,, +15550009,  ")
  = ["+15550002"; "+15550009"].
Proof. vm_compute. reflexivity. Qed.

End Admins.

(** ** What a submission touches *)

Section SubmissionFrame.

Import MediaRequestCRUD MessageHandler.

Lemma send_response_world (w : World) (to text : string) (m : SignalMessage) :
  send_response w to text (Some m) = sent w (reply m to text).
Proof. unfold send_response, reply. destruct (is_group_message m); reflexivity. Qed.

Lemma request_failed_world (w : World) (user : User) (m : SignalMessage) (e : exn) :
  exists text rest,
    outbox (request_failed w user m e)
    = outbox w ++ reply m (phone_number user) text :: rest /\
    db (request_failed w user m e) = db w /\
    api_calls (request_failed w user m e) = api_calls w /\
    jobs (request_failed w user m e) = jobs w.
Proof.
  unfold request_failed, send_error_to_admins. rewrite send_response_world.
  match goal with
  | |- context [fold_left (fun w p => sent w (send_message p ?t)) ?l ?w0] =>
      destruct (fan_out t l w0) as (Ho & Hd & Ha & Hj)
  end.
  cbv zeta in Ho, Hd, Ha, Hj. rewrite Ho, Hd, Ha, Hj.
  cbn [outbox db api_calls jobs sent]. rewrite <- app_assoc.
  eexists _, _. repeat split.
Qed.

Lemma create_request_row (d d' : Database) (now uid : Z) (mtype : string) (mid : Z)
    (ttl : option string) (yr : option Z) (k : bool) (seasons : option (list Z))
    (r0 : MediaRequest) :
  create_request d now uid mtype mid ttl yr k seasons = Ok (d', r0) ->
  media_id r0 = mid /\ user_id r0 = uid /\
  MediaType_of mtype = Some (media_type r0) /\
  seasons_requested r0 = set_seasons_requested seasons.
Proof.
  unfold create_request. destruct (MediaType_of mtype); [| discriminate].
  destruct ttl; [| discriminate]. intros [= <- <-]. cbn.
  repeat split. unfold set_seasons_requested. destruct (truthy_list seasons); reflexivity.
Qed.

(** X12.  A submission always begins with an answer, to the user's number
    or to the group the message came from; it never schedules a job (the
    status check it asks for is not implemented) and never changes a user, a
    setting or the log table.  Its calls of Overseerr are a search,
    then a lookup of the availability, then one request; the request is
    posted exactly when a row has been stored, for the media of that row and,
    for a show, with the seasons of that row (an empty list is stored as no
    list).  With no quota left there is no call and no row. *)
Theorem submission_calls_and_rows (ovs : Overseerr) (now : Z) (user : User)
    (query : string) (m : SignalMessage) (w : World) :
  let w' := process_media_request ovs now user query m w in
  jobs w' = jobs w /\
  users (db w') = users (db w) /\ settings (db w') = settings (db w) /\
  log_entries (db w') = log_entries (db w) /\
  (exists text rest,
     outbox w' = outbox w ++ reply m (phone_number user) text :: rest) /\
  (exists calls,
     api_calls w' = api_calls w ++ calls /\
     (can_make_request user (db w) now = false -> calls = []) /\
     ((media_requests (db w') = media_requests (db w) /\
       (calls = [] \/ calls = [ApiSearch query] \/
        exists mid, calls = [ApiSearch query; ApiMediaStatus mid]))
      \/
      (exists r,
         media_requests (db w') = media_requests (db w) ++ [r] /\
         user_id r = u_id user /\
         ((media_type r = MOVIE /\
           calls = [ApiSearch query; ApiMediaStatus (media_id r);
                    ApiRequestMovie (media_id r)])
          \/
          (exists seasons,
             media_type r = TV /\
             seasons_requested r = set_seasons_requested seasons /\
             calls = [ApiSearch query; ApiMediaStatus (media_id r);
                      ApiRequestTv (media_id r) seasons]))))).
Proof.
  cbv zeta. unfold process_media_request.
  destruct (can_make_request user (db w) now) eqn:Hcan; cbn [negb].
  2: { rewrite ?send_response_world. cbn [jobs db outbox api_calls sent].
       repeat split; [eexists _, _; reflexivity |].
       exists []. rewrite app_nil_r. split; [reflexivity |]. split; [reflexivity |].
       left. split; [reflexivity | left; reflexivity]. }
  rewrite ?send_response_world.
  destruct (search_media ovs query) as [| best_match others].
  { rewrite ?send_response_world. cbn [jobs db outbox api_calls sent called].
    repeat split; [rewrite <- app_assoc; eexists _, _; reflexivity |].
    exists [ApiSearch query]. split; [reflexivity |]. split; [discriminate |].
    left. split; [reflexivity | right; left; reflexivity]. }
  destruct (OverseerrAPI.parse_media_info best_match) as [media_info | e].
  2: { destruct (request_failed_world
                   (called (sent w (reply m (phone_number user)
                                      ("🔍 Searching for '" +:+ query +:+ "'...")))
                      (ApiSearch query)) user m e) as (t & rest & -> & -> & -> & ->).
       cbn [jobs db outbox api_calls sent called].
       repeat split; [rewrite <- app_assoc; eexists _, _; reflexivity |].
       exists [ApiSearch query]. split; [reflexivity |]. split; [discriminate |].
       left. split; [reflexivity | right; left; reflexivity]. }
  destruct (OverseerrAPI.is_media_available ovs _).
  { rewrite ?send_response_world. cbn [jobs db outbox api_calls sent called].
    repeat split; [rewrite <- app_assoc; eexists _, _; reflexivity |].
    exists [ApiSearch query; ApiMediaStatus (mi_tmdb_id media_info)].
    rewrite <- app_assoc. split; [reflexivity |]. split; [discriminate |].
    left. split; [reflexivity | right; right; eexists; reflexivity]. }
  cbn [db called sent].
  destruct (create_request _ _ _ _ _ _ _ _ _) as [[d r0] | e] eqn:Hc.
  2: { match goal with
       | |- context [request_failed ?w0 user m e] =>
           destruct (request_failed_world w0 user m e) as (t & rest & -> & -> & -> & ->)
       end.
       cbn [jobs db outbox api_calls sent called].
       repeat split; [rewrite <- app_assoc; eexists _, _; reflexivity |].
       exists [ApiSearch query; ApiMediaStatus (mi_tmdb_id media_info)].
       rewrite <- app_assoc. split; [reflexivity |]. split; [discriminate |].
       left. split; [reflexivity | right; right; eexists; reflexivity]. }
  pose proof (create_request_row _ _ _ _ _ _ _ _ _ _ _ Hc) as (Hmid & Huid & Hmt & Hseas).
  apply create_request_ok in Hc as (-> & Hid & _).
  assert (Hkind :
    (String.eqb (mi_media_type media_info) "movie" = true /\ media_type r0 = MOVIE) \/
    (String.eqb (mi_media_type media_info) "movie" = false /\ media_type r0 = TV)).
  { unfold MediaType_of in Hmt.
    destruct (String.eqb (mi_media_type media_info) "movie");
      [left; split; congruence |].
    destruct (String.eqb (mi_media_type media_info) "tv"); [| discriminate].
    right; split; congruence. }
  set (seasons := if String.eqb (mi_media_type media_info) "tv" then _ else None) in *.
  destruct Hkind as [[Hk Hty] | [Hk Hty]]; rewrite Hk.
  - destruct (OverseerrAPI.request_movie ovs _) as [[[] oid] err]; cbn [db called with_db].
    + change "approved" with (RequestStatus_value APPROVED).
      rewrite (update_new_request (db w) now r0 APPROVED oid None Hid).
      unfold schedule_status_check. rewrite ?send_response_world.
      cbn [jobs db outbox api_calls sent called with_db users settings log_entries
             with_media_requests media_requests].
      repeat split; [rewrite <- app_assoc; eexists _, _; reflexivity |].
      eexists. rewrite <- !app_assoc. split; [reflexivity |]. split; [discriminate |].
      right. eexists. split; [reflexivity |]. cbn. split; [exact Huid |].
      left. split; [exact Hty |]. rewrite Hmid. reflexivity.
    + change "failed" with (RequestStatus_value FAILED).
      rewrite (update_new_request (db w) now r0 FAILED None err Hid).
      rewrite ?send_response_world.
      cbn [jobs db outbox api_calls sent called with_db users settings log_entries
             with_media_requests media_requests].
      repeat split; [rewrite <- app_assoc; eexists _, _; reflexivity |].
      eexists. rewrite <- !app_assoc. split; [reflexivity |]. split; [discriminate |].
      right. eexists. split; [reflexivity |]. cbn. split; [exact Huid |].
      left. split; [exact Hty |]. rewrite Hmid. reflexivity.
  - destruct (OverseerrAPI.request_tv_show ovs _ _) as [[[] oid] err];
      cbn [db called with_db].
    + change "approved" with (RequestStatus_value APPROVED).
      rewrite (update_new_request (db w) now r0 APPROVED oid None Hid).
      unfold schedule_status_check. rewrite ?send_response_world.
      cbn [jobs db outbox api_calls sent called with_db users settings log_entries
             with_media_requests media_requests].
      repeat split; [rewrite <- app_assoc; eexists _, _; reflexivity |].
      eexists. rewrite <- !app_assoc. split; [reflexivity |]. split; [discriminate |].
      right. eexists. split; [reflexivity |]. cbn. split; [exact Huid |].
      right. exists seasons. split; [exact Hty |]. split; [exact Hseas |].
      rewrite Hmid. reflexivity.
    + change "failed" with (RequestStatus_value FAILED).
      rewrite (update_new_request (db w) now r0 FAILED None err Hid).
      rewrite ?send_response_world.
      cbn [jobs db outbox api_calls sent called with_db users settings log_entries
             with_media_requests media_requests].
      repeat split; [rewrite <- app_assoc; eexists _, _; reflexivity |].
      eexists. rewrite <- !app_assoc. split; [reflexivity |]. split; [discriminate |].
      right. eexists. split; [reflexivity |]. cbn. split; [exact Huid |].
      right. exists seasons. split; [exact Hty |]. split; [exact Hseas |].
      rewrite Hmid. reflexivity.
Qed.

End SubmissionFrame.

(** ** Accounts *)

Section Accounts.

Import MessageHandler.

Lemma get_user_by_id_unique (d : Database) (u : User) :
  NoDup (map u_id (users d)) -> In u (users d) ->
  UserCRUD.get_user_by_id d (u_id u) = Some u.
Proof.
  intros Hk Hin. unfold UserCRUD.get_user_by_id.
  destruct (find _ _) as [x |] eqn:Hf.
  - apply find_some in Hf as [Hx Hid]. apply Z.eqb_eq in Hid.
    f_equal. eapply NoDup_map_In_inj; eauto.
  - apply (find_none _ _ Hf) in Hin. rewrite Z.eqb_refl in Hin. discriminate.
Qed.

Lemma find_phone_replaced (l : list User) (phone : string) (target u' : User) :
  phone_number u' = phone ->
  find (fun u => String.eqb (phone_number u) phone) l = Some target ->
  find (fun u => String.eqb (phone_number u) phone)
    (map (fun u => if u_id u =? u_id target then u' else u) l) = Some u'.
Proof.
  intros Hp. induction l as [| x l IH]; cbn [find map]; [discriminate |].
  destruct (String.eqb (phone_number x) phone) eqn:Hx.
  - intros [= ->]. rewrite Z.eqb_refl. cbn. rewrite Hp, String.eqb_refl. reflexivity.
  - intros H. destruct (u_id x =? u_id target); cbn.
    + rewrite Hp, String.eqb_refl. reflexivity.
    + rewrite Hx. exact (IH H).
Qed.

Lemma map_u_id_replaced (l : list User) (id : Z) (u' : User) :
  u_id u' = id ->
  map u_id (map (fun u => if u_id u =? id then u' else u) l) = map u_id l.
Proof.
  intros Hid. induction l as [| x l IH]; [reflexivity |].
  cbn [map]. rewrite IH. destruct (Z.eqb_spec (u_id x) id); congruence.
Qed.

(** X13.  Removing a user deactivates the account and removes nothing: the
    admin gets the confirmation, the user is no longer among the active
    users, but the phone number still resolves to the account.  So the
    removed user's messages are not rejected as those of an unknown sender:
    a request of theirs goes to [handle_request] as before; and adding the
    number again is refused because the user already exists. *)
Theorem removed_user_stays_known
    (admin target : User) (phone : string) (rest : list string)
    (m : SignalMessage) (now : Z) (w : World)
    (Hkeys : NoDup (map u_id (users (db w))))
    (Hknown : UserCRUD.get_user_by_phone (db w) phone = Some target) :
  let w' := (handle_remove_user admin (phone :: rest) m now w).1 in
  let gone := UserCRUD.set_attr target (UserCRUD.attr_is_active false) in
  outbox w' = outbox w ++ [reply m (phone_number admin) ("✅ Removed user: " +:+ phone)] /\
  UserCRUD.get_user_by_phone (db w') phone = Some gone /\
  is_active gone = false /\
  (forall u, In u (UserCRUD.get_all_users (db w') true) -> u_id u <> u_id target) /\
  map u_id (users (db w')) = map u_id (users (db w)) /\
  media_requests (db w') = media_requests (db w) /\
  settings (db w') = settings (db w) /\
  (forall names m2 now2,
     (handle_add_user admin (phone :: names) m2 now2 w').1
     = send_response w' (phone_number admin)
         ("❌ User " +:+ phone +:+ " already exists") (Some m2)) /\
  (forall handlers ovs now2 m2 text args,
     get_sender m2 = phone ->
     get_text m2 = Ok text ->
     Text.truthy text = true ->
     in_maintenance (db w) target = false ->
     parse_command text = ("request", args) ->
     handle_message handlers ovs now2 m2 w'
     = handle_request ovs now2 (UserCRUD.set_last_active gone now2) args m2
         (at_router w' now2 gone)).
Proof.
  intros w' gone.
  assert (Hin : In target (users (db w)))
    by (apply find_some in Hknown; tauto).
  assert (Hphone : phone_number target = phone)
    by (apply find_some in Hknown as [_ H]; apply String.eqb_eq in H; exact H).
  assert (Hw' : w' = sent (with_db w
                        (with_users (db w)
                           (map (fun u => if u_id u =? u_id target then gone else u)
                              (users (db w)))))
                       (reply m (phone_number admin) ("✅ Removed user: " +:+ phone))).
  { subst w'. unfold handle_remove_user. rewrite Hknown. cbn [fst].
    rewrite send_response_reply. unfold UserCRUD.delete_user.
    rewrite (get_user_by_id_unique _ _ Hkeys Hin). reflexivity. }
  assert (Hfound : UserCRUD.get_user_by_phone (db w') phone = Some gone).
  { rewrite Hw'. unfold UserCRUD.get_user_by_phone. cbn [db sent with_db users with_users].
    apply find_phone_replaced; [exact Hphone | exact Hknown]. }
  split; [rewrite Hw'; reflexivity |]. split; [exact Hfound |].
  split; [reflexivity |]. split.
  { intros u Hu. rewrite Hw' in Hu. unfold UserCRUD.get_all_users in Hu.
    cbn [db sent with_db users with_users] in Hu.
    apply list_elem_of_In, list_elem_of_filter in Hu as [Hact Hu].
    apply list_elem_of_In, in_map_iff in Hu as (x & Hx & _).
    destruct (Z.eqb_spec (u_id x) (u_id target)) as [_ | Hne].
    - subst u. discriminate Hact.
    - subst u. exact Hne. }
  split; [rewrite Hw'; cbn [db sent with_db users with_users];
          apply map_u_id_replaced; reflexivity |].
  split; [rewrite Hw'; reflexivity |]. split; [rewrite Hw'; reflexivity |].
  split.
  - intros names m2 now2. unfold handle_add_user. rewrite Hfound. reflexivity.
  - intros handlers ovs now2 m2 text args Hsender Hget Htext Hopen Hparse.
    unfold handle_message. rewrite Hget, Htext. cbn [negb db with_db].
    rewrite get_user_by_phone_create_log, Hsender, Hfound.
    rewrite get_setting_update_user.
    assert (Hm : in_maintenance (db w') gone = false)
      by (rewrite Hw'; exact Hopen).
    change (String.eqb _ "true" && negb (is_admin (UserCRUD.set_last_active gone now2)))
      with (in_maintenance (db w') gone).
    rewrite Hm, Hparse. reflexivity.
Qed.

(** Bob removes Alice; Alice then asks for a film. *)
Lemma removed_user_stays_known_witness :
  let m := Sample.text_from "+15550002" "removeuser +15550001" in
  let w := Sample.world [] in
  let w' := (handle_remove_user Sample.bob ["+15550001"] m 5000 w).1 in
  let gone := UserCRUD.set_attr Sample.alice (UserCRUD.attr_is_active false) in
  UserCRUD.get_user_by_phone (db w') "+15550001" = Some gone /\
  UserCRUD.get_all_users (db w') true = [Sample.bob] /\
  handle_message Sample.idle_handlers (Sample.overseerr (Created (Some 7)) 2) 6000
    (Sample.text_from "+15550001" "request Inception") w'
  = handle_request (Sample.overseerr (Created (Some 7)) 2) 6000
      (UserCRUD.set_last_active gone 6000) ["Inception"]
      (Sample.text_from "+15550001" "request Inception") (at_router w' 6000 gone).
Proof.
  intros m w w' gone.
  assert (Hk : NoDup (map u_id (users (db w))))
    by (apply (bool_decide_unpack _); vm_compute; exact I).
  assert (Hp : UserCRUD.get_user_by_phone (db w) "+15550001" = Some Sample.alice)
    by reflexivity.
  pose proof (removed_user_stays_known Sample.bob Sample.alice "+15550001" [] m 5000 w
                Hk Hp) as (_ & Hfound & _ & _ & _ & _ & _ & _ & Hserved).
  split; [exact Hfound |]. split; [vm_compute; reflexivity |].
  apply (Hserved _ _ _ _ "request Inception");
    [reflexivity | reflexivity | reflexivity | vm_compute; reflexivity | reflexivity].
Defined.

End Accounts.

(** ** What a sweep touches *)

Section SweepFrame.

Import MediaRequestCRUD SignalerrBot.

Lemma truthy_int_default (o : option Z) : truthy_int o = true -> default 0 o <> 0.
Proof.
  destruct o as [n |]; [| discriminate]. cbn. intros H.
  apply negb_true_iff, Z.eqb_neq in H. exact H.
Qed.

Lemma check_request_status_frame (ovs : Overseerr) (now : Z) (w : World) (id : Z) :
  let w' := check_request_status ovs now w id in
  users (db w') = users (db w) /\ settings (db w') = settings (db w) /\
  jobs w' = jobs w /\
  exists msgs calls,
    outbox w' = outbox w ++ msgs /\ Forall (status_notice (users (db w))) msgs /\
    api_calls w' = api_calls w ++ calls /\ Forall status_poll calls /\
    (length msgs <= length calls)%nat /\
    length (log_entries (db w')) = (length (log_entries (db w)) + length msgs)%nat.
Proof.
  cbv zeta. unfold check_request_status.
  assert (Hsame : users (db w) = users (db w) /\ settings (db w) = settings (db w) /\
                  jobs w = jobs w /\
                  exists msgs calls,
                    outbox w = outbox w ++ msgs /\ Forall (status_notice (users (db w))) msgs /\
                    api_calls w = api_calls w ++ calls /\ Forall status_poll calls /\
                    (length msgs <= length calls)%nat /\
                    length (log_entries (db w))
                    = (length (log_entries (db w)) + length msgs)%nat).
  { repeat split. exists [], []. rewrite !app_nil_r. cbn.
    split; [reflexivity |]. split; [constructor |]. split; [reflexivity |].
    split; [constructor |]. split; lia. }
  destruct (get_request_by_id (db w) id) as [request |] eqn:Hget; [| exact Hsame].
  destruct (just_created _ _ _); [exact Hsame |].
  destruct (truthy_int (overseerr_request_id request)) eqn:Hoid; [| exact Hsame].
  apply truthy_int_default in Hoid.
  assert (Hpoll : Forall status_poll [ApiRequestStatus (default 0 (overseerr_request_id request))])
    by (constructor; [eexists; split; [reflexivity | exact Hoid] | constructor]).
  assert (Hquiet : forall d,
            users d = users (db w) -> settings d = settings (db w) ->
            log_entries d = log_entries (db w) ->
            let w' := with_db (called w (ApiRequestStatus
                                 (default 0 (overseerr_request_id request)))) d in
            users (db w') = users (db w) /\ settings (db w') = settings (db w) /\
            jobs w' = jobs w /\
            exists msgs calls,
              outbox w' = outbox w ++ msgs /\ Forall (status_notice (users (db w))) msgs /\
              api_calls w' = api_calls w ++ calls /\ Forall status_poll calls /\
              (length msgs <= length calls)%nat /\
              length (log_entries (db w'))
              = (length (log_entries (db w)) + length msgs)%nat).
  { intros d Hu Hs Hl. cbn. repeat split; try assumption.
    exists [], [ApiRequestStatus (default 0 (overseerr_request_id request))].
    rewrite app_nil_r, Hl. cbn.
    split; [reflexivity |]. split; [constructor |]. split; [reflexivity |].
    split; [exact Hpoll |]. split; lia. }
  destruct (status_of_reply _) as [code |];
    [| exact (Hquiet (db w) eq_refl eq_refl eq_refl)].
  cbv zeta. destruct (negb _);
    [| exact (Hquiet (db w) eq_refl eq_refl eq_refl)].
  assert (Hid : r_id request = id)
    by (unfold get_request_by_id in Hget; apply find_some_id in Hget; tauto).
  destruct (map_overseerr_status_enum code) as (st & Hst & _).
  cbn [db called]. rewrite Hid, Hst.
  destruct (update_request_status_found (db w) now id st None None request Hget)
    as (d' & -> & _ & _ & Hu & Hs & Hl).
  cbn [db with_db].
  destruct (UserCRUD.get_user_by_id d' (user_id request)) as [user |] eqn:Huser;
    [| exact (Hquiet d' Hu Hs Hl)].
  destruct (auto_notifications user) eqn:Hauto; [| exact (Hquiet d' Hu Hs Hl)].
  unfold send_status_update, LogCRUD.create_log.
  cbn [db with_db sent called users settings jobs outbox api_calls log_entries
         with_log_entries].
  split; [exact Hu |]. split; [exact Hs |]. split; [reflexivity |].
  eexists [_], [_]. split; [reflexivity |]. split.
  { constructor; [| constructor]. exists user. eexists.
    split; [| split; [exact Hauto | reflexivity]].
    unfold UserCRUD.get_user_by_id in Huser. apply find_some in Huser as [Hin _].
    rewrite Hu in Hin. exact Hin. }
  split; [reflexivity |]. split; [exact Hpoll |]. split; [cbn; lia |].
  rewrite length_app, Hl. reflexivity.
Qed.

Lemma sweep_fold_frame (ovs : Overseerr) (now : Z) (ids : list Z) :
  forall w,
    let w' := fold_left (check_request_status ovs now) ids w in
    users (db w') = users (db w) /\ settings (db w') = settings (db w) /\
    jobs w' = jobs w /\
    exists msgs calls,
      outbox w' = outbox w ++ msgs /\ Forall (status_notice (users (db w))) msgs /\
      api_calls w' = api_calls w ++ calls /\ Forall status_poll calls /\
      (length msgs <= length calls)%nat /\
      length (log_entries (db w')) = (length (log_entries (db w)) + length msgs)%nat.
Proof.
  induction ids as [| id ids IH]; intros w; cbn [fold_left]; cbv zeta.
  - split; [reflexivity |]. split; [reflexivity |]. split; [reflexivity |].
    exists [], []. rewrite !app_nil_r. cbn.
    split; [reflexivity |]. split; [constructor |]. split; [reflexivity |].
    split; [constructor |]. split; lia.
  - destruct (check_request_status_frame ovs now w id)
      as (Hu & Hs & Hj & m1 & c1 & Ho1 & Hn1 & Ha1 & Hp1 & Hle1 & Hl1).
    destruct (IH (check_request_status ovs now w id))
      as (Hu2 & Hs2 & Hj2 & m2 & c2 & Ho2 & Hn2 & Ha2 & Hp2 & Hle2 & Hl2).
    cbv zeta in *. rewrite Hu in Hn2.
    split; [congruence |]. split; [congruence |]. split; [congruence |].
    exists (m1 ++ m2), (c1 ++ c2).
    rewrite Ho2, Ho1, Ha2, Ha1, Hl2, Hl1, <- !app_assoc, !length_app.
    split; [reflexivity |]. split; [apply Forall_app; split; assumption |].
    split; [reflexivity |]. split; [apply Forall_app; split; assumption |].
    split; lia.
Qed.

(** X14.  A sweep changes no user, no setting and no job and leaves the keys
    of the requests as they are.  It writes only status updates, each as a
    direct message to a user who has auto-notifications on, and logs each of
    them; it calls Overseerr only for the status of a correlation id, never
    for the id 0, and sends at most one message per call. *)
Theorem sweep_touches_requests_only (ovs : Overseerr) (now : Z) (w : World) :
  let w' := check_request_statuses ovs now w in
  users (db w') = users (db w) /\ settings (db w') = settings (db w) /\
  jobs w' = jobs w /\
  map r_id (media_requests (db w')) = map r_id (media_requests (db w)) /\
  exists msgs calls,
    outbox w' = outbox w ++ msgs /\
    Forall (fun o => exists u text,
                In u (users (db w)) /\ auto_notifications u = true /\
                o = send_message (phone_number u) text) msgs /\
    api_calls w' = api_calls w ++ calls /\
    Forall (fun c => exists oid, c = ApiRequestStatus oid /\ oid <> 0) calls /\
    (length msgs <= length calls)%nat /\
    length (log_entries (db w')) = (length (log_entries (db w)) + length msgs)%nat.
Proof.
  cbv zeta.
  destruct (sweep_fold_frame ovs now (map r_id (get_pending_requests (db w))) w)
    as (Hu & Hs & Hj & Hrest).
  split; [exact Hu |]. split; [exact Hs |]. split; [exact Hj |].
  split; [apply sweep_keys |]. exact Hrest.
Qed.

End SweepFrame.

(** ** The settings command *)

Section SettingsCommand.

Import MessageHandler.

Lemma find_id_replaced (l : list User) (u u' : User) :
  In u l -> u_id u' = u_id u ->
  find (fun x => u_id x =? u_id u) (map (fun x => if u_id x =? u_id u then u' else x) l)
  = Some u'.
Proof.
  intros Hin Hid. induction l as [| x l IH]; [destruct Hin |]. cbn [map find].
  destruct (Z.eqb_spec (u_id x) (u_id u)) as [Heq | Hne].
  - rewrite Hid, Z.eqb_refl. reflexivity.
  - destruct (Z.eqb_spec (u_id x) (u_id u)); [contradiction |].
    destruct Hin as [-> | Hin]; [contradiction | exact (IH Hin)].
Qed.

Lemma find_id_kept (l : list User) (id id' : Z) (u' : User) :
  u_id u' = id -> id' <> id ->
  find (fun x => u_id x =? id') (map (fun x => if u_id x =? id then u' else x) l)
  = find (fun x => u_id x =? id') l.
Proof.
  intros Hid Hne. induction l as [| x l IH]; [reflexivity |]. cbn [map find].
  destruct (Z.eqb_spec (u_id x) id) as [Heq | Hx].
  - rewrite Hid, Heq. destruct (Z.eqb_spec id id'); [congruence | exact IH].
  - rewrite IH. reflexivity.
Qed.

(** [update_user] for a user of the table, with keys that are distinct. *)
Lemma update_user_found (d : Database) (now : Z) (u : User)
    (kwargs : list UserCRUD.user_attr) :
  NoDup (map u_id (users d)) -> In u (users d) ->
  UserCRUD.update_user d now (u_id u) kwargs
  = let u' := UserCRUD.set_last_active (fold_left UserCRUD.set_attr kwargs u) now in
    (with_users d (map (fun x => if u_id x =? u_id u then u' else x) (users d)),
     Some u').
Proof.
  intros Hk Hin. unfold UserCRUD.update_user.
  rewrite (get_user_by_id_unique d u Hk Hin). reflexivity.
Qed.

Lemma VerbosityLevel_of_value (v : VerbosityLevel) :
  VerbosityLevel_of (VerbosityLevel_value v) = Some v.
Proof. destruct v; reflexivity. Qed.

(** X15.  The settings command with a setting and a value answers once and
    stores what it confirms: after [notifications on] or [off], and after
    [verbosity] with a level, in any case of letters, the account read back
    by its key has the new flag or level, the last activity stamped, and
    every other column as before; no other account changes.  Once the flag
    is off, a sweep sends nothing to the number of the account. *)
Theorem settings_command_takes_effect
    (user : User) (kind value : string) (rest : list string)
    (m : SignalMessage) (now : Z) (w : World)
    (Hkeys : NoDup (map u_id (users (db w))))
    (Hphones : NoDup (map phone_number (users (db w))))
    (Huser : In user (users (db w))) :
  let w' := (handle_settings user (kind :: value :: rest) m now w).1 in
  (exists text, outbox w' = outbox w ++ [reply m (phone_number user) text]) /\
  media_requests (db w') = media_requests (db w) /\
  settings (db w') = settings (db w) /\
  (forall id, id <> u_id user ->
     UserCRUD.get_user_by_id (db w') id = UserCRUD.get_user_by_id (db w) id) /\
  (forall b : bool,
     Text.lower kind = "notifications" ->
     Text.lower value = (if b then "on" else "off") ->
     UserCRUD.get_user_by_id (db w') (u_id user)
     = Some (UserCRUD.set_last_active
               (UserCRUD.set_attr user (UserCRUD.attr_auto_notifications b)) now)) /\
  (forall v : VerbosityLevel,
     Text.lower kind = "verbosity" ->
     Text.lower value = VerbosityLevel_value v ->
     UserCRUD.get_user_by_id (db w') (u_id user)
     = Some (UserCRUD.set_last_active
               (UserCRUD.set_attr user (UserCRUD.attr_verbosity_level v)) now)) /\
  (Text.lower kind = "notifications" -> Text.lower value = "off" ->
   forall ovs now2,
   exists msgs,
     outbox (SignalerrBot.check_request_statuses ovs now2 w') = outbox w' ++ msgs /\
     Forall (fun o => forall text, o <> send_message (phone_number user) text) msgs).
Proof.
  intros w'.
  assert (Hupd : forall a,
    let u' := UserCRUD.set_last_active (UserCRUD.set_attr user a) now in
    u_id u' = u_id user ->
    forall text,
    w' = send_response
           (with_db w (UserCRUD.update_user (db w) now (u_id user) [a]).1)
           (phone_number user) text (Some m) ->
    (exists text, outbox w' = outbox w ++ [reply m (phone_number user) text]) /\
    media_requests (db w') = media_requests (db w) /\
    settings (db w') = settings (db w) /\
    (forall id, id <> u_id user ->
       UserCRUD.get_user_by_id (db w') id = UserCRUD.get_user_by_id (db w) id) /\
    UserCRUD.get_user_by_id (db w') (u_id user) = Some u' /\
    users (db w') = map (fun x => if u_id x =? u_id user then u' else x) (users (db w))).
  { intros a u' Hid text ->. rewrite send_response_reply.
    rewrite (update_user_found (db w) now user [a] Hkeys Huser).
    cbn [fst db sent with_db outbox media_requests settings with_users users fold_left].
    fold u'. split; [eauto |]. split; [reflexivity |]. split; [reflexivity |].
    split; [| split; [| reflexivity]].
    - intros id Hne. unfold UserCRUD.get_user_by_id. cbn [users].
      apply find_id_kept; [exact Hid | exact Hne].
    - unfold UserCRUD.get_user_by_id. cbn [users].
      apply find_id_replaced; [exact Huser | exact Hid]. }
  assert (Hnone : forall text,
    w' = send_response w (phone_number user) text (Some m) ->
    (exists text, outbox w' = outbox w ++ [reply m (phone_number user) text]) /\
    db w' = db w).
  { intros text ->. rewrite send_response_reply. split; [eauto | reflexivity]. }
  subst w'. unfold handle_settings in *. cbn [fst] in *.
  destruct (String.eqb (Text.lower kind) "verbosity") eqn:Hkv.
  - apply String.eqb_eq in Hkv.
    destruct (VerbosityLevel_of (Text.lower value)) as [v |] eqn:Hv; cbn [fst] in *.
    + destruct (Hupd (UserCRUD.attr_verbosity_level v) eq_refl _ eq_refl)
        as (Ho & Hr & Hs & Hother & Hself & _).
      split; [exact Ho |]. split; [exact Hr |]. split; [exact Hs |].
      split; [exact Hother |]. split; [intros b Hk; congruence |].
      split; [| intros Hk; congruence].
      intros v' _ Hv'. rewrite Hv', VerbosityLevel_of_value in Hv.
      injection Hv as <-. exact Hself.
    + destruct (Hnone _ eq_refl) as (Ho & Hd).
      split; [exact Ho |]. rewrite Hd. split; [reflexivity |]. split; [reflexivity |].
      split; [reflexivity |]. split; [intros b Hk; congruence |].
      split; [| intros Hk; congruence].
      intros v' _ Hv'. rewrite Hv', VerbosityLevel_of_value in Hv. discriminate.
  - destruct (String.eqb (Text.lower kind) "notifications") eqn:Hkn.
    + apply String.eqb_eq in Hkn.
      destruct (bool_decide (Text.lower value ∈ ["on"; "off"])) eqn:Hin; cbn [fst] in *.
      * destruct (Hupd (UserCRUD.attr_auto_notifications
                          (String.eqb (Text.lower value) "on")) eq_refl _ eq_refl)
          as (Ho & Hr & Hs & Hother & Hself & Husers).
        split; [exact Ho |]. split; [exact Hr |]. split; [exact Hs |].
        split; [exact Hother |]. split.
        { intros b _ Hb. rewrite Hself, Hb. destruct b; reflexivity. }
        split; [intros v Hk; rewrite Hk in Hkv; discriminate |].
        intros _ Hoff ovs now2.
        match goal with
        | |- context [SignalerrBot.check_request_statuses ovs now2 ?w0] =>
            destruct (sweep_fold_frame ovs now2
                        (map r_id (MediaRequestCRUD.get_pending_requests (db w0))) w0)
              as (_ & _ & _ & msgs & calls & Hout & Hnot & _)
        end.
        exists msgs. split; [exact Hout |].
        eapply Forall_impl; [exact Hnot |].
        intros o (u & t & Hu & Hauto & ->) text [= Hp _].
        rewrite Husers, Hoff in Hu. apply in_map_iff in Hu as (x & Hx & Hxin).
        destruct (Z.eqb_spec (u_id x) (u_id user)) as [_ | Hne].
        -- subst u. discriminate Hauto.
        -- subst u. apply Hne. f_equal.
           eapply (NoDup_map_In_inj phone_number); eauto.
      * destruct (Hnone _ eq_refl) as (Ho & Hd).
        split; [exact Ho |]. rewrite Hd. split; [reflexivity |].
        split; [reflexivity |]. split; [reflexivity |].
        apply bool_decide_eq_false in Hin.
        split; [| split; [intros v Hk; rewrite Hk in Hkv; discriminate |]].
        -- intros b _ Hb. exfalso. apply Hin. rewrite Hb.
           rewrite !elem_of_cons. destruct b; auto.
        -- intros _ Hoff. exfalso. apply Hin. rewrite Hoff.
           rewrite !elem_of_cons. auto.
    + destruct (Hnone _ eq_refl) as (Ho & Hd).
      split; [exact Ho |]. rewrite Hd. split; [reflexivity |].
      split; [reflexivity |]. split; [reflexivity |].
      split; [intros b Hk; rewrite Hk in Hkn; discriminate |].
      split; [intros v Hk; rewrite Hk in Hkv; discriminate |].
      intros Hk; rewrite Hk in Hkn; discriminate.
Qed.

(** Bob turns his notifications off; a sweep then finds his request being
    downloaded. *)
Lemma settings_command_takes_effect_witness :
  let m := Sample.text_from "+15550002" "settings Notifications OFF" in
  let w := Sample.world [Sample.dune APPROVED] in
  let w' := (handle_settings Sample.bob ["Notifications"; "OFF"] m 5000 w).1 in
  UserCRUD.get_user_by_id (db w') 2
  = Some (UserCRUD.set_last_active
            (UserCRUD.set_attr Sample.bob (UserCRUD.attr_auto_notifications false))
            5000) /\
  exists msgs,
    outbox (SignalerrBot.check_request_statuses (Sample.overseerr (Created None) 4)
              6000 w')
    = outbox w' ++ msgs /\
    Forall (fun o => forall text, o <> send_message "+15550002" text) msgs.
Proof.
  intros m w w'.
  assert (Hk : NoDup (map u_id (users (db w))))
    by (apply (bool_decide_unpack _); vm_compute; exact I).
  assert (Hp : NoDup (map phone_number (users (db w))))
    by (apply (bool_decide_unpack _); vm_compute; exact I).
  assert (Hu : In Sample.bob (users (db w))) by (simpl; auto).
  pose proof (settings_command_takes_effect Sample.bob "Notifications" "OFF" [] m
                5000 w Hk Hp Hu) as (_ & _ & _ & _ & Hflag & _ & Hquiet).
  split; [exact (Hflag false eq_refl eq_refl) |].
  exact (Hquiet eq_refl eq_refl (Sample.overseerr (Created None) 4) 6000).
Defined.

End SettingsCommand.

(** ** A best match that cannot be stored *)

Section UnusableMatch.

Import MediaRequestCRUD MessageHandler.

Lemma create_request_raises (d : Database) (now uid : Z) (mtype : string) (mid : Z)
    (ttl : option string) (yr : option Z) (k : bool) (seasons : option (list Z)) :
  MediaType_of mtype = None \/ ttl = None <->
  exists e, create_request d now uid mtype mid ttl yr k seasons = Raise e.
Proof.
  unfold create_request. split.
  - intros [-> | ->]; [eauto |]. destruct (MediaType_of mtype); eauto.
  - intros [e He]. destruct (MediaType_of mtype); [| auto].
    destruct ttl; [discriminate | auto].
Qed.

(** X16.  A best match that Overseerr does not hold available and that has
    no title, or a media type other than movie and tv (a person, say), is
    looked up but never requested: no row is stored and nothing is posted.
    The search notice and the error reply go to the user's number, or to the
    group the message came from, and each admin number gets one report. *)
Theorem unusable_match_is_reported
    (ovs : Overseerr) (now : Z) (user : User) (query : string) (m : SignalMessage)
    (w : World) (best : MediaData) (others : list MediaData) (info : MediaInfo)
    (Hquota : can_make_request user (db w) now = true)
    (Hsearch : search_media ovs query = best :: others)
    (Hparse : OverseerrAPI.parse_media_info best = Ok info)
    (Hfresh : OverseerrAPI.is_media_available ovs (mi_tmdb_id info) = false)
    (Hbad : MediaType_of (mi_media_type info) = None \/ mi_title info = None) :
  let w' := process_media_request ovs now user query m w in
  let phone := phone_number user in
  media_requests (db w') = media_requests (db w) /\
  api_calls w' = api_calls w ++ [ApiSearch query; ApiMediaStatus (mi_tmdb_id info)] /\
  jobs w' = jobs w /\
  exists report,
    outbox w' =
    outbox w ++
      [reply m phone ("🔍 Searching for '" +:+ query +:+ "'...");
       reply m phone
         "❌ An error occurred while processing your request. Please try again."] ++
      map (fun p => send_message p report) (admin_phones (db w)).
Proof.
  cbv zeta. unfold process_media_request.
  rewrite Hquota. cbn [negb]. rewrite Hsearch, Hparse, Hfresh.
  cbn [db called].
  rewrite db_send_response.
  apply (create_request_raises (db w) now (u_id user) (mi_media_type info)
           (mi_tmdb_id info) (mi_title info) (mi_year info) false
           (if String.eqb (mi_media_type info) "tv"
            then determine_seasons_to_request info query else None)) in Hbad.
  destruct Hbad as [e ->].
  unfold request_failed, send_error_to_admins.
  rewrite !send_response_world. cbn [db called sent].
  match goal with
  | |- context [fold_left (fun w p => sent w (send_message p ?t)) ?l ?w0] =>
      destruct (fan_out t l w0) as (Ho & Hd & Ha & Hj)
  end.
  cbv zeta in Ho, Hd, Ha, Hj. rewrite Ho, Hd, Ha, Hj.
  cbn [outbox db api_calls jobs sent called].
  split; [reflexivity |]. split; [rewrite <- app_assoc; reflexivity |].
  split; [reflexivity |].
  eexists. rewrite <- !app_assoc. reflexivity.
Qed.

(** The search finds a person first. *)
Lemma unusable_match_is_reported_witness :
  let person :=
    {| md_id := 287; md_title := None; md_name := Some "Brad Pitt";
       md_mediaType := Some "person"; md_releaseDate := None;
       md_firstAirDate := None; md_numberOfSeasons := None |} in
  let ovs :=
    {| search_media := fun _ => [person; Sample.inception];
       get_media_status := fun _ => NoReply;
       post_movie := fun _ => Created (Some 7);
       post_tv := fun _ _ => Created (Some 7);
       get_request_status := fun _ => NoReply |} in
  let m := Sample.text_from "+15550001" "Brad Pitt" in
  let w' := process_media_request ovs 5000 Sample.alice "Brad Pitt" m (Sample.world []) in
  media_requests (db w') = [] /\
  api_calls w' = [ApiSearch "Brad Pitt"; ApiMediaStatus 287] /\
  length (outbox w') = 3%nat.
Proof.
  intros person ovs m w'.
  assert (Hq : can_make_request Sample.alice (db (Sample.world [])) 5000 = true)
    by reflexivity.
  assert (Hs : search_media ovs "Brad Pitt" = [person; Sample.inception])
    by reflexivity.
  assert (Hp : OverseerrAPI.parse_media_info person
               = Ok {| mi_tmdb_id := 287; mi_title := Some "Brad Pitt";
                       mi_year := None; mi_media_type := "person";
                       mi_seasons := None |}) by reflexivity.
  pose proof (unusable_match_is_reported ovs 5000 Sample.alice "Brad Pitt" m
                (Sample.world []) person [Sample.inception] _ Hq Hs Hp eq_refl
                (or_introl eq_refl)) as (Hr & Hc & _ & report & Ho).
  split; [exact Hr |]. split; [exact Hc |].
  fold w' in Ho. rewrite Ho. vm_compute. reflexivity.
Defined.

End UnusableMatch.

(** ** Settings *)

Section StoredSettings.

Import SignalerrBot.

Lemma digits_no_space (d : string) : Text.all_digits d = true -> Text.no_space d = true.
Proof.
  induction d as [| a d IH]; [reflexivity |]. simpl. intros H.
  apply andb_true_iff in H as [Ha Hd].
  rewrite (digit_is_no_space a Ha), IH by exact Hd. reflexivity.
Qed.

Lemma rstrip_no_space (s : string) : Text.no_space s = true -> Text.rstrip s = s.
Proof.
  induction s as [| a s IH]; [reflexivity |]. simpl. intros H.
  apply andb_true_iff in H as [Ha Hs]. apply negb_true_iff in Ha.
  rewrite IH by exact Hs. destruct s; [rewrite Ha |]; reflexivity.
Qed.

Lemma strip_no_space (a : ascii) (s : string) :
  Text.no_space (String a s) = true -> Text.strip (String a s) = String a s.
Proof.
  intros H. unfold Text.strip.
  assert (Ha : Text.is_space a = false)
    by (simpl in H; apply andb_true_iff in H as [Ha _];
        apply negb_true_iff in Ha; exact Ha).
  cbn [Text.lstrip]. rewrite Ha. apply rstrip_no_space. exact H.
Qed.

Lemma numeral_all_digits (d : string) :
  Text.all_digits d = true -> Text.numeral_digits true d = Some d.
Proof.
  induction d as [| a d IH]; [reflexivity |]. simpl. intros H.
  apply andb_true_iff in H as [Ha Hd]. rewrite Ha, IH by exact Hd. reflexivity.
Qed.

Lemma numeral_digits_first (a : ascii) (d : string) :
  Text.all_digits (String a d) = true ->
  Text.numeral_digits false (String a d) = Some (String a d).
Proof.
  simpl. intros H. apply andb_true_iff in H as [Ha Hd].
  rewrite Ha, numeral_all_digits by exact Hd. reflexivity.
Qed.

(** [int] reads a string of digits as its number. *)
Lemma py_int_digits (a : ascii) (d : string) :
  Text.all_digits (String a d) = true ->
  Text.py_int (String a d) = Some (Text.int_of_digits (String a d)).
Proof.
  intros H. unfold Text.py_int.
  rewrite (strip_no_space a d (digits_no_space _ H)).
  pose proof (numeral_digits_first _ _ H) as Hnum.
  assert (Ha : Text.is_digit a = true)
    by (simpl in H; apply andb_true_iff in H; tauto).
  destruct a as [[] [] [] [] [] [] [] []]; try discriminate Ha;
    rewrite Hnum; reflexivity.
Qed.

(** [int(str(n))] is [n]. *)
Lemma py_int_pretty (n : Z) : Text.py_int (pretty n) = Some n.
Proof.
  destruct n as [| p | p].
  - reflexivity.
  - destruct (pretty_N_digits (N.pos p)) as (a & d & Hp & Hall & Hval).
    change (pretty (Z.pos p)) with (pretty (N.pos p)).
    rewrite Hp, (py_int_digits a d Hall), Hval. reflexivity.
  - destruct (pretty_N_digits (N.pos p)) as (a & d & Hp & Hall & Hval).
    change (pretty (Z.neg p)) with ("-" +:+ pretty (N.pos p)).
    rewrite Hp. unfold Text.py_int.
    change ("-" +:+ String a d) with (String "-" (String a d)).
    rewrite strip_no_space
      by (change (Text.no_space (String "-" (String a d)))
            with (Text.no_space (String a d));
          apply digits_no_space; exact Hall).
    rewrite (numeral_digits_first _ _ Hall). cbn [fmap option_fmap option_map].
    rewrite Hval. reflexivity.
Qed.

Lemma settings_fold_other (items : list (string * string)) (d : Database) (k : string) :
  ~ In k (map fst items) ->
  settings (SettingsCRUD.update_multiple_settings d items) !! k = settings d !! k.
Proof.
  unfold SettingsCRUD.update_multiple_settings.
  revert d. induction items as [| [k0 v0] items IH]; intros d Hk; [reflexivity |].
  cbn [fold_left fst snd]. rewrite IH by (intros H; apply Hk; right; exact H).
  cbn. apply lookup_insert_ne. intros ->. apply Hk. left. reflexivity.
Qed.

Lemma settings_fold_item (items : list (string * string)) (d : Database)
    (k v : string) :
  NoDup (map fst items) -> In (k, v) items ->
  settings (SettingsCRUD.update_multiple_settings d items) !! k = Some v.
Proof.
  revert d. induction items as [| [k0 v0] items IH]; intros d Hnd Hin; [destruct Hin |].
  cbn [map fst] in Hnd. apply NoDup_cons in Hnd as [Hfresh Hnd].
  destruct Hin as [[= -> ->] | Hin].
  - change (SettingsCRUD.update_multiple_settings d ((k, v) :: items))
      with (SettingsCRUD.update_multiple_settings (SettingsCRUD.set_setting d k v) items).
    rewrite settings_fold_other
      by (intros H; apply Hfresh, list_elem_of_In; exact H).
    cbn. apply lookup_insert_eq.
  - apply (IH (SettingsCRUD.set_setting d k0 v0) Hnd Hin).
Qed.

Lemma settings_fold_frame (items : list (string * string)) (d : Database) :
  users (SettingsCRUD.update_multiple_settings d items) = users d /\
  media_requests (SettingsCRUD.update_multiple_settings d items) = media_requests d /\
  log_entries (SettingsCRUD.update_multiple_settings d items) = log_entries d.
Proof.
  unfold SettingsCRUD.update_multiple_settings.
  revert d. induction items as [| [k0 v0] items IH]; intros d; [repeat split |].
  cbn [fold_left fst snd].
  destruct (IH (SettingsCRUD.set_setting d k0 v0)) as (-> & -> & ->).
  repeat split.
Qed.

(** X17.  Settings stored at once, under keys that are distinct, are read
    back each with its value, whatever the default asked for; every other
    setting reads as before and no other table changes.  A timeout stored as
    the decimal text of a number is read as that number both by the default
    delay of the one-shot check and by the skip rule of the sweep. *)
Theorem stored_settings_are_read_back
    (d : Database) (items : list (string * string))
    (Hkeys : NoDup (map fst items)) :
  let d' := SettingsCRUD.update_multiple_settings d items in
  (forall k v dflt, In (k, v) items -> get_setting d' k dflt = v) /\
  (forall k dflt, ~ In k (map fst items) -> get_setting d' k dflt = get_setting d k dflt) /\
  users d' = users d /\ media_requests d' = media_requests d /\
  log_entries d' = log_entries d /\
  (forall n : Z,
     In ("request_timeout_minutes", pretty n) items ->
     requested_delay d' None = Some n /\
     forall now r,
       just_created d' now r
       = bool_decide (status r = PENDING) && (now - created_at r <? 60 * n)).
Proof.
  intros d'. subst d'.
  split; [| split; [| split; [| split; [| split]]]];
    try apply settings_fold_frame.
  - intros k v dflt Hin. unfold get_setting.
    rewrite (settings_fold_item items d k v Hkeys Hin). reflexivity.
  - intros k dflt Hk. unfold get_setting.
    rewrite (settings_fold_other items d k Hk). reflexivity.
  - intros n Hin.
    assert (Hget : get_setting (SettingsCRUD.update_multiple_settings d items)
                     "request_timeout_minutes" "2" = pretty n).
    { unfold get_setting. rewrite (settings_fold_item items d _ _ Hkeys Hin).
      reflexivity. }
    split.
    + unfold requested_delay. rewrite Hget. apply py_int_pretty.
    + intros now r. unfold just_created. rewrite Hget, py_int_pretty.
      destruct (decide (status r = PENDING)) as [Hs | Hs].
      * rewrite (bool_decide_eq_true_2 _ Hs). reflexivity.
      * rewrite (bool_decide_eq_false_2 _ Hs). reflexivity.
Qed.

(** The settings page stores a timeout of 15 minutes and switches the
    maintenance mode off. *)
Lemma stored_settings_are_read_back_witness :
  let items := [("request_timeout_minutes", pretty 15); ("maintenance_mode", "false")] in
  let d' := SettingsCRUD.update_multiple_settings (Sample.database []) items in
  get_setting d' "maintenance_mode" "true" = "false" /\
  get_setting d' "admin_phone_numbers" "" = "+15550002" /\
  requested_delay d' None = Some 15.
Proof.
  intros items d'.
  assert (Hk : NoDup (map fst items))
    by (apply (bool_decide_unpack _); vm_compute; exact I).
  pose proof (stored_settings_are_read_back (Sample.database []) items Hk)
    as (Hitem & Hother & _ & _ & _ & Htimeout).
  split; [apply Hitem; simpl; auto |].
  split.
  - rewrite Hother; [vm_compute; reflexivity |].
    simpl. intros [H | [H | []]]; discriminate H.
  - apply (Htimeout 15). simpl. auto.
Defined.

End StoredSettings.

(** ** Listings of requests *)

Section Listings.

Import MediaRequestCRUD.

Lemma insert_desc_perm (r : MediaRequest) (l : list MediaRequest) :
  insert_desc r l ≡ₚ r :: l.
Proof.
  induction l as [| x l IH]; [reflexivity |]. cbn [insert_desc].
  destruct (created_at x <=? created_at r); [reflexivity |].
  rewrite IH. apply Permutation_swap.
Qed.

Lemma insert_desc_sorted (r : MediaRequest) (l : list MediaRequest) :
  StronglySorted newer l -> StronglySorted newer (insert_desc r l).
Proof.
  induction l as [| x l IH]; intros Hs; cbn [insert_desc].
  - constructor; constructor.
  - apply StronglySorted_cons in Hs as [Hx Hl].
    destruct (Z.leb_spec (created_at x) (created_at r)) as [Hle | Hlt].
    + apply StronglySorted_cons. split.
      * constructor; [exact Hle |].
        eapply Forall_impl; [exact Hx |]. unfold newer. intros y Hy. lia.
      * apply StronglySorted_cons. auto.
    + apply StronglySorted_cons. split; [| apply IH; exact Hl].
      rewrite insert_desc_perm. constructor; [unfold newer; lia | exact Hx].
Qed.

Lemma order_by_perm (l : list MediaRequest) : order_by_created_at_desc l ≡ₚ l.
Proof.
  induction l as [| x l IH]; [reflexivity |].
  cbn [order_by_created_at_desc fold_right].
  rewrite insert_desc_perm. f_equiv. exact IH.
Qed.

Lemma order_by_sorted (l : list MediaRequest) :
  StronglySorted newer (order_by_created_at_desc l).
Proof.
  induction l as [| x l IH]; [constructor |].
  cbn [order_by_created_at_desc fold_right]. apply insert_desc_sorted. exact IH.
Qed.

Lemma take_newest (k : nat) (l : list MediaRequest) :
  StronglySorted newer l ->
  StronglySorted newer (take k l) /\
  (forall x y, In x (take k l) -> In y (drop k l) -> newer x y).
Proof.
  intros Hs. rewrite <- (take_drop k l) in Hs at 1.
  apply StronglySorted_app in Hs as (Hcross & Ht & _).
  split; [exact Ht |]. intros x y Hx Hy.
  apply Hcross; apply list_elem_of_In; assumption.
Qed.

(** X18.  [get_user_requests] raises exactly for a status text that is not
    empty and not of the enumeration.  Otherwise it lists requests of the
    table that belong to the user and, for a status text, have that status,
    the newest first.  Without a limit, and with the limit 0, these are all
    of them; with a limit [p] they are the [p] newest, or all if there are
    fewer: no request left out is newer than one that is listed. *)
Theorem user_requests_newest_first
    (d : Database) (uid : Z) (status_text : option string) (limit : option N) :
  let wanted (r : MediaRequest) : Prop :=
    user_id r = uid /\
    (truthy_str status_text = true ->
     RequestStatus_of (default "" status_text) = Some (status r)) in
  match get_user_requests d uid status_text limit with
  | Raise _ =>
      truthy_str status_text = true /\ RequestStatus_of (default "" status_text) = None
  | Ok rows =>
      (truthy_str status_text = true ->
       is_Some (RequestStatus_of (default "" status_text))) /\
      Forall (fun r => In r (media_requests d) /\ wanted r) rows /\
      StronglySorted (fun a b => created_at b <= created_at a) rows /\
      exists left_out,
        rows ++ left_out ≡ₚ filter wanted (media_requests d) /\
        (forall x y, In x rows -> In y left_out -> created_at y <= created_at x) /\
        match limit with
        | Some (Npos p) =>
            length rows = Nat.min (Pos.to_nat p) (length (rows ++ left_out))
        | _ => left_out = []
        end
  end.
Proof.
  intros wanted. unfold get_user_requests.
  set (owned := filter (fun r => user_id r = uid) (media_requests d)).
  assert (Hrows : forall rows,
    rows ≡ₚ filter wanted (media_requests d) ->
    Forall (fun r => In r (media_requests d) /\ wanted r)
      (limited limit (order_by_created_at_desc rows)) /\
    StronglySorted newer (limited limit (order_by_created_at_desc rows)) /\
    exists left_out,
      limited limit (order_by_created_at_desc rows) ++ left_out
      ≡ₚ filter wanted (media_requests d) /\
      (forall x y, In x (limited limit (order_by_created_at_desc rows)) ->
                   In y left_out -> created_at y <= created_at x) /\
      match limit with
      | Some (Npos p) =>
          length (limited limit (order_by_created_at_desc rows))
          = Nat.min (Pos.to_nat p)
              (length (limited limit (order_by_created_at_desc rows) ++ left_out))
      | _ => left_out = []
      end).
  { intros rows Hperm.
    pose proof (order_by_sorted rows) as Hsorted.
    assert (Hp : order_by_created_at_desc rows ≡ₚ filter wanted (media_requests d))
      by (etrans; [apply order_by_perm | exact Hperm]).
    set (sorted := order_by_created_at_desc rows) in *.
    assert (Hall : Forall (fun r => In r (media_requests d) /\ wanted r) sorted).
    { apply Forall_forall. intros r Hr. rewrite Hp in Hr.
      apply list_elem_of_filter in Hr as [Hw Hin].
      split; [apply list_elem_of_In; exact Hin | exact Hw]. }
    destruct limit as [[| p] |]; cbn [limited].
    1, 3: split; [exact Hall |]; split; [exact Hsorted |]; exists [];
          rewrite app_nil_r; split; [exact Hp |]; split; [intros x y _ [] | reflexivity].
    destruct (take_newest (Pos.to_nat p) sorted Hsorted) as [Hs Hcross].
    split; [apply Forall_take; exact Hall |]. split; [exact Hs |].
    exists (drop (Pos.to_nat p) sorted). rewrite take_drop.
    split; [exact Hp |]. split; [exact Hcross |].
    rewrite length_take. reflexivity. }
  destruct (truthy_str status_text) eqn:Htruthy.
  - destruct (RequestStatus_of (default "" status_text)) as [st |] eqn:Hst.
    + split; [eauto |]. apply Hrows. subst owned.
      rewrite list_filter_filter.
      erewrite list_filter_iff; [reflexivity |]. intros r. subst wanted. cbn.
      split; [intros [Hs Hu]; split; [exact Hu | intros _; congruence]
             | intros [Hu Hs]; split; [specialize (Hs eq_refl); congruence | exact Hu]].
    + split; reflexivity.
  - split; [discriminate |]. apply Hrows. subst owned.
    erewrite list_filter_iff; [reflexivity |]. intros r. subst wanted. cbn.
    split; [intros Hu; split; [exact Hu | discriminate] | tauto].
Qed.

End Listings.

(** ** New accounts *)

Section NewAccounts.

Import MessageHandler.

Lemma next_user_id_fresh (d : Database) (u : User) :
  In u (users d) -> u_id u < UserCRUD.next_user_id d.
Proof.
  unfold UserCRUD.next_user_id. induction (users d) as [| x l IH]; simpl; [tauto |].
  intros [-> | H]; [lia |]. specialize (IH H). lia.
Qed.

Lemma find_phone_new (l : list User) (u : User) :
  find (fun x => String.eqb (phone_number x) (phone_number u)) l = None ->
  find (fun x => String.eqb (phone_number x) (phone_number u)) (l ++ [u]) = Some u.
Proof.
  induction l as [| x l IH]; cbn [find app].
  - rewrite String.eqb_refl. reflexivity.
  - destruct (String.eqb (phone_number x) (phone_number u)); [discriminate | exact IH].
Qed.

Lemma NoDup_snoc_fresh {A B : Type} (f : A -> B) (l : list A) (x : A) :
  (forall y, In y l -> f y <> f x) -> NoDup (map f l) -> NoDup (map f (l ++ [x])).
Proof.
  intros Hfresh Hnd. rewrite map_app. apply NoDup_app.
  split; [exact Hnd |]. split; [| apply NoDup_singleton].
  intros b Hb [-> | Hin]%elem_of_cons; [| inversion Hin].
  apply list_elem_of_In, in_map_iff in Hb as (y & Hy & Hin).
  exact (Hfresh y Hin Hy).
Qed.

(** X19.  For a number that no account has, the adduser command appends one
    account, with a key and a number that no other account has, no admin
    rights and the defaults of the table: active, simple verbosity,
    auto-notifications on, ten requests a day, and as display name the words
    after the number joined by blanks, if there are any.  The number then
    resolves to the account.  The admin is answered where the command came
    from; the welcome goes to the new number directly, also when the command
    came from a group. *)
Theorem added_user_is_known
    (admin : User) (phone : string) (names : list string)
    (m : SignalMessage) (now : Z) (w : World)
    (Hnew : UserCRUD.get_user_by_phone (db w) phone = None) :
  let w' := (handle_add_user admin (phone :: names) m now w).1 in
  exists u text,
    users (db w') = users (db w) ++ [u] /\
    UserCRUD.get_user_by_phone (db w') phone = Some u /\
    phone_number u = phone /\
    is_admin u = false /\ is_active u = true /\ verbosity_level u = SIMPLE /\
    auto_notifications u = true /\ daily_request_limit u = 10 /\
    u_created_at u = now /\
    display_name u = match names with
                     | [] => None
                     | _ => Some (Text.join " " names)
                     end /\
    (forall x, In x (users (db w)) ->
               u_id x <> u_id u /\ phone_number x <> phone_number u) /\
    (NoDup (map u_id (users (db w))) -> NoDup (map u_id (users (db w')))) /\
    (NoDup (map phone_number (users (db w))) ->
     NoDup (map phone_number (users (db w')))) /\
    media_requests (db w') = media_requests (db w) /\
    settings (db w') = settings (db w) /\
    outbox w' = outbox w ++ [reply m (phone_number admin) ("✅ Added user: " +:+ phone);
                             send_message phone text].
Proof.
  intros w'. subst w'. unfold handle_add_user. rewrite Hnew.
  unfold UserCRUD.create_user. rewrite Hnew. cbn [fst].
  rewrite send_response_reply.
  set (u := {| u_id := UserCRUD.next_user_id (db w); phone_number := phone;
               display_name := _; is_admin := false; is_active := true;
               verbosity_level := SIMPLE; auto_notifications := true;
               daily_request_limit := 10; u_created_at := now;
               last_active := now |}).
  assert (Hfresh : forall x, In x (users (db w)) ->
                     u_id x <> u_id u /\ phone_number x <> phone_number u).
  { intros x Hx. split.
    - apply next_user_id_fresh in Hx. cbn. lia.
    - intros Hp. unfold UserCRUD.get_user_by_phone in Hnew.
      apply (find_none _ _ Hnew) in Hx. cbn in Hp. rewrite Hp, String.eqb_refl in Hx.
      discriminate. }
  exists u. eexists.
  cbn [db sent with_db users with_users outbox media_requests settings].
  split; [reflexivity |]. split; [exact (find_phone_new (users (db w)) u Hnew) |].
  split; [reflexivity |]. split; [reflexivity |]. split; [reflexivity |].
  split; [reflexivity |]. split; [reflexivity |]. split; [reflexivity |].
  split; [reflexivity |].
  split; [destruct names; reflexivity |]. split; [exact Hfresh |].
  split; [apply NoDup_snoc_fresh; intros y Hy; apply Hfresh; exact Hy |].
  split; [apply NoDup_snoc_fresh; intros y Hy; apply Hfresh; exact Hy |].
  split; [reflexivity |]. split; [reflexivity |].
  rewrite <- app_assoc. reflexivity.
Qed.

(** Bob adds Carol from a group chat. *)
Lemma added_user_is_known_witness :
  let m := {| source := "+15550002"; source_number := "+15550002";
              message := Some "adduser +15550003 Carol Ann";
              is_group_message := true; group_id := Some "family" |} in
  let w' := (handle_add_user Sample.bob ["+15550003"; "Carol"; "Ann"] m 5000
               (Sample.world [])).1 in
  exists u text,
    UserCRUD.get_user_by_phone (db w') "+15550003" = Some u /\
    u_id u = 3 /\ display_name u = Some "Carol Ann" /\
    outbox w' = [send_message_to_group (Some "family") "✅ Added user: +15550003";
                 send_message "+15550003" text].
Proof.
  intros m w'.
  destruct (added_user_is_known Sample.bob "+15550003" ["Carol"; "Ann"] m 5000
              (Sample.world []) eq_refl)
    as (u & text & Hu & Hfound & _ & _ & _ & _ & _ & _ & _ & Hname & _ & _ & _ & _ & _
        & Hout).
  exists u, text. split; [exact Hfound |].
  split; [| split; [exact Hname | exact Hout]].
  cbn in Hu. apply (f_equal (fun l => nth 2 l Sample.alice)) in Hu. cbn in Hu.
  rewrite <- Hu. reflexivity.
Defined.

End NewAccounts.

(** ** The request verb *)

Section RequestVerb.

Import MessageHandler.

Lemma split_go_word (p rest cur : string) :
  Text.no_space p = true ->
  Text.split_go cur (p +:+ rest) = Text.split_go (cur +:+ p) rest.
Proof.
  revert cur. induction p as [| a p IH]; intros cur Hp.
  - rewrite append_nil_r. reflexivity.
  - simpl in Hp. apply andb_true_iff in Hp as [Ha Hp]. apply negb_true_iff in Ha.
    rewrite append_cons. cbn [Text.split_go]. rewrite Ha.
    rewrite (IH _ Hp), append_snoc. reflexivity.
Qed.

(** Words joined by blanks split into the same words. *)
Lemma split_join (ws : list string) :
  Forall (fun t => Text.no_space t = true /\ t <> "") ws ->
  Text.split (Text.join " " ws) = ws.
Proof.
  unfold Text.split. induction ws as [| p ws IH]; intros Hws; [reflexivity |].
  apply Forall_cons in Hws as [[Hp Hne] Hws].
  destruct ws as [| q ws].
  - cbn [Text.join]. rewrite <- (append_nil_r p) at 1.
    rewrite (split_go_word p "" "" Hp). cbn. destruct p; [congruence | reflexivity].
  - change (Text.join " " (p :: q :: ws))
      with (p +:+ String " " (Text.join " " (q :: ws))).
    rewrite (split_go_word p _ "" Hp). cbn [String.append Text.split_go].
    change (Text.is_space " ") with true. cbn iota.
    rewrite (IH Hws). destruct p; [congruence | reflexivity].
Qed.

Lemma parse_command_words (text command : string) (args : list string) :
  parse_command text = (command, args) ->
  Forall (fun t => Text.no_space t = true /\ t <> "") args.
Proof.
  unfold parse_command.
  pose proof (split_go_words (Text.strip text) "" eq_refl) as Hw.
  fold (Text.split (Text.strip text)) in Hw.
  destruct (Text.split (Text.strip text)) as [| p rest]; intros [= <- <-].
  - constructor.
  - apply Forall_cons in Hw as [_ Hw]. exact Hw.
Qed.

(** X20.  A known user's message with the verb [request], outside
    maintenance, is answered with the usage note when no word follows the
    verb; otherwise the words after the verb, joined by single blanks, go to
    the request flow as the query.  The query has the same words as the
    message had after the verb: only the white space between them is
    normalised, the case of the letters is kept. *)
Theorem request_verb_passes_words
    (handlers : string -> handler) (ovs : Overseerr) (now : Z)
    (m : SignalMessage) (w : World) (user : User) (text : string)
    (args : list string)
    (Hget : get_text m = Ok text)
    (Htext : Text.truthy text = true)
    (Hknown : UserCRUD.get_user_by_phone (db w) (get_sender m) = Some user)
    (Hopen : in_maintenance (db w) user = false)
    (Hverb : parse_command text = ("request", args)) :
  handle_message handlers ovs now m w =
  match args with
  | [] =>
      send_response (at_router w now user) (phone_number user)
        ("❌ Please specify what you want to request." +:+ nl +:+
         "Example: `request The Matrix`") (Some m)
  | _ =>
      process_media_request ovs now (UserCRUD.set_last_active user now)
        (Text.join " " args) m (at_router w now user)
  end /\
  Text.split (Text.join " " args) = args /\
  exists s, message m = Some s /\ args = tl (Text.split s).
Proof.
  split; [| split].
  - unfold handle_message. rewrite Hget, Htext. cbn [negb db with_db].
    rewrite get_user_by_phone_create_log, Hknown.
    rewrite get_setting_update_user.
    change (String.eqb _ "true" && negb (is_admin (UserCRUD.set_last_active user now)))
      with (in_maintenance (db w) user).
    rewrite Hopen, Hverb.
    destruct args; reflexivity.
  - apply split_join. eapply parse_command_words. exact Hverb.
  - destruct (get_text_ok m text Hget) as (s & Hs & ->).
    exists s. split; [exact Hs |].
    unfold parse_command in Hverb. rewrite !split_strip in Hverb.
    destruct (Text.split s); injection Hverb as _ <-; reflexivity.
Qed.

(** Alice writes the verb in capitals and with wide gaps. *)
Lemma request_verb_passes_words_witness :
  let m := Sample.text_from "+15550001" "  /REQUEST   The    Matrix " in
  let w := Sample.world [] in
  let ovs := Sample.overseerr (Created (Some 7)) 2 in
  handle_message Sample.idle_handlers ovs 5000 m w
  = process_media_request ovs 5000 (UserCRUD.set_last_active Sample.alice 5000)
      "The Matrix" m (at_router w 5000 Sample.alice).
Proof.
  intros m w ovs.
  assert (H0 : get_text m = Ok "/REQUEST   The    Matrix") by reflexivity.
  assert (H1 : Text.truthy "/REQUEST   The    Matrix" = true) by reflexivity.
  assert (H2 : UserCRUD.get_user_by_phone (db w) (get_sender m) = Some Sample.alice)
    by reflexivity.
  assert (H3 : in_maintenance (db w) Sample.alice = false)
    by (vm_compute; reflexivity).
  assert (H4 : parse_command "/REQUEST   The    Matrix" = ("request", ["The"; "Matrix"]))
    by reflexivity.
  exact (proj1 (request_verb_passes_words Sample.idle_handlers ovs 5000 m w
                  Sample.alice "/REQUEST   The    Matrix" ["The"; "Matrix"]
                  H0 H1 H2 H3 H4)).
Defined.

End RequestVerb.

(** ** Recent requests *)

Section Recent.

Import MediaRequestCRUD.

(** X21.  [get_recent_requests] lists requests of the table created within
    the last [days] days before now, the newest first, and at most [limit]
    of them: the [limit] newest, or all if there are fewer.  A limit of 0
    gives the empty list, while [get_user_requests] reads a limit of 0 as no
    limit. *)
Theorem recent_requests_are_the_newest (d : Database) (now days : Z) (limit : N) :
  let rows := get_recent_requests d now days limit in
  let recent (r : MediaRequest) : Prop := now - 86400 * days <= created_at r in
  Forall (fun r => In r (media_requests d) /\ recent r) rows /\
  StronglySorted newer rows /\
  (exists left_out,
     rows ++ left_out ≡ₚ filter recent (media_requests d) /\
     (forall x y, In x rows -> In y left_out -> newer x y)) /\
  length rows
  = Nat.min (N.to_nat limit) (length (filter recent (media_requests d))) /\
  get_recent_requests d now days 0 = [] /\
  (forall uid,
     get_user_requests d uid None (Some 0%N) = get_user_requests d uid None None).
Proof.
  intros rows recent. subst rows. unfold get_recent_requests.
  fold (filter recent (media_requests d)).
  set (found := filter recent (media_requests d)).
  pose proof (order_by_sorted found) as Hsorted.
  pose proof (order_by_perm found) as Hperm.
  set (sorted := order_by_created_at_desc found) in *.
  destruct (take_newest (N.to_nat limit) sorted Hsorted) as [Hs Hcross].
  assert (Hall : Forall (fun r => In r (media_requests d) /\ recent r) sorted).
  { apply Forall_forall. intros r Hr. rewrite Hperm in Hr.
    apply list_elem_of_filter in Hr as [Hw Hin].
    split; [apply list_elem_of_In; exact Hin | exact Hw]. }
  assert (Hlen : length (take (N.to_nat limit) sorted)
                 = Nat.min (N.to_nat limit) (length found))
    by (rewrite length_take, Hperm; reflexivity).
  split; [exact (Forall_take _ _ _ Hall) |].
  split; [exact Hs |]. split.
  { exists (drop (N.to_nat limit) sorted).
    split; [rewrite take_drop; exact Hperm | exact Hcross]. }
  split; [exact Hlen |].
  split; reflexivity.
Qed.

End Recent.

(** ** The text of a status update *)

Section StatusText.

Import SignalerrBot.

Lemma prefix_app (sub post : string) : String.prefix sub (sub +:+ post) = true.
Proof.
  induction sub as [| a sub IH]; [destruct post; reflexivity |].
  rewrite append_cons. cbn [String.prefix].
  destruct (ascii_dec a a); [exact IH | congruence].
Qed.

Lemma contains_here (sub post : string) : Text.contains sub (sub +:+ post) = true.
Proof.
  destruct (sub +:+ post) eqn:Heq; cbn [Text.contains]; unfold Text.startswith;
    rewrite <- Heq, prefix_app; reflexivity.
Qed.

Lemma contains_skip (sub pre s : string) :
  Text.contains sub s = true -> Text.contains sub (pre +:+ s) = true.
Proof.
  intros H. induction pre as [| a pre IH]; [exact H |].
  rewrite append_cons. cbn [Text.contains]. rewrite IH. apply orb_true_r.
Qed.

(** X22.  Every status update names the title of the request, whatever the
    verbosity of the user and whatever the status, also one that has no text
    of its own. *)
Theorem status_update_names_the_title
    (user : User) (request : MediaRequest) (status_text : string) (now : Z) :
  Text.contains (title request)
    (format_status_message user request status_text now) = true.
Proof.
  unfold format_status_message.
  destruct (verbosity_level user);
    repeat match goal with
           | |- context [if ?b then _ else _] => destruct b
           end;
    repeat (apply contains_here || apply contains_skip).
Qed.

End StatusText.
